(** * The query guard of the NL-to-SQL demo (src/app.py)

    A shallow embedding of [clean_sql_query], [generate_sql_query],
    [execute_sql_query] and the button handler of [main], followed by the
    properties of the specification that concern them.

    A Python [str] is a list of code points.  [str.upper], [str.lower],
    [str.strip] and the classes [\s] and [\w] of module [re] are embedded
    with the tables of CPython 3.11 (Unicode 14.0.0): the full case mappings,
    [Py_UNICODE_ISSPACE], [Py_UNICODE_ISALNUM], and the Cased and
    Case_Ignorable properties that [str.lower] consults at a capital sigma. *)

From Stdlib Require Import List Ascii String Bool Arith NArith Lia.
Import ListNotations.

Local Open Scope list_scope.

(** ** Python strings *)

Definition str := list N.

(** A character is written as its ASCII literal and stands for its code
    point. *)
Definition code_of_bytes (l : list Byte.byte) : option N :=
  match l with
  | [b] => Some (Byte.to_N b)
  | _ => None
  end.

Definition bytes_of_code (c : N) : option (list Byte.byte) :=
  match Byte.of_N c with
  | Some b => Some [b]
  | None => None
  end.

Declare Scope cp_scope.
Delimit Scope cp_scope with cp.
String Notation N code_of_bytes bytes_of_code : cp_scope.
Notation "a =? b" := (N.eqb a b) (at level 70) : cp_scope.
Local Open Scope cp_scope.

Definition cp (a : ascii) : N := N_of_ascii a.

Notation "'$' s" := (map cp (list_ascii_of_string s%string))
  (at level 8, s at level 0, format "'$' s").

(** *** The Unicode tables of CPython 3.11 *)

(** [spaces], [case_ignorable_ranges] and [cased_ranges] are complete;
    [word_ranges], [upper_table] and [lower_table] list the code points from
    128 up, and the functions below write the ASCII range out. *)

Definition spaces : list N :=
  ([ 9; 10; 11; 12; 13; 28; 29; 30; 31; 32; 133; 160; 5760; 8192; 8193; 8194;
     8195; 8196; 8197; 8198; 8199; 8200; 8201; 8202; 8232; 8233; 8239; 8287;
     12288 ])%N.

Definition word_ranges : list (N * N) :=
  ([ (170, 170); (178, 179); (181, 181); (185, 186); (188, 190); (192, 214);
     (216, 246); (248, 705); (710, 721); (736, 740); (748, 748); (750, 750);
     (880, 884); (886, 887); (890, 893); (895, 895); (902, 902); (904, 906);
     (908, 908); (910, 929); (931, 1013); (1015, 1153); (1162, 1327);
     (1329, 1366); (1369, 1369); (1376, 1416); (1488, 1514); (1519, 1522);
     (1568, 1610); (1632, 1641); (1646, 1647); (1649, 1747); (1749, 1749);
     (1765, 1766); (1774, 1788); (1791, 1791); (1808, 1808); (1810, 1839);
     (1869, 1957); (1969, 1969); (1984, 2026); (2036, 2037); (2042, 2042);
     (2048, 2069); (2074, 2074); (2084, 2084); (2088, 2088); (2112, 2136);
     (2144, 2154); (2160, 2183); (2185, 2190); (2208, 2249); (2308, 2361);
     (2365, 2365); (2384, 2384); (2392, 2401); (2406, 2415); (2417, 2432);
     (2437, 2444); (2447, 2448); (2451, 2472); (2474, 2480); (2482, 2482);
     (2486, 2489); (2493, 2493); (2510, 2510); (2524, 2525); (2527, 2529);
     (2534, 2545); (2548, 2553); (2556, 2556); (2565, 2570); (2575, 2576);
     (2579, 2600); (2602, 2608); (2610, 2611); (2613, 2614); (2616, 2617);
     (2649, 2652); (2654, 2654); (2662, 2671); (2674, 2676); (2693, 2701);
     (2703, 2705); (2707, 2728); (2730, 2736); (2738, 2739); (2741, 2745);
     (2749, 2749); (2768, 2768); (2784, 2785); (2790, 2799); (2809, 2809);
     (2821, 2828); (2831, 2832); (2835, 2856); (2858, 2864); (2866, 2867);
     (2869, 2873); (2877, 2877); (2908, 2909); (2911, 2913); (2918, 2927);
     (2929, 2935); (2947, 2947); (2949, 2954); (2958, 2960); (2962, 2965);
     (2969, 2970); (2972, 2972); (2974, 2975); (2979, 2980); (2984, 2986);
     (2990, 3001); (3024, 3024); (3046, 3058); (3077, 3084); (3086, 3088);
     (3090, 3112); (3114, 3129); (3133, 3133); (3160, 3162); (3165, 3165);
     (3168, 3169); (3174, 3183); (3192, 3198); (3200, 3200); (3205, 3212);
     (3214, 3216); (3218, 3240); (3242, 3251); (3253, 3257); (3261, 3261);
     (3293, 3294); (3296, 3297); (3302, 3311); (3313, 3314); (3332, 3340);
     (3342, 3344); (3346, 3386); (3389, 3389); (3406, 3406); (3412, 3414);
     (3416, 3425); (3430, 3448); (3450, 3455); (3461, 3478); (3482, 3505);
     (3507, 3515); (3517, 3517); (3520, 3526); (3558, 3567); (3585, 3632);
     (3634, 3635); (3648, 3654); (3664, 3673); (3713, 3714); (3716, 3716);
     (3718, 3722); (3724, 3747); (3749, 3749); (3751, 3760); (3762, 3763);
     (3773, 3773); (3776, 3780); (3782, 3782); (3792, 3801); (3804, 3807);
     (3840, 3840); (3872, 3891); (3904, 3911); (3913, 3948); (3976, 3980);
     (4096, 4138); (4159, 4169); (4176, 4181); (4186, 4189); (4193, 4193);
     (4197, 4198); (4206, 4208); (4213, 4225); (4238, 4238); (4240, 4249);
     (4256, 4293); (4295, 4295); (4301, 4301); (4304, 4346); (4348, 4680);
     (4682, 4685); (4688, 4694); (4696, 4696); (4698, 4701); (4704, 4744);
     (4746, 4749); (4752, 4784); (4786, 4789); (4792, 4798); (4800, 4800);
     (4802, 4805); (4808, 4822); (4824, 4880); (4882, 4885); (4888, 4954);
     (4969, 4988); (4992, 5007); (5024, 5109); (5112, 5117); (5121, 5740);
     (5743, 5759); (5761, 5786); (5792, 5866); (5870, 5880); (5888, 5905);
     (5919, 5937); (5952, 5969); (5984, 5996); (5998, 6000); (6016, 6067);
     (6103, 6103); (6108, 6108); (6112, 6121); (6128, 6137); (6160, 6169);
     (6176, 6264); (6272, 6276); (6279, 6312); (6314, 6314); (6320, 6389);
     (6400, 6430); (6470, 6509); (6512, 6516); (6528, 6571); (6576, 6601);
     (6608, 6618); (6656, 6678); (6688, 6740); (6784, 6793); (6800, 6809);
     (6823, 6823); (6917, 6963); (6981, 6988); (6992, 7001); (7043, 7072);
     (7086, 7141); (7168, 7203); (7232, 7241); (7245, 7293); (7296, 7304);
     (7312, 7354); (7357, 7359); (7401, 7404); (7406, 7411); (7413, 7414);
     (7418, 7418); (7424, 7615); (7680, 7957); (7960, 7965); (7968, 8005);
     (8008, 8013); (8016, 8023); (8025, 8025); (8027, 8027); (8029, 8029);
     (8031, 8061); (8064, 8116); (8118, 8124); (8126, 8126); (8130, 8132);
     (8134, 8140); (8144, 8147); (8150, 8155); (8160, 8172); (8178, 8180);
     (8182, 8188); (8304, 8305); (8308, 8313); (8319, 8329); (8336, 8348);
     (8450, 8450); (8455, 8455); (8458, 8467); (8469, 8469); (8473, 8477);
     (8484, 8484); (8486, 8486); (8488, 8488); (8490, 8493); (8495, 8505);
     (8508, 8511); (8517, 8521); (8526, 8526); (8528, 8585); (9312, 9371);
     (9450, 9471); (10102, 10131); (11264, 11492); (11499, 11502); (11506, 11507);
     (11517, 11517); (11520, 11557); (11559, 11559); (11565, 11565);
     (11568, 11623); (11631, 11631); (11648, 11670); (11680, 11686);
     (11688, 11694); (11696, 11702); (11704, 11710); (11712, 11718);
     (11720, 11726); (11728, 11734); (11736, 11742); (11823, 11823);
     (12293, 12295); (12321, 12329); (12337, 12341); (12344, 12348);
     (12353, 12438); (12445, 12447); (12449, 12538); (12540, 12543);
     (12549, 12591); (12593, 12686); (12690, 12693); (12704, 12735);
     (12784, 12799); (12832, 12841); (12872, 12879); (12881, 12895);
     (12928, 12937); (12977, 12991); (13312, 19903); (19968, 42124);
     (42192, 42237); (42240, 42508); (42512, 42539); (42560, 42606);
     (42623, 42653); (42656, 42735); (42775, 42783); (42786, 42888);
     (42891, 42954); (42960, 42961); (42963, 42963); (42965, 42969);
     (42994, 43009); (43011, 43013); (43015, 43018); (43020, 43042);
     (43056, 43061); (43072, 43123); (43138, 43187); (43216, 43225);
     (43250, 43255); (43259, 43259); (43261, 43262); (43264, 43301);
     (43312, 43334); (43360, 43388); (43396, 43442); (43471, 43481);
     (43488, 43492); (43494, 43518); (43520, 43560); (43584, 43586);
     (43588, 43595); (43600, 43609); (43616, 43638); (43642, 43642);
     (43646, 43695); (43697, 43697); (43701, 43702); (43705, 43709);
     (43712, 43712); (43714, 43714); (43739, 43741); (43744, 43754);
     (43762, 43764); (43777, 43782); (43785, 43790); (43793, 43798);
     (43808, 43814); (43816, 43822); (43824, 43866); (43868, 43881);
     (43888, 44002); (44016, 44025); (44032, 55203); (55216, 55238);
     (55243, 55291); (63744, 64109); (64112, 64217); (64256, 64262);
     (64275, 64279); (64285, 64285); (64287, 64296); (64298, 64310);
     (64312, 64316); (64318, 64318); (64320, 64321); (64323, 64324);
     (64326, 64433); (64467, 64829); (64848, 64911); (64914, 64967);
     (65008, 65019); (65136, 65140); (65142, 65276); (65296, 65305);
     (65313, 65338); (65345, 65370); (65382, 65470); (65474, 65479);
     (65482, 65487); (65490, 65495); (65498, 65500); (65536, 65547);
     (65549, 65574); (65576, 65594); (65596, 65597); (65599, 65613);
     (65616, 65629); (65664, 65786); (65799, 65843); (65856, 65912);
     (65930, 65931); (66176, 66204); (66208, 66256); (66273, 66299);
     (66304, 66339); (66349, 66378); (66384, 66421); (66432, 66461);
     (66464, 66499); (66504, 66511); (66513, 66517); (66560, 66717);
     (66720, 66729); (66736, 66771); (66776, 66811); (66816, 66855);
     (66864, 66915); (66928, 66938); (66940, 66954); (66956, 66962);
     (66964, 66965); (66967, 66977); (66979, 66993); (66995, 67001);
     (67003, 67004); (67072, 67382); (67392, 67413); (67424, 67431);
     (67456, 67461); (67463, 67504); (67506, 67514); (67584, 67589);
     (67592, 67592); (67594, 67637); (67639, 67640); (67644, 67644);
     (67647, 67669); (67672, 67702); (67705, 67742); (67751, 67759);
     (67808, 67826); (67828, 67829); (67835, 67867); (67872, 67897);
     (67968, 68023); (68028, 68047); (68050, 68096); (68112, 68115);
     (68117, 68119); (68121, 68149); (68160, 68168); (68192, 68222);
     (68224, 68255); (68288, 68295); (68297, 68324); (68331, 68335);
     (68352, 68405); (68416, 68437); (68440, 68466); (68472, 68497);
     (68521, 68527); (68608, 68680); (68736, 68786); (68800, 68850);
     (68858, 68899); (68912, 68921); (69216, 69246); (69248, 69289);
     (69296, 69297); (69376, 69415); (69424, 69445); (69457, 69460);
     (69488, 69505); (69552, 69579); (69600, 69622); (69635, 69687);
     (69714, 69743); (69745, 69746); (69749, 69749); (69763, 69807);
     (69840, 69864); (69872, 69881); (69891, 69926); (69942, 69951);
     (69956, 69956); (69959, 69959); (69968, 70002); (70006, 70006);
     (70019, 70066); (70081, 70084); (70096, 70106); (70108, 70108);
     (70113, 70132); (70144, 70161); (70163, 70187); (70272, 70278);
     (70280, 70280); (70282, 70285); (70287, 70301); (70303, 70312);
     (70320, 70366); (70384, 70393); (70405, 70412); (70415, 70416);
     (70419, 70440); (70442, 70448); (70450, 70451); (70453, 70457);
     (70461, 70461); (70480, 70480); (70493, 70497); (70656, 70708);
     (70727, 70730); (70736, 70745); (70751, 70753); (70784, 70831);
     (70852, 70853); (70855, 70855); (70864, 70873); (71040, 71086);
     (71128, 71131); (71168, 71215); (71236, 71236); (71248, 71257);
     (71296, 71338); (71352, 71352); (71360, 71369); (71424, 71450);
     (71472, 71483); (71488, 71494); (71680, 71723); (71840, 71922);
     (71935, 71942); (71945, 71945); (71948, 71955); (71957, 71958);
     (71960, 71983); (71999, 71999); (72001, 72001); (72016, 72025);
     (72096, 72103); (72106, 72144); (72161, 72161); (72163, 72163);
     (72192, 72192); (72203, 72242); (72250, 72250); (72272, 72272);
     (72284, 72329); (72349, 72349); (72368, 72440); (72704, 72712);
     (72714, 72750); (72768, 72768); (72784, 72812); (72818, 72847);
     (72960, 72966); (72968, 72969); (72971, 73008); (73030, 73030);
     (73040, 73049); (73056, 73061); (73063, 73064); (73066, 73097);
     (73112, 73112); (73120, 73129); (73440, 73458); (73648, 73648);
     (73664, 73684); (73728, 74649); (74752, 74862); (74880, 75075);
     (77712, 77808); (77824, 78894); (82944, 83526); (92160, 92728);
     (92736, 92766); (92768, 92777); (92784, 92862); (92864, 92873);
     (92880, 92909); (92928, 92975); (92992, 92995); (93008, 93017);
     (93019, 93025); (93027, 93047); (93053, 93071); (93760, 93846);
     (93952, 94026); (94032, 94032); (94099, 94111); (94176, 94177);
     (94179, 94179); (94208, 100343); (100352, 101589); (101632, 101640);
     (110576, 110579); (110581, 110587); (110589, 110590); (110592, 110882);
     (110928, 110930); (110948, 110951); (110960, 111355); (113664, 113770);
     (113776, 113788); (113792, 113800); (113808, 113817); (119520, 119539);
     (119648, 119672); (119808, 119892); (119894, 119964); (119966, 119967);
     (119970, 119970); (119973, 119974); (119977, 119980); (119982, 119993);
     (119995, 119995); (119997, 120003); (120005, 120069); (120071, 120074);
     (120077, 120084); (120086, 120092); (120094, 120121); (120123, 120126);
     (120128, 120132); (120134, 120134); (120138, 120144); (120146, 120485);
     (120488, 120512); (120514, 120538); (120540, 120570); (120572, 120596);
     (120598, 120628); (120630, 120654); (120656, 120686); (120688, 120712);
     (120714, 120744); (120746, 120770); (120772, 120779); (120782, 120831);
     (122624, 122654); (123136, 123180); (123191, 123197); (123200, 123209);
     (123214, 123214); (123536, 123565); (123584, 123627); (123632, 123641);
     (124896, 124902); (124904, 124907); (124909, 124910); (124912, 124926);
     (124928, 125124); (125127, 125135); (125184, 125251); (125259, 125259);
     (125264, 125273); (126065, 126123); (126125, 126127); (126129, 126132);
     (126209, 126253); (126255, 126269); (126464, 126467); (126469, 126495);
     (126497, 126498); (126500, 126500); (126503, 126503); (126505, 126514);
     (126516, 126519); (126521, 126521); (126523, 126523); (126530, 126530);
     (126535, 126535); (126537, 126537); (126539, 126539); (126541, 126543);
     (126545, 126546); (126548, 126548); (126551, 126551); (126553, 126553);
     (126555, 126555); (126557, 126557); (126559, 126559); (126561, 126562);
     (126564, 126564); (126567, 126570); (126572, 126578); (126580, 126583);
     (126585, 126588); (126590, 126590); (126592, 126601); (126603, 126619);
     (126625, 126627); (126629, 126633); (126635, 126651); (127232, 127244);
     (130032, 130041); (131072, 173791); (173824, 177976); (177984, 178205);
     (178208, 183969); (183984, 191456); (194560, 195101); (196608, 201546) ])%N.

Definition upper_table : list (N * list N) :=
  ([ (181, [924]); (223, [83; 83]); (224, [192]); (225, [193]); (226, [194]);
     (227, [195]); (228, [196]); (229, [197]); (230, [198]); (231, [199]);
     (232, [200]); (233, [201]); (234, [202]); (235, [203]); (236, [204]);
     (237, [205]); (238, [206]); (239, [207]); (240, [208]); (241, [209]);
     (242, [210]); (243, [211]); (244, [212]); (245, [213]); (246, [214]);
     (248, [216]); (249, [217]); (250, [218]); (251, [219]); (252, [220]);
     (253, [221]); (254, [222]); (255, [376]); (257, [256]); (259, [258]);
     (261, [260]); (263, [262]); (265, [264]); (267, [266]); (269, [268]);
     (271, [270]); (273, [272]); (275, [274]); (277, [276]); (279, [278]);
     (281, [280]); (283, [282]); (285, [284]); (287, [286]); (289, [288]);
     (291, [290]); (293, [292]); (295, [294]); (297, [296]); (299, [298]);
     (301, [300]); (303, [302]); (305, [73]); (307, [306]); (309, [308]);
     (311, [310]); (314, [313]); (316, [315]); (318, [317]); (320, [319]);
     (322, [321]); (324, [323]); (326, [325]); (328, [327]); (329, [700; 78]);
     (331, [330]); (333, [332]); (335, [334]); (337, [336]); (339, [338]);
     (341, [340]); (343, [342]); (345, [344]); (347, [346]); (349, [348]);
     (351, [350]); (353, [352]); (355, [354]); (357, [356]); (359, [358]);
     (361, [360]); (363, [362]); (365, [364]); (367, [366]); (369, [368]);
     (371, [370]); (373, [372]); (375, [374]); (378, [377]); (380, [379]);
     (382, [381]); (383, [83]); (384, [579]); (387, [386]); (389, [388]);
     (392, [391]); (396, [395]); (402, [401]); (405, [502]); (409, [408]);
     (410, [573]); (414, [544]); (417, [416]); (419, [418]); (421, [420]);
     (424, [423]); (429, [428]); (432, [431]); (436, [435]); (438, [437]);
     (441, [440]); (445, [444]); (447, [503]); (453, [452]); (454, [452]);
     (456, [455]); (457, [455]); (459, [458]); (460, [458]); (462, [461]);
     (464, [463]); (466, [465]); (468, [467]); (470, [469]); (472, [471]);
     (474, [473]); (476, [475]); (477, [398]); (479, [478]); (481, [480]);
     (483, [482]); (485, [484]); (487, [486]); (489, [488]); (491, [490]);
     (493, [492]); (495, [494]); (496, [74; 780]); (498, [497]); (499, [497]);
     (501, [500]); (505, [504]); (507, [506]); (509, [508]); (511, [510]);
     (513, [512]); (515, [514]); (517, [516]); (519, [518]); (521, [520]);
     (523, [522]); (525, [524]); (527, [526]); (529, [528]); (531, [530]);
     (533, [532]); (535, [534]); (537, [536]); (539, [538]); (541, [540]);
     (543, [542]); (547, [546]); (549, [548]); (551, [550]); (553, [552]);
     (555, [554]); (557, [556]); (559, [558]); (561, [560]); (563, [562]);
     (572, [571]); (575, [11390]); (576, [11391]); (578, [577]); (583, [582]);
     (585, [584]); (587, [586]); (589, [588]); (591, [590]); (592, [11375]);
     (593, [11373]); (594, [11376]); (595, [385]); (596, [390]); (598, [393]);
     (599, [394]); (601, [399]); (603, [400]); (604, [42923]); (608, [403]);
     (609, [42924]); (611, [404]); (613, [42893]); (614, [42922]); (616, [407]);
     (617, [406]); (618, [42926]); (619, [11362]); (620, [42925]); (623, [412]);
     (625, [11374]); (626, [413]); (629, [415]); (637, [11364]); (640, [422]);
     (642, [42949]); (643, [425]); (647, [42929]); (648, [430]); (649, [580]);
     (650, [433]); (651, [434]); (652, [581]); (658, [439]); (669, [42930]);
     (670, [42928]); (837, [921]); (881, [880]); (883, [882]); (887, [886]);
     (891, [1021]); (892, [1022]); (893, [1023]); (912, [921; 776; 769]);
     (940, [902]); (941, [904]); (942, [905]); (943, [906]);
     (944, [933; 776; 769]); (945, [913]); (946, [914]); (947, [915]);
     (948, [916]); (949, [917]); (950, [918]); (951, [919]); (952, [920]);
     (953, [921]); (954, [922]); (955, [923]); (956, [924]); (957, [925]);
     (958, [926]); (959, [927]); (960, [928]); (961, [929]); (962, [931]);
     (963, [931]); (964, [932]); (965, [933]); (966, [934]); (967, [935]);
     (968, [936]); (969, [937]); (970, [938]); (971, [939]); (972, [908]);
     (973, [910]); (974, [911]); (976, [914]); (977, [920]); (981, [934]);
     (982, [928]); (983, [975]); (985, [984]); (987, [986]); (989, [988]);
     (991, [990]); (993, [992]); (995, [994]); (997, [996]); (999, [998]);
     (1001, [1000]); (1003, [1002]); (1005, [1004]); (1007, [1006]);
     (1008, [922]); (1009, [929]); (1010, [1017]); (1011, [895]); (1013, [917]);
     (1016, [1015]); (1019, [1018]); (1072, [1040]); (1073, [1041]);
     (1074, [1042]); (1075, [1043]); (1076, [1044]); (1077, [1045]);
     (1078, [1046]); (1079, [1047]); (1080, [1048]); (1081, [1049]);
     (1082, [1050]); (1083, [1051]); (1084, [1052]); (1085, [1053]);
     (1086, [1054]); (1087, [1055]); (1088, [1056]); (1089, [1057]);
     (1090, [1058]); (1091, [1059]); (1092, [1060]); (1093, [1061]);
     (1094, [1062]); (1095, [1063]); (1096, [1064]); (1097, [1065]);
     (1098, [1066]); (1099, [1067]); (1100, [1068]); (1101, [1069]);
     (1102, [1070]); (1103, [1071]); (1104, [1024]); (1105, [1025]);
     (1106, [1026]); (1107, [1027]); (1108, [1028]); (1109, [1029]);
     (1110, [1030]); (1111, [1031]); (1112, [1032]); (1113, [1033]);
     (1114, [1034]); (1115, [1035]); (1116, [1036]); (1117, [1037]);
     (1118, [1038]); (1119, [1039]); (1121, [1120]); (1123, [1122]);
     (1125, [1124]); (1127, [1126]); (1129, [1128]); (1131, [1130]);
     (1133, [1132]); (1135, [1134]); (1137, [1136]); (1139, [1138]);
     (1141, [1140]); (1143, [1142]); (1145, [1144]); (1147, [1146]);
     (1149, [1148]); (1151, [1150]); (1153, [1152]); (1163, [1162]);
     (1165, [1164]); (1167, [1166]); (1169, [1168]); (1171, [1170]);
     (1173, [1172]); (1175, [1174]); (1177, [1176]); (1179, [1178]);
     (1181, [1180]); (1183, [1182]); (1185, [1184]); (1187, [1186]);
     (1189, [1188]); (1191, [1190]); (1193, [1192]); (1195, [1194]);
     (1197, [1196]); (1199, [1198]); (1201, [1200]); (1203, [1202]);
     (1205, [1204]); (1207, [1206]); (1209, [1208]); (1211, [1210]);
     (1213, [1212]); (1215, [1214]); (1218, [1217]); (1220, [1219]);
     (1222, [1221]); (1224, [1223]); (1226, [1225]); (1228, [1227]);
     (1230, [1229]); (1231, [1216]); (1233, [1232]); (1235, [1234]);
     (1237, [1236]); (1239, [1238]); (1241, [1240]); (1243, [1242]);
     (1245, [1244]); (1247, [1246]); (1249, [1248]); (1251, [1250]);
     (1253, [1252]); (1255, [1254]); (1257, [1256]); (1259, [1258]);
     (1261, [1260]); (1263, [1262]); (1265, [1264]); (1267, [1266]);
     (1269, [1268]); (1271, [1270]); (1273, [1272]); (1275, [1274]);
     (1277, [1276]); (1279, [1278]); (1281, [1280]); (1283, [1282]);
     (1285, [1284]); (1287, [1286]); (1289, [1288]); (1291, [1290]);
     (1293, [1292]); (1295, [1294]); (1297, [1296]); (1299, [1298]);
     (1301, [1300]); (1303, [1302]); (1305, [1304]); (1307, [1306]);
     (1309, [1308]); (1311, [1310]); (1313, [1312]); (1315, [1314]);
     (1317, [1316]); (1319, [1318]); (1321, [1320]); (1323, [1322]);
     (1325, [1324]); (1327, [1326]); (1377, [1329]); (1378, [1330]);
     (1379, [1331]); (1380, [1332]); (1381, [1333]); (1382, [1334]);
     (1383, [1335]); (1384, [1336]); (1385, [1337]); (1386, [1338]);
     (1387, [1339]); (1388, [1340]); (1389, [1341]); (1390, [1342]);
     (1391, [1343]); (1392, [1344]); (1393, [1345]); (1394, [1346]);
     (1395, [1347]); (1396, [1348]); (1397, [1349]); (1398, [1350]);
     (1399, [1351]); (1400, [1352]); (1401, [1353]); (1402, [1354]);
     (1403, [1355]); (1404, [1356]); (1405, [1357]); (1406, [1358]);
     (1407, [1359]); (1408, [1360]); (1409, [1361]); (1410, [1362]);
     (1411, [1363]); (1412, [1364]); (1413, [1365]); (1414, [1366]);
     (1415, [1333; 1362]); (4304, [7312]); (4305, [7313]); (4306, [7314]);
     (4307, [7315]); (4308, [7316]); (4309, [7317]); (4310, [7318]);
     (4311, [7319]); (4312, [7320]); (4313, [7321]); (4314, [7322]);
     (4315, [7323]); (4316, [7324]); (4317, [7325]); (4318, [7326]);
     (4319, [7327]); (4320, [7328]); (4321, [7329]); (4322, [7330]);
     (4323, [7331]); (4324, [7332]); (4325, [7333]); (4326, [7334]);
     (4327, [7335]); (4328, [7336]); (4329, [7337]); (4330, [7338]);
     (4331, [7339]); (4332, [7340]); (4333, [7341]); (4334, [7342]);
     (4335, [7343]); (4336, [7344]); (4337, [7345]); (4338, [7346]);
     (4339, [7347]); (4340, [7348]); (4341, [7349]); (4342, [7350]);
     (4343, [7351]); (4344, [7352]); (4345, [7353]); (4346, [7354]);
     (4349, [7357]); (4350, [7358]); (4351, [7359]); (5112, [5104]);
     (5113, [5105]); (5114, [5106]); (5115, [5107]); (5116, [5108]);
     (5117, [5109]); (7296, [1042]); (7297, [1044]); (7298, [1054]);
     (7299, [1057]); (7300, [1058]); (7301, [1058]); (7302, [1066]);
     (7303, [1122]); (7304, [42570]); (7545, [42877]); (7549, [11363]);
     (7566, [42950]); (7681, [7680]); (7683, [7682]); (7685, [7684]);
     (7687, [7686]); (7689, [7688]); (7691, [7690]); (7693, [7692]);
     (7695, [7694]); (7697, [7696]); (7699, [7698]); (7701, [7700]);
     (7703, [7702]); (7705, [7704]); (7707, [7706]); (7709, [7708]);
     (7711, [7710]); (7713, [7712]); (7715, [7714]); (7717, [7716]);
     (7719, [7718]); (7721, [7720]); (7723, [7722]); (7725, [7724]);
     (7727, [7726]); (7729, [7728]); (7731, [7730]); (7733, [7732]);
     (7735, [7734]); (7737, [7736]); (7739, [7738]); (7741, [7740]);
     (7743, [7742]); (7745, [7744]); (7747, [7746]); (7749, [7748]);
     (7751, [7750]); (7753, [7752]); (7755, [7754]); (7757, [7756]);
     (7759, [7758]); (7761, [7760]); (7763, [7762]); (7765, [7764]);
     (7767, [7766]); (7769, [7768]); (7771, [7770]); (7773, [7772]);
     (7775, [7774]); (7777, [7776]); (7779, [7778]); (7781, [7780]);
     (7783, [7782]); (7785, [7784]); (7787, [7786]); (7789, [7788]);
     (7791, [7790]); (7793, [7792]); (7795, [7794]); (7797, [7796]);
     (7799, [7798]); (7801, [7800]); (7803, [7802]); (7805, [7804]);
     (7807, [7806]); (7809, [7808]); (7811, [7810]); (7813, [7812]);
     (7815, [7814]); (7817, [7816]); (7819, [7818]); (7821, [7820]);
     (7823, [7822]); (7825, [7824]); (7827, [7826]); (7829, [7828]);
     (7830, [72; 817]); (7831, [84; 776]); (7832, [87; 778]); (7833, [89; 778]);
     (7834, [65; 702]); (7835, [7776]); (7841, [7840]); (7843, [7842]);
     (7845, [7844]); (7847, [7846]); (7849, [7848]); (7851, [7850]);
     (7853, [7852]); (7855, [7854]); (7857, [7856]); (7859, [7858]);
     (7861, [7860]); (7863, [7862]); (7865, [7864]); (7867, [7866]);
     (7869, [7868]); (7871, [7870]); (7873, [7872]); (7875, [7874]);
     (7877, [7876]); (7879, [7878]); (7881, [7880]); (7883, [7882]);
     (7885, [7884]); (7887, [7886]); (7889, [7888]); (7891, [7890]);
     (7893, [7892]); (7895, [7894]); (7897, [7896]); (7899, [7898]);
     (7901, [7900]); (7903, [7902]); (7905, [7904]); (7907, [7906]);
     (7909, [7908]); (7911, [7910]); (7913, [7912]); (7915, [7914]);
     (7917, [7916]); (7919, [7918]); (7921, [7920]); (7923, [7922]);
     (7925, [7924]); (7927, [7926]); (7929, [7928]); (7931, [7930]);
     (7933, [7932]); (7935, [7934]); (7936, [7944]); (7937, [7945]);
     (7938, [7946]); (7939, [7947]); (7940, [7948]); (7941, [7949]);
     (7942, [7950]); (7943, [7951]); (7952, [7960]); (7953, [7961]);
     (7954, [7962]); (7955, [7963]); (7956, [7964]); (7957, [7965]);
     (7968, [7976]); (7969, [7977]); (7970, [7978]); (7971, [7979]);
     (7972, [7980]); (7973, [7981]); (7974, [7982]); (7975, [7983]);
     (7984, [7992]); (7985, [7993]); (7986, [7994]); (7987, [7995]);
     (7988, [7996]); (7989, [7997]); (7990, [7998]); (7991, [7999]);
     (8000, [8008]); (8001, [8009]); (8002, [8010]); (8003, [8011]);
     (8004, [8012]); (8005, [8013]); (8016, [933; 787]); (8017, [8025]);
     (8018, [933; 787; 768]); (8019, [8027]); (8020, [933; 787; 769]);
     (8021, [8029]); (8022, [933; 787; 834]); (8023, [8031]); (8032, [8040]);
     (8033, [8041]); (8034, [8042]); (8035, [8043]); (8036, [8044]);
     (8037, [8045]); (8038, [8046]); (8039, [8047]); (8048, [8122]);
     (8049, [8123]); (8050, [8136]); (8051, [8137]); (8052, [8138]);
     (8053, [8139]); (8054, [8154]); (8055, [8155]); (8056, [8184]);
     (8057, [8185]); (8058, [8170]); (8059, [8171]); (8060, [8186]);
     (8061, [8187]); (8064, [7944; 921]); (8065, [7945; 921]);
     (8066, [7946; 921]); (8067, [7947; 921]); (8068, [7948; 921]);
     (8069, [7949; 921]); (8070, [7950; 921]); (8071, [7951; 921]);
     (8072, [7944; 921]); (8073, [7945; 921]); (8074, [7946; 921]);
     (8075, [7947; 921]); (8076, [7948; 921]); (8077, [7949; 921]);
     (8078, [7950; 921]); (8079, [7951; 921]); (8080, [7976; 921]);
     (8081, [7977; 921]); (8082, [7978; 921]); (8083, [7979; 921]);
     (8084, [7980; 921]); (8085, [7981; 921]); (8086, [7982; 921]);
     (8087, [7983; 921]); (8088, [7976; 921]); (8089, [7977; 921]);
     (8090, [7978; 921]); (8091, [7979; 921]); (8092, [7980; 921]);
     (8093, [7981; 921]); (8094, [7982; 921]); (8095, [7983; 921]);
     (8096, [8040; 921]); (8097, [8041; 921]); (8098, [8042; 921]);
     (8099, [8043; 921]); (8100, [8044; 921]); (8101, [8045; 921]);
     (8102, [8046; 921]); (8103, [8047; 921]); (8104, [8040; 921]);
     (8105, [8041; 921]); (8106, [8042; 921]); (8107, [8043; 921]);
     (8108, [8044; 921]); (8109, [8045; 921]); (8110, [8046; 921]);
     (8111, [8047; 921]); (8112, [8120]); (8113, [8121]); (8114, [8122; 921]);
     (8115, [913; 921]); (8116, [902; 921]); (8118, [913; 834]);
     (8119, [913; 834; 921]); (8124, [913; 921]); (8126, [921]);
     (8130, [8138; 921]); (8131, [919; 921]); (8132, [905; 921]);
     (8134, [919; 834]); (8135, [919; 834; 921]); (8140, [919; 921]);
     (8144, [8152]); (8145, [8153]); (8146, [921; 776; 768]);
     (8147, [921; 776; 769]); (8150, [921; 834]); (8151, [921; 776; 834]);
     (8160, [8168]); (8161, [8169]); (8162, [933; 776; 768]);
     (8163, [933; 776; 769]); (8164, [929; 787]); (8165, [8172]);
     (8166, [933; 834]); (8167, [933; 776; 834]); (8178, [8186; 921]);
     (8179, [937; 921]); (8180, [911; 921]); (8182, [937; 834]);
     (8183, [937; 834; 921]); (8188, [937; 921]); (8526, [8498]); (8560, [8544]);
     (8561, [8545]); (8562, [8546]); (8563, [8547]); (8564, [8548]);
     (8565, [8549]); (8566, [8550]); (8567, [8551]); (8568, [8552]);
     (8569, [8553]); (8570, [8554]); (8571, [8555]); (8572, [8556]);
     (8573, [8557]); (8574, [8558]); (8575, [8559]); (8580, [8579]);
     (9424, [9398]); (9425, [9399]); (9426, [9400]); (9427, [9401]);
     (9428, [9402]); (9429, [9403]); (9430, [9404]); (9431, [9405]);
     (9432, [9406]); (9433, [9407]); (9434, [9408]); (9435, [9409]);
     (9436, [9410]); (9437, [9411]); (9438, [9412]); (9439, [9413]);
     (9440, [9414]); (9441, [9415]); (9442, [9416]); (9443, [9417]);
     (9444, [9418]); (9445, [9419]); (9446, [9420]); (9447, [9421]);
     (9448, [9422]); (9449, [9423]); (11312, [11264]); (11313, [11265]);
     (11314, [11266]); (11315, [11267]); (11316, [11268]); (11317, [11269]);
     (11318, [11270]); (11319, [11271]); (11320, [11272]); (11321, [11273]);
     (11322, [11274]); (11323, [11275]); (11324, [11276]); (11325, [11277]);
     (11326, [11278]); (11327, [11279]); (11328, [11280]); (11329, [11281]);
     (11330, [11282]); (11331, [11283]); (11332, [11284]); (11333, [11285]);
     (11334, [11286]); (11335, [11287]); (11336, [11288]); (11337, [11289]);
     (11338, [11290]); (11339, [11291]); (11340, [11292]); (11341, [11293]);
     (11342, [11294]); (11343, [11295]); (11344, [11296]); (11345, [11297]);
     (11346, [11298]); (11347, [11299]); (11348, [11300]); (11349, [11301]);
     (11350, [11302]); (11351, [11303]); (11352, [11304]); (11353, [11305]);
     (11354, [11306]); (11355, [11307]); (11356, [11308]); (11357, [11309]);
     (11358, [11310]); (11359, [11311]); (11361, [11360]); (11365, [570]);
     (11366, [574]); (11368, [11367]); (11370, [11369]); (11372, [11371]);
     (11379, [11378]); (11382, [11381]); (11393, [11392]); (11395, [11394]);
     (11397, [11396]); (11399, [11398]); (11401, [11400]); (11403, [11402]);
     (11405, [11404]); (11407, [11406]); (11409, [11408]); (11411, [11410]);
     (11413, [11412]); (11415, [11414]); (11417, [11416]); (11419, [11418]);
     (11421, [11420]); (11423, [11422]); (11425, [11424]); (11427, [11426]);
     (11429, [11428]); (11431, [11430]); (11433, [11432]); (11435, [11434]);
     (11437, [11436]); (11439, [11438]); (11441, [11440]); (11443, [11442]);
     (11445, [11444]); (11447, [11446]); (11449, [11448]); (11451, [11450]);
     (11453, [11452]); (11455, [11454]); (11457, [11456]); (11459, [11458]);
     (11461, [11460]); (11463, [11462]); (11465, [11464]); (11467, [11466]);
     (11469, [11468]); (11471, [11470]); (11473, [11472]); (11475, [11474]);
     (11477, [11476]); (11479, [11478]); (11481, [11480]); (11483, [11482]);
     (11485, [11484]); (11487, [11486]); (11489, [11488]); (11491, [11490]);
     (11500, [11499]); (11502, [11501]); (11507, [11506]); (11520, [4256]);
     (11521, [4257]); (11522, [4258]); (11523, [4259]); (11524, [4260]);
     (11525, [4261]); (11526, [4262]); (11527, [4263]); (11528, [4264]);
     (11529, [4265]); (11530, [4266]); (11531, [4267]); (11532, [4268]);
     (11533, [4269]); (11534, [4270]); (11535, [4271]); (11536, [4272]);
     (11537, [4273]); (11538, [4274]); (11539, [4275]); (11540, [4276]);
     (11541, [4277]); (11542, [4278]); (11543, [4279]); (11544, [4280]);
     (11545, [4281]); (11546, [4282]); (11547, [4283]); (11548, [4284]);
     (11549, [4285]); (11550, [4286]); (11551, [4287]); (11552, [4288]);
     (11553, [4289]); (11554, [4290]); (11555, [4291]); (11556, [4292]);
     (11557, [4293]); (11559, [4295]); (11565, [4301]); (42561, [42560]);
     (42563, [42562]); (42565, [42564]); (42567, [42566]); (42569, [42568]);
     (42571, [42570]); (42573, [42572]); (42575, [42574]); (42577, [42576]);
     (42579, [42578]); (42581, [42580]); (42583, [42582]); (42585, [42584]);
     (42587, [42586]); (42589, [42588]); (42591, [42590]); (42593, [42592]);
     (42595, [42594]); (42597, [42596]); (42599, [42598]); (42601, [42600]);
     (42603, [42602]); (42605, [42604]); (42625, [42624]); (42627, [42626]);
     (42629, [42628]); (42631, [42630]); (42633, [42632]); (42635, [42634]);
     (42637, [42636]); (42639, [42638]); (42641, [42640]); (42643, [42642]);
     (42645, [42644]); (42647, [42646]); (42649, [42648]); (42651, [42650]);
     (42787, [42786]); (42789, [42788]); (42791, [42790]); (42793, [42792]);
     (42795, [42794]); (42797, [42796]); (42799, [42798]); (42803, [42802]);
     (42805, [42804]); (42807, [42806]); (42809, [42808]); (42811, [42810]);
     (42813, [42812]); (42815, [42814]); (42817, [42816]); (42819, [42818]);
     (42821, [42820]); (42823, [42822]); (42825, [42824]); (42827, [42826]);
     (42829, [42828]); (42831, [42830]); (42833, [42832]); (42835, [42834]);
     (42837, [42836]); (42839, [42838]); (42841, [42840]); (42843, [42842]);
     (42845, [42844]); (42847, [42846]); (42849, [42848]); (42851, [42850]);
     (42853, [42852]); (42855, [42854]); (42857, [42856]); (42859, [42858]);
     (42861, [42860]); (42863, [42862]); (42874, [42873]); (42876, [42875]);
     (42879, [42878]); (42881, [42880]); (42883, [42882]); (42885, [42884]);
     (42887, [42886]); (42892, [42891]); (42897, [42896]); (42899, [42898]);
     (42900, [42948]); (42903, [42902]); (42905, [42904]); (42907, [42906]);
     (42909, [42908]); (42911, [42910]); (42913, [42912]); (42915, [42914]);
     (42917, [42916]); (42919, [42918]); (42921, [42920]); (42933, [42932]);
     (42935, [42934]); (42937, [42936]); (42939, [42938]); (42941, [42940]);
     (42943, [42942]); (42945, [42944]); (42947, [42946]); (42952, [42951]);
     (42954, [42953]); (42961, [42960]); (42967, [42966]); (42969, [42968]);
     (42998, [42997]); (43859, [42931]); (43888, [5024]); (43889, [5025]);
     (43890, [5026]); (43891, [5027]); (43892, [5028]); (43893, [5029]);
     (43894, [5030]); (43895, [5031]); (43896, [5032]); (43897, [5033]);
     (43898, [5034]); (43899, [5035]); (43900, [5036]); (43901, [5037]);
     (43902, [5038]); (43903, [5039]); (43904, [5040]); (43905, [5041]);
     (43906, [5042]); (43907, [5043]); (43908, [5044]); (43909, [5045]);
     (43910, [5046]); (43911, [5047]); (43912, [5048]); (43913, [5049]);
     (43914, [5050]); (43915, [5051]); (43916, [5052]); (43917, [5053]);
     (43918, [5054]); (43919, [5055]); (43920, [5056]); (43921, [5057]);
     (43922, [5058]); (43923, [5059]); (43924, [5060]); (43925, [5061]);
     (43926, [5062]); (43927, [5063]); (43928, [5064]); (43929, [5065]);
     (43930, [5066]); (43931, [5067]); (43932, [5068]); (43933, [5069]);
     (43934, [5070]); (43935, [5071]); (43936, [5072]); (43937, [5073]);
     (43938, [5074]); (43939, [5075]); (43940, [5076]); (43941, [5077]);
     (43942, [5078]); (43943, [5079]); (43944, [5080]); (43945, [5081]);
     (43946, [5082]); (43947, [5083]); (43948, [5084]); (43949, [5085]);
     (43950, [5086]); (43951, [5087]); (43952, [5088]); (43953, [5089]);
     (43954, [5090]); (43955, [5091]); (43956, [5092]); (43957, [5093]);
     (43958, [5094]); (43959, [5095]); (43960, [5096]); (43961, [5097]);
     (43962, [5098]); (43963, [5099]); (43964, [5100]); (43965, [5101]);
     (43966, [5102]); (43967, [5103]); (64256, [70; 70]); (64257, [70; 73]);
     (64258, [70; 76]); (64259, [70; 70; 73]); (64260, [70; 70; 76]);
     (64261, [83; 84]); (64262, [83; 84]); (64275, [1348; 1350]);
     (64276, [1348; 1333]); (64277, [1348; 1339]); (64278, [1358; 1350]);
     (64279, [1348; 1341]); (65345, [65313]); (65346, [65314]); (65347, [65315]);
     (65348, [65316]); (65349, [65317]); (65350, [65318]); (65351, [65319]);
     (65352, [65320]); (65353, [65321]); (65354, [65322]); (65355, [65323]);
     (65356, [65324]); (65357, [65325]); (65358, [65326]); (65359, [65327]);
     (65360, [65328]); (65361, [65329]); (65362, [65330]); (65363, [65331]);
     (65364, [65332]); (65365, [65333]); (65366, [65334]); (65367, [65335]);
     (65368, [65336]); (65369, [65337]); (65370, [65338]); (66600, [66560]);
     (66601, [66561]); (66602, [66562]); (66603, [66563]); (66604, [66564]);
     (66605, [66565]); (66606, [66566]); (66607, [66567]); (66608, [66568]);
     (66609, [66569]); (66610, [66570]); (66611, [66571]); (66612, [66572]);
     (66613, [66573]); (66614, [66574]); (66615, [66575]); (66616, [66576]);
     (66617, [66577]); (66618, [66578]); (66619, [66579]); (66620, [66580]);
     (66621, [66581]); (66622, [66582]); (66623, [66583]); (66624, [66584]);
     (66625, [66585]); (66626, [66586]); (66627, [66587]); (66628, [66588]);
     (66629, [66589]); (66630, [66590]); (66631, [66591]); (66632, [66592]);
     (66633, [66593]); (66634, [66594]); (66635, [66595]); (66636, [66596]);
     (66637, [66597]); (66638, [66598]); (66639, [66599]); (66776, [66736]);
     (66777, [66737]); (66778, [66738]); (66779, [66739]); (66780, [66740]);
     (66781, [66741]); (66782, [66742]); (66783, [66743]); (66784, [66744]);
     (66785, [66745]); (66786, [66746]); (66787, [66747]); (66788, [66748]);
     (66789, [66749]); (66790, [66750]); (66791, [66751]); (66792, [66752]);
     (66793, [66753]); (66794, [66754]); (66795, [66755]); (66796, [66756]);
     (66797, [66757]); (66798, [66758]); (66799, [66759]); (66800, [66760]);
     (66801, [66761]); (66802, [66762]); (66803, [66763]); (66804, [66764]);
     (66805, [66765]); (66806, [66766]); (66807, [66767]); (66808, [66768]);
     (66809, [66769]); (66810, [66770]); (66811, [66771]); (66967, [66928]);
     (66968, [66929]); (66969, [66930]); (66970, [66931]); (66971, [66932]);
     (66972, [66933]); (66973, [66934]); (66974, [66935]); (66975, [66936]);
     (66976, [66937]); (66977, [66938]); (66979, [66940]); (66980, [66941]);
     (66981, [66942]); (66982, [66943]); (66983, [66944]); (66984, [66945]);
     (66985, [66946]); (66986, [66947]); (66987, [66948]); (66988, [66949]);
     (66989, [66950]); (66990, [66951]); (66991, [66952]); (66992, [66953]);
     (66993, [66954]); (66995, [66956]); (66996, [66957]); (66997, [66958]);
     (66998, [66959]); (66999, [66960]); (67000, [66961]); (67001, [66962]);
     (67003, [66964]); (67004, [66965]); (68800, [68736]); (68801, [68737]);
     (68802, [68738]); (68803, [68739]); (68804, [68740]); (68805, [68741]);
     (68806, [68742]); (68807, [68743]); (68808, [68744]); (68809, [68745]);
     (68810, [68746]); (68811, [68747]); (68812, [68748]); (68813, [68749]);
     (68814, [68750]); (68815, [68751]); (68816, [68752]); (68817, [68753]);
     (68818, [68754]); (68819, [68755]); (68820, [68756]); (68821, [68757]);
     (68822, [68758]); (68823, [68759]); (68824, [68760]); (68825, [68761]);
     (68826, [68762]); (68827, [68763]); (68828, [68764]); (68829, [68765]);
     (68830, [68766]); (68831, [68767]); (68832, [68768]); (68833, [68769]);
     (68834, [68770]); (68835, [68771]); (68836, [68772]); (68837, [68773]);
     (68838, [68774]); (68839, [68775]); (68840, [68776]); (68841, [68777]);
     (68842, [68778]); (68843, [68779]); (68844, [68780]); (68845, [68781]);
     (68846, [68782]); (68847, [68783]); (68848, [68784]); (68849, [68785]);
     (68850, [68786]); (71872, [71840]); (71873, [71841]); (71874, [71842]);
     (71875, [71843]); (71876, [71844]); (71877, [71845]); (71878, [71846]);
     (71879, [71847]); (71880, [71848]); (71881, [71849]); (71882, [71850]);
     (71883, [71851]); (71884, [71852]); (71885, [71853]); (71886, [71854]);
     (71887, [71855]); (71888, [71856]); (71889, [71857]); (71890, [71858]);
     (71891, [71859]); (71892, [71860]); (71893, [71861]); (71894, [71862]);
     (71895, [71863]); (71896, [71864]); (71897, [71865]); (71898, [71866]);
     (71899, [71867]); (71900, [71868]); (71901, [71869]); (71902, [71870]);
     (71903, [71871]); (93792, [93760]); (93793, [93761]); (93794, [93762]);
     (93795, [93763]); (93796, [93764]); (93797, [93765]); (93798, [93766]);
     (93799, [93767]); (93800, [93768]); (93801, [93769]); (93802, [93770]);
     (93803, [93771]); (93804, [93772]); (93805, [93773]); (93806, [93774]);
     (93807, [93775]); (93808, [93776]); (93809, [93777]); (93810, [93778]);
     (93811, [93779]); (93812, [93780]); (93813, [93781]); (93814, [93782]);
     (93815, [93783]); (93816, [93784]); (93817, [93785]); (93818, [93786]);
     (93819, [93787]); (93820, [93788]); (93821, [93789]); (93822, [93790]);
     (93823, [93791]); (125218, [125184]); (125219, [125185]); (125220, [125186]);
     (125221, [125187]); (125222, [125188]); (125223, [125189]);
     (125224, [125190]); (125225, [125191]); (125226, [125192]);
     (125227, [125193]); (125228, [125194]); (125229, [125195]);
     (125230, [125196]); (125231, [125197]); (125232, [125198]);
     (125233, [125199]); (125234, [125200]); (125235, [125201]);
     (125236, [125202]); (125237, [125203]); (125238, [125204]);
     (125239, [125205]); (125240, [125206]); (125241, [125207]);
     (125242, [125208]); (125243, [125209]); (125244, [125210]);
     (125245, [125211]); (125246, [125212]); (125247, [125213]);
     (125248, [125214]); (125249, [125215]); (125250, [125216]);
     (125251, [125217]) ])%N.

Definition lower_table : list (N * list N) :=
  ([ (192, [224]); (193, [225]); (194, [226]); (195, [227]); (196, [228]);
     (197, [229]); (198, [230]); (199, [231]); (200, [232]); (201, [233]);
     (202, [234]); (203, [235]); (204, [236]); (205, [237]); (206, [238]);
     (207, [239]); (208, [240]); (209, [241]); (210, [242]); (211, [243]);
     (212, [244]); (213, [245]); (214, [246]); (216, [248]); (217, [249]);
     (218, [250]); (219, [251]); (220, [252]); (221, [253]); (222, [254]);
     (256, [257]); (258, [259]); (260, [261]); (262, [263]); (264, [265]);
     (266, [267]); (268, [269]); (270, [271]); (272, [273]); (274, [275]);
     (276, [277]); (278, [279]); (280, [281]); (282, [283]); (284, [285]);
     (286, [287]); (288, [289]); (290, [291]); (292, [293]); (294, [295]);
     (296, [297]); (298, [299]); (300, [301]); (302, [303]); (304, [105; 775]);
     (306, [307]); (308, [309]); (310, [311]); (313, [314]); (315, [316]);
     (317, [318]); (319, [320]); (321, [322]); (323, [324]); (325, [326]);
     (327, [328]); (330, [331]); (332, [333]); (334, [335]); (336, [337]);
     (338, [339]); (340, [341]); (342, [343]); (344, [345]); (346, [347]);
     (348, [349]); (350, [351]); (352, [353]); (354, [355]); (356, [357]);
     (358, [359]); (360, [361]); (362, [363]); (364, [365]); (366, [367]);
     (368, [369]); (370, [371]); (372, [373]); (374, [375]); (376, [255]);
     (377, [378]); (379, [380]); (381, [382]); (385, [595]); (386, [387]);
     (388, [389]); (390, [596]); (391, [392]); (393, [598]); (394, [599]);
     (395, [396]); (398, [477]); (399, [601]); (400, [603]); (401, [402]);
     (403, [608]); (404, [611]); (406, [617]); (407, [616]); (408, [409]);
     (412, [623]); (413, [626]); (415, [629]); (416, [417]); (418, [419]);
     (420, [421]); (422, [640]); (423, [424]); (425, [643]); (428, [429]);
     (430, [648]); (431, [432]); (433, [650]); (434, [651]); (435, [436]);
     (437, [438]); (439, [658]); (440, [441]); (444, [445]); (452, [454]);
     (453, [454]); (455, [457]); (456, [457]); (458, [460]); (459, [460]);
     (461, [462]); (463, [464]); (465, [466]); (467, [468]); (469, [470]);
     (471, [472]); (473, [474]); (475, [476]); (478, [479]); (480, [481]);
     (482, [483]); (484, [485]); (486, [487]); (488, [489]); (490, [491]);
     (492, [493]); (494, [495]); (497, [499]); (498, [499]); (500, [501]);
     (502, [405]); (503, [447]); (504, [505]); (506, [507]); (508, [509]);
     (510, [511]); (512, [513]); (514, [515]); (516, [517]); (518, [519]);
     (520, [521]); (522, [523]); (524, [525]); (526, [527]); (528, [529]);
     (530, [531]); (532, [533]); (534, [535]); (536, [537]); (538, [539]);
     (540, [541]); (542, [543]); (544, [414]); (546, [547]); (548, [549]);
     (550, [551]); (552, [553]); (554, [555]); (556, [557]); (558, [559]);
     (560, [561]); (562, [563]); (570, [11365]); (571, [572]); (573, [410]);
     (574, [11366]); (577, [578]); (579, [384]); (580, [649]); (581, [652]);
     (582, [583]); (584, [585]); (586, [587]); (588, [589]); (590, [591]);
     (880, [881]); (882, [883]); (886, [887]); (895, [1011]); (902, [940]);
     (904, [941]); (905, [942]); (906, [943]); (908, [972]); (910, [973]);
     (911, [974]); (913, [945]); (914, [946]); (915, [947]); (916, [948]);
     (917, [949]); (918, [950]); (919, [951]); (920, [952]); (921, [953]);
     (922, [954]); (923, [955]); (924, [956]); (925, [957]); (926, [958]);
     (927, [959]); (928, [960]); (929, [961]); (931, [963]); (932, [964]);
     (933, [965]); (934, [966]); (935, [967]); (936, [968]); (937, [969]);
     (938, [970]); (939, [971]); (975, [983]); (984, [985]); (986, [987]);
     (988, [989]); (990, [991]); (992, [993]); (994, [995]); (996, [997]);
     (998, [999]); (1000, [1001]); (1002, [1003]); (1004, [1005]); (1006, [1007]);
     (1012, [952]); (1015, [1016]); (1017, [1010]); (1018, [1019]); (1021, [891]);
     (1022, [892]); (1023, [893]); (1024, [1104]); (1025, [1105]); (1026, [1106]);
     (1027, [1107]); (1028, [1108]); (1029, [1109]); (1030, [1110]);
     (1031, [1111]); (1032, [1112]); (1033, [1113]); (1034, [1114]);
     (1035, [1115]); (1036, [1116]); (1037, [1117]); (1038, [1118]);
     (1039, [1119]); (1040, [1072]); (1041, [1073]); (1042, [1074]);
     (1043, [1075]); (1044, [1076]); (1045, [1077]); (1046, [1078]);
     (1047, [1079]); (1048, [1080]); (1049, [1081]); (1050, [1082]);
     (1051, [1083]); (1052, [1084]); (1053, [1085]); (1054, [1086]);
     (1055, [1087]); (1056, [1088]); (1057, [1089]); (1058, [1090]);
     (1059, [1091]); (1060, [1092]); (1061, [1093]); (1062, [1094]);
     (1063, [1095]); (1064, [1096]); (1065, [1097]); (1066, [1098]);
     (1067, [1099]); (1068, [1100]); (1069, [1101]); (1070, [1102]);
     (1071, [1103]); (1120, [1121]); (1122, [1123]); (1124, [1125]);
     (1126, [1127]); (1128, [1129]); (1130, [1131]); (1132, [1133]);
     (1134, [1135]); (1136, [1137]); (1138, [1139]); (1140, [1141]);
     (1142, [1143]); (1144, [1145]); (1146, [1147]); (1148, [1149]);
     (1150, [1151]); (1152, [1153]); (1162, [1163]); (1164, [1165]);
     (1166, [1167]); (1168, [1169]); (1170, [1171]); (1172, [1173]);
     (1174, [1175]); (1176, [1177]); (1178, [1179]); (1180, [1181]);
     (1182, [1183]); (1184, [1185]); (1186, [1187]); (1188, [1189]);
     (1190, [1191]); (1192, [1193]); (1194, [1195]); (1196, [1197]);
     (1198, [1199]); (1200, [1201]); (1202, [1203]); (1204, [1205]);
     (1206, [1207]); (1208, [1209]); (1210, [1211]); (1212, [1213]);
     (1214, [1215]); (1216, [1231]); (1217, [1218]); (1219, [1220]);
     (1221, [1222]); (1223, [1224]); (1225, [1226]); (1227, [1228]);
     (1229, [1230]); (1232, [1233]); (1234, [1235]); (1236, [1237]);
     (1238, [1239]); (1240, [1241]); (1242, [1243]); (1244, [1245]);
     (1246, [1247]); (1248, [1249]); (1250, [1251]); (1252, [1253]);
     (1254, [1255]); (1256, [1257]); (1258, [1259]); (1260, [1261]);
     (1262, [1263]); (1264, [1265]); (1266, [1267]); (1268, [1269]);
     (1270, [1271]); (1272, [1273]); (1274, [1275]); (1276, [1277]);
     (1278, [1279]); (1280, [1281]); (1282, [1283]); (1284, [1285]);
     (1286, [1287]); (1288, [1289]); (1290, [1291]); (1292, [1293]);
     (1294, [1295]); (1296, [1297]); (1298, [1299]); (1300, [1301]);
     (1302, [1303]); (1304, [1305]); (1306, [1307]); (1308, [1309]);
     (1310, [1311]); (1312, [1313]); (1314, [1315]); (1316, [1317]);
     (1318, [1319]); (1320, [1321]); (1322, [1323]); (1324, [1325]);
     (1326, [1327]); (1329, [1377]); (1330, [1378]); (1331, [1379]);
     (1332, [1380]); (1333, [1381]); (1334, [1382]); (1335, [1383]);
     (1336, [1384]); (1337, [1385]); (1338, [1386]); (1339, [1387]);
     (1340, [1388]); (1341, [1389]); (1342, [1390]); (1343, [1391]);
     (1344, [1392]); (1345, [1393]); (1346, [1394]); (1347, [1395]);
     (1348, [1396]); (1349, [1397]); (1350, [1398]); (1351, [1399]);
     (1352, [1400]); (1353, [1401]); (1354, [1402]); (1355, [1403]);
     (1356, [1404]); (1357, [1405]); (1358, [1406]); (1359, [1407]);
     (1360, [1408]); (1361, [1409]); (1362, [1410]); (1363, [1411]);
     (1364, [1412]); (1365, [1413]); (1366, [1414]); (4256, [11520]);
     (4257, [11521]); (4258, [11522]); (4259, [11523]); (4260, [11524]);
     (4261, [11525]); (4262, [11526]); (4263, [11527]); (4264, [11528]);
     (4265, [11529]); (4266, [11530]); (4267, [11531]); (4268, [11532]);
     (4269, [11533]); (4270, [11534]); (4271, [11535]); (4272, [11536]);
     (4273, [11537]); (4274, [11538]); (4275, [11539]); (4276, [11540]);
     (4277, [11541]); (4278, [11542]); (4279, [11543]); (4280, [11544]);
     (4281, [11545]); (4282, [11546]); (4283, [11547]); (4284, [11548]);
     (4285, [11549]); (4286, [11550]); (4287, [11551]); (4288, [11552]);
     (4289, [11553]); (4290, [11554]); (4291, [11555]); (4292, [11556]);
     (4293, [11557]); (4295, [11559]); (4301, [11565]); (5024, [43888]);
     (5025, [43889]); (5026, [43890]); (5027, [43891]); (5028, [43892]);
     (5029, [43893]); (5030, [43894]); (5031, [43895]); (5032, [43896]);
     (5033, [43897]); (5034, [43898]); (5035, [43899]); (5036, [43900]);
     (5037, [43901]); (5038, [43902]); (5039, [43903]); (5040, [43904]);
     (5041, [43905]); (5042, [43906]); (5043, [43907]); (5044, [43908]);
     (5045, [43909]); (5046, [43910]); (5047, [43911]); (5048, [43912]);
     (5049, [43913]); (5050, [43914]); (5051, [43915]); (5052, [43916]);
     (5053, [43917]); (5054, [43918]); (5055, [43919]); (5056, [43920]);
     (5057, [43921]); (5058, [43922]); (5059, [43923]); (5060, [43924]);
     (5061, [43925]); (5062, [43926]); (5063, [43927]); (5064, [43928]);
     (5065, [43929]); (5066, [43930]); (5067, [43931]); (5068, [43932]);
     (5069, [43933]); (5070, [43934]); (5071, [43935]); (5072, [43936]);
     (5073, [43937]); (5074, [43938]); (5075, [43939]); (5076, [43940]);
     (5077, [43941]); (5078, [43942]); (5079, [43943]); (5080, [43944]);
     (5081, [43945]); (5082, [43946]); (5083, [43947]); (5084, [43948]);
     (5085, [43949]); (5086, [43950]); (5087, [43951]); (5088, [43952]);
     (5089, [43953]); (5090, [43954]); (5091, [43955]); (5092, [43956]);
     (5093, [43957]); (5094, [43958]); (5095, [43959]); (5096, [43960]);
     (5097, [43961]); (5098, [43962]); (5099, [43963]); (5100, [43964]);
     (5101, [43965]); (5102, [43966]); (5103, [43967]); (5104, [5112]);
     (5105, [5113]); (5106, [5114]); (5107, [5115]); (5108, [5116]);
     (5109, [5117]); (7312, [4304]); (7313, [4305]); (7314, [4306]);
     (7315, [4307]); (7316, [4308]); (7317, [4309]); (7318, [4310]);
     (7319, [4311]); (7320, [4312]); (7321, [4313]); (7322, [4314]);
     (7323, [4315]); (7324, [4316]); (7325, [4317]); (7326, [4318]);
     (7327, [4319]); (7328, [4320]); (7329, [4321]); (7330, [4322]);
     (7331, [4323]); (7332, [4324]); (7333, [4325]); (7334, [4326]);
     (7335, [4327]); (7336, [4328]); (7337, [4329]); (7338, [4330]);
     (7339, [4331]); (7340, [4332]); (7341, [4333]); (7342, [4334]);
     (7343, [4335]); (7344, [4336]); (7345, [4337]); (7346, [4338]);
     (7347, [4339]); (7348, [4340]); (7349, [4341]); (7350, [4342]);
     (7351, [4343]); (7352, [4344]); (7353, [4345]); (7354, [4346]);
     (7357, [4349]); (7358, [4350]); (7359, [4351]); (7680, [7681]);
     (7682, [7683]); (7684, [7685]); (7686, [7687]); (7688, [7689]);
     (7690, [7691]); (7692, [7693]); (7694, [7695]); (7696, [7697]);
     (7698, [7699]); (7700, [7701]); (7702, [7703]); (7704, [7705]);
     (7706, [7707]); (7708, [7709]); (7710, [7711]); (7712, [7713]);
     (7714, [7715]); (7716, [7717]); (7718, [7719]); (7720, [7721]);
     (7722, [7723]); (7724, [7725]); (7726, [7727]); (7728, [7729]);
     (7730, [7731]); (7732, [7733]); (7734, [7735]); (7736, [7737]);
     (7738, [7739]); (7740, [7741]); (7742, [7743]); (7744, [7745]);
     (7746, [7747]); (7748, [7749]); (7750, [7751]); (7752, [7753]);
     (7754, [7755]); (7756, [7757]); (7758, [7759]); (7760, [7761]);
     (7762, [7763]); (7764, [7765]); (7766, [7767]); (7768, [7769]);
     (7770, [7771]); (7772, [7773]); (7774, [7775]); (7776, [7777]);
     (7778, [7779]); (7780, [7781]); (7782, [7783]); (7784, [7785]);
     (7786, [7787]); (7788, [7789]); (7790, [7791]); (7792, [7793]);
     (7794, [7795]); (7796, [7797]); (7798, [7799]); (7800, [7801]);
     (7802, [7803]); (7804, [7805]); (7806, [7807]); (7808, [7809]);
     (7810, [7811]); (7812, [7813]); (7814, [7815]); (7816, [7817]);
     (7818, [7819]); (7820, [7821]); (7822, [7823]); (7824, [7825]);
     (7826, [7827]); (7828, [7829]); (7838, [223]); (7840, [7841]);
     (7842, [7843]); (7844, [7845]); (7846, [7847]); (7848, [7849]);
     (7850, [7851]); (7852, [7853]); (7854, [7855]); (7856, [7857]);
     (7858, [7859]); (7860, [7861]); (7862, [7863]); (7864, [7865]);
     (7866, [7867]); (7868, [7869]); (7870, [7871]); (7872, [7873]);
     (7874, [7875]); (7876, [7877]); (7878, [7879]); (7880, [7881]);
     (7882, [7883]); (7884, [7885]); (7886, [7887]); (7888, [7889]);
     (7890, [7891]); (7892, [7893]); (7894, [7895]); (7896, [7897]);
     (7898, [7899]); (7900, [7901]); (7902, [7903]); (7904, [7905]);
     (7906, [7907]); (7908, [7909]); (7910, [7911]); (7912, [7913]);
     (7914, [7915]); (7916, [7917]); (7918, [7919]); (7920, [7921]);
     (7922, [7923]); (7924, [7925]); (7926, [7927]); (7928, [7929]);
     (7930, [7931]); (7932, [7933]); (7934, [7935]); (7944, [7936]);
     (7945, [7937]); (7946, [7938]); (7947, [7939]); (7948, [7940]);
     (7949, [7941]); (7950, [7942]); (7951, [7943]); (7960, [7952]);
     (7961, [7953]); (7962, [7954]); (7963, [7955]); (7964, [7956]);
     (7965, [7957]); (7976, [7968]); (7977, [7969]); (7978, [7970]);
     (7979, [7971]); (7980, [7972]); (7981, [7973]); (7982, [7974]);
     (7983, [7975]); (7992, [7984]); (7993, [7985]); (7994, [7986]);
     (7995, [7987]); (7996, [7988]); (7997, [7989]); (7998, [7990]);
     (7999, [7991]); (8008, [8000]); (8009, [8001]); (8010, [8002]);
     (8011, [8003]); (8012, [8004]); (8013, [8005]); (8025, [8017]);
     (8027, [8019]); (8029, [8021]); (8031, [8023]); (8040, [8032]);
     (8041, [8033]); (8042, [8034]); (8043, [8035]); (8044, [8036]);
     (8045, [8037]); (8046, [8038]); (8047, [8039]); (8072, [8064]);
     (8073, [8065]); (8074, [8066]); (8075, [8067]); (8076, [8068]);
     (8077, [8069]); (8078, [8070]); (8079, [8071]); (8088, [8080]);
     (8089, [8081]); (8090, [8082]); (8091, [8083]); (8092, [8084]);
     (8093, [8085]); (8094, [8086]); (8095, [8087]); (8104, [8096]);
     (8105, [8097]); (8106, [8098]); (8107, [8099]); (8108, [8100]);
     (8109, [8101]); (8110, [8102]); (8111, [8103]); (8120, [8112]);
     (8121, [8113]); (8122, [8048]); (8123, [8049]); (8124, [8115]);
     (8136, [8050]); (8137, [8051]); (8138, [8052]); (8139, [8053]);
     (8140, [8131]); (8152, [8144]); (8153, [8145]); (8154, [8054]);
     (8155, [8055]); (8168, [8160]); (8169, [8161]); (8170, [8058]);
     (8171, [8059]); (8172, [8165]); (8184, [8056]); (8185, [8057]);
     (8186, [8060]); (8187, [8061]); (8188, [8179]); (8486, [969]); (8490, [107]);
     (8491, [229]); (8498, [8526]); (8544, [8560]); (8545, [8561]);
     (8546, [8562]); (8547, [8563]); (8548, [8564]); (8549, [8565]);
     (8550, [8566]); (8551, [8567]); (8552, [8568]); (8553, [8569]);
     (8554, [8570]); (8555, [8571]); (8556, [8572]); (8557, [8573]);
     (8558, [8574]); (8559, [8575]); (8579, [8580]); (9398, [9424]);
     (9399, [9425]); (9400, [9426]); (9401, [9427]); (9402, [9428]);
     (9403, [9429]); (9404, [9430]); (9405, [9431]); (9406, [9432]);
     (9407, [9433]); (9408, [9434]); (9409, [9435]); (9410, [9436]);
     (9411, [9437]); (9412, [9438]); (9413, [9439]); (9414, [9440]);
     (9415, [9441]); (9416, [9442]); (9417, [9443]); (9418, [9444]);
     (9419, [9445]); (9420, [9446]); (9421, [9447]); (9422, [9448]);
     (9423, [9449]); (11264, [11312]); (11265, [11313]); (11266, [11314]);
     (11267, [11315]); (11268, [11316]); (11269, [11317]); (11270, [11318]);
     (11271, [11319]); (11272, [11320]); (11273, [11321]); (11274, [11322]);
     (11275, [11323]); (11276, [11324]); (11277, [11325]); (11278, [11326]);
     (11279, [11327]); (11280, [11328]); (11281, [11329]); (11282, [11330]);
     (11283, [11331]); (11284, [11332]); (11285, [11333]); (11286, [11334]);
     (11287, [11335]); (11288, [11336]); (11289, [11337]); (11290, [11338]);
     (11291, [11339]); (11292, [11340]); (11293, [11341]); (11294, [11342]);
     (11295, [11343]); (11296, [11344]); (11297, [11345]); (11298, [11346]);
     (11299, [11347]); (11300, [11348]); (11301, [11349]); (11302, [11350]);
     (11303, [11351]); (11304, [11352]); (11305, [11353]); (11306, [11354]);
     (11307, [11355]); (11308, [11356]); (11309, [11357]); (11310, [11358]);
     (11311, [11359]); (11360, [11361]); (11362, [619]); (11363, [7549]);
     (11364, [637]); (11367, [11368]); (11369, [11370]); (11371, [11372]);
     (11373, [593]); (11374, [625]); (11375, [592]); (11376, [594]);
     (11378, [11379]); (11381, [11382]); (11390, [575]); (11391, [576]);
     (11392, [11393]); (11394, [11395]); (11396, [11397]); (11398, [11399]);
     (11400, [11401]); (11402, [11403]); (11404, [11405]); (11406, [11407]);
     (11408, [11409]); (11410, [11411]); (11412, [11413]); (11414, [11415]);
     (11416, [11417]); (11418, [11419]); (11420, [11421]); (11422, [11423]);
     (11424, [11425]); (11426, [11427]); (11428, [11429]); (11430, [11431]);
     (11432, [11433]); (11434, [11435]); (11436, [11437]); (11438, [11439]);
     (11440, [11441]); (11442, [11443]); (11444, [11445]); (11446, [11447]);
     (11448, [11449]); (11450, [11451]); (11452, [11453]); (11454, [11455]);
     (11456, [11457]); (11458, [11459]); (11460, [11461]); (11462, [11463]);
     (11464, [11465]); (11466, [11467]); (11468, [11469]); (11470, [11471]);
     (11472, [11473]); (11474, [11475]); (11476, [11477]); (11478, [11479]);
     (11480, [11481]); (11482, [11483]); (11484, [11485]); (11486, [11487]);
     (11488, [11489]); (11490, [11491]); (11499, [11500]); (11501, [11502]);
     (11506, [11507]); (42560, [42561]); (42562, [42563]); (42564, [42565]);
     (42566, [42567]); (42568, [42569]); (42570, [42571]); (42572, [42573]);
     (42574, [42575]); (42576, [42577]); (42578, [42579]); (42580, [42581]);
     (42582, [42583]); (42584, [42585]); (42586, [42587]); (42588, [42589]);
     (42590, [42591]); (42592, [42593]); (42594, [42595]); (42596, [42597]);
     (42598, [42599]); (42600, [42601]); (42602, [42603]); (42604, [42605]);
     (42624, [42625]); (42626, [42627]); (42628, [42629]); (42630, [42631]);
     (42632, [42633]); (42634, [42635]); (42636, [42637]); (42638, [42639]);
     (42640, [42641]); (42642, [42643]); (42644, [42645]); (42646, [42647]);
     (42648, [42649]); (42650, [42651]); (42786, [42787]); (42788, [42789]);
     (42790, [42791]); (42792, [42793]); (42794, [42795]); (42796, [42797]);
     (42798, [42799]); (42802, [42803]); (42804, [42805]); (42806, [42807]);
     (42808, [42809]); (42810, [42811]); (42812, [42813]); (42814, [42815]);
     (42816, [42817]); (42818, [42819]); (42820, [42821]); (42822, [42823]);
     (42824, [42825]); (42826, [42827]); (42828, [42829]); (42830, [42831]);
     (42832, [42833]); (42834, [42835]); (42836, [42837]); (42838, [42839]);
     (42840, [42841]); (42842, [42843]); (42844, [42845]); (42846, [42847]);
     (42848, [42849]); (42850, [42851]); (42852, [42853]); (42854, [42855]);
     (42856, [42857]); (42858, [42859]); (42860, [42861]); (42862, [42863]);
     (42873, [42874]); (42875, [42876]); (42877, [7545]); (42878, [42879]);
     (42880, [42881]); (42882, [42883]); (42884, [42885]); (42886, [42887]);
     (42891, [42892]); (42893, [613]); (42896, [42897]); (42898, [42899]);
     (42902, [42903]); (42904, [42905]); (42906, [42907]); (42908, [42909]);
     (42910, [42911]); (42912, [42913]); (42914, [42915]); (42916, [42917]);
     (42918, [42919]); (42920, [42921]); (42922, [614]); (42923, [604]);
     (42924, [609]); (42925, [620]); (42926, [618]); (42928, [670]);
     (42929, [647]); (42930, [669]); (42931, [43859]); (42932, [42933]);
     (42934, [42935]); (42936, [42937]); (42938, [42939]); (42940, [42941]);
     (42942, [42943]); (42944, [42945]); (42946, [42947]); (42948, [42900]);
     (42949, [642]); (42950, [7566]); (42951, [42952]); (42953, [42954]);
     (42960, [42961]); (42966, [42967]); (42968, [42969]); (42997, [42998]);
     (65313, [65345]); (65314, [65346]); (65315, [65347]); (65316, [65348]);
     (65317, [65349]); (65318, [65350]); (65319, [65351]); (65320, [65352]);
     (65321, [65353]); (65322, [65354]); (65323, [65355]); (65324, [65356]);
     (65325, [65357]); (65326, [65358]); (65327, [65359]); (65328, [65360]);
     (65329, [65361]); (65330, [65362]); (65331, [65363]); (65332, [65364]);
     (65333, [65365]); (65334, [65366]); (65335, [65367]); (65336, [65368]);
     (65337, [65369]); (65338, [65370]); (66560, [66600]); (66561, [66601]);
     (66562, [66602]); (66563, [66603]); (66564, [66604]); (66565, [66605]);
     (66566, [66606]); (66567, [66607]); (66568, [66608]); (66569, [66609]);
     (66570, [66610]); (66571, [66611]); (66572, [66612]); (66573, [66613]);
     (66574, [66614]); (66575, [66615]); (66576, [66616]); (66577, [66617]);
     (66578, [66618]); (66579, [66619]); (66580, [66620]); (66581, [66621]);
     (66582, [66622]); (66583, [66623]); (66584, [66624]); (66585, [66625]);
     (66586, [66626]); (66587, [66627]); (66588, [66628]); (66589, [66629]);
     (66590, [66630]); (66591, [66631]); (66592, [66632]); (66593, [66633]);
     (66594, [66634]); (66595, [66635]); (66596, [66636]); (66597, [66637]);
     (66598, [66638]); (66599, [66639]); (66736, [66776]); (66737, [66777]);
     (66738, [66778]); (66739, [66779]); (66740, [66780]); (66741, [66781]);
     (66742, [66782]); (66743, [66783]); (66744, [66784]); (66745, [66785]);
     (66746, [66786]); (66747, [66787]); (66748, [66788]); (66749, [66789]);
     (66750, [66790]); (66751, [66791]); (66752, [66792]); (66753, [66793]);
     (66754, [66794]); (66755, [66795]); (66756, [66796]); (66757, [66797]);
     (66758, [66798]); (66759, [66799]); (66760, [66800]); (66761, [66801]);
     (66762, [66802]); (66763, [66803]); (66764, [66804]); (66765, [66805]);
     (66766, [66806]); (66767, [66807]); (66768, [66808]); (66769, [66809]);
     (66770, [66810]); (66771, [66811]); (66928, [66967]); (66929, [66968]);
     (66930, [66969]); (66931, [66970]); (66932, [66971]); (66933, [66972]);
     (66934, [66973]); (66935, [66974]); (66936, [66975]); (66937, [66976]);
     (66938, [66977]); (66940, [66979]); (66941, [66980]); (66942, [66981]);
     (66943, [66982]); (66944, [66983]); (66945, [66984]); (66946, [66985]);
     (66947, [66986]); (66948, [66987]); (66949, [66988]); (66950, [66989]);
     (66951, [66990]); (66952, [66991]); (66953, [66992]); (66954, [66993]);
     (66956, [66995]); (66957, [66996]); (66958, [66997]); (66959, [66998]);
     (66960, [66999]); (66961, [67000]); (66962, [67001]); (66964, [67003]);
     (66965, [67004]); (68736, [68800]); (68737, [68801]); (68738, [68802]);
     (68739, [68803]); (68740, [68804]); (68741, [68805]); (68742, [68806]);
     (68743, [68807]); (68744, [68808]); (68745, [68809]); (68746, [68810]);
     (68747, [68811]); (68748, [68812]); (68749, [68813]); (68750, [68814]);
     (68751, [68815]); (68752, [68816]); (68753, [68817]); (68754, [68818]);
     (68755, [68819]); (68756, [68820]); (68757, [68821]); (68758, [68822]);
     (68759, [68823]); (68760, [68824]); (68761, [68825]); (68762, [68826]);
     (68763, [68827]); (68764, [68828]); (68765, [68829]); (68766, [68830]);
     (68767, [68831]); (68768, [68832]); (68769, [68833]); (68770, [68834]);
     (68771, [68835]); (68772, [68836]); (68773, [68837]); (68774, [68838]);
     (68775, [68839]); (68776, [68840]); (68777, [68841]); (68778, [68842]);
     (68779, [68843]); (68780, [68844]); (68781, [68845]); (68782, [68846]);
     (68783, [68847]); (68784, [68848]); (68785, [68849]); (68786, [68850]);
     (71840, [71872]); (71841, [71873]); (71842, [71874]); (71843, [71875]);
     (71844, [71876]); (71845, [71877]); (71846, [71878]); (71847, [71879]);
     (71848, [71880]); (71849, [71881]); (71850, [71882]); (71851, [71883]);
     (71852, [71884]); (71853, [71885]); (71854, [71886]); (71855, [71887]);
     (71856, [71888]); (71857, [71889]); (71858, [71890]); (71859, [71891]);
     (71860, [71892]); (71861, [71893]); (71862, [71894]); (71863, [71895]);
     (71864, [71896]); (71865, [71897]); (71866, [71898]); (71867, [71899]);
     (71868, [71900]); (71869, [71901]); (71870, [71902]); (71871, [71903]);
     (93760, [93792]); (93761, [93793]); (93762, [93794]); (93763, [93795]);
     (93764, [93796]); (93765, [93797]); (93766, [93798]); (93767, [93799]);
     (93768, [93800]); (93769, [93801]); (93770, [93802]); (93771, [93803]);
     (93772, [93804]); (93773, [93805]); (93774, [93806]); (93775, [93807]);
     (93776, [93808]); (93777, [93809]); (93778, [93810]); (93779, [93811]);
     (93780, [93812]); (93781, [93813]); (93782, [93814]); (93783, [93815]);
     (93784, [93816]); (93785, [93817]); (93786, [93818]); (93787, [93819]);
     (93788, [93820]); (93789, [93821]); (93790, [93822]); (93791, [93823]);
     (125184, [125218]); (125185, [125219]); (125186, [125220]);
     (125187, [125221]); (125188, [125222]); (125189, [125223]);
     (125190, [125224]); (125191, [125225]); (125192, [125226]);
     (125193, [125227]); (125194, [125228]); (125195, [125229]);
     (125196, [125230]); (125197, [125231]); (125198, [125232]);
     (125199, [125233]); (125200, [125234]); (125201, [125235]);
     (125202, [125236]); (125203, [125237]); (125204, [125238]);
     (125205, [125239]); (125206, [125240]); (125207, [125241]);
     (125208, [125242]); (125209, [125243]); (125210, [125244]);
     (125211, [125245]); (125212, [125246]); (125213, [125247]);
     (125214, [125248]); (125215, [125249]); (125216, [125250]);
     (125217, [125251]) ])%N.

Definition case_ignorable_ranges : list (N * N) :=
  ([ (39, 39); (46, 46); (58, 58); (94, 94); (96, 96); (168, 168); (173, 173);
     (175, 175); (180, 180); (183, 184); (688, 879); (884, 885); (890, 890);
     (900, 901); (903, 903); (1155, 1161); (1369, 1369); (1375, 1375);
     (1425, 1469); (1471, 1471); (1473, 1474); (1476, 1477); (1479, 1479);
     (1524, 1524); (1536, 1541); (1552, 1562); (1564, 1564); (1600, 1600);
     (1611, 1631); (1648, 1648); (1750, 1757); (1759, 1768); (1770, 1773);
     (1807, 1807); (1809, 1809); (1840, 1866); (1958, 1968); (2027, 2037);
     (2042, 2042); (2045, 2045); (2070, 2093); (2137, 2139); (2184, 2184);
     (2192, 2193); (2200, 2207); (2249, 2306); (2362, 2362); (2364, 2364);
     (2369, 2376); (2381, 2381); (2385, 2391); (2402, 2403); (2417, 2417);
     (2433, 2433); (2492, 2492); (2497, 2500); (2509, 2509); (2530, 2531);
     (2558, 2558); (2561, 2562); (2620, 2620); (2625, 2626); (2631, 2632);
     (2635, 2637); (2641, 2641); (2672, 2673); (2677, 2677); (2689, 2690);
     (2748, 2748); (2753, 2757); (2759, 2760); (2765, 2765); (2786, 2787);
     (2810, 2815); (2817, 2817); (2876, 2876); (2879, 2879); (2881, 2884);
     (2893, 2893); (2901, 2902); (2914, 2915); (2946, 2946); (3008, 3008);
     (3021, 3021); (3072, 3072); (3076, 3076); (3132, 3132); (3134, 3136);
     (3142, 3144); (3146, 3149); (3157, 3158); (3170, 3171); (3201, 3201);
     (3260, 3260); (3263, 3263); (3270, 3270); (3276, 3277); (3298, 3299);
     (3328, 3329); (3387, 3388); (3393, 3396); (3405, 3405); (3426, 3427);
     (3457, 3457); (3530, 3530); (3538, 3540); (3542, 3542); (3633, 3633);
     (3636, 3642); (3654, 3662); (3761, 3761); (3764, 3772); (3782, 3782);
     (3784, 3789); (3864, 3865); (3893, 3893); (3895, 3895); (3897, 3897);
     (3953, 3966); (3968, 3972); (3974, 3975); (3981, 3991); (3993, 4028);
     (4038, 4038); (4141, 4144); (4146, 4151); (4153, 4154); (4157, 4158);
     (4184, 4185); (4190, 4192); (4209, 4212); (4226, 4226); (4229, 4230);
     (4237, 4237); (4253, 4253); (4348, 4348); (4957, 4959); (5906, 5908);
     (5938, 5939); (5970, 5971); (6002, 6003); (6068, 6069); (6071, 6077);
     (6086, 6086); (6089, 6099); (6103, 6103); (6109, 6109); (6155, 6159);
     (6211, 6211); (6277, 6278); (6313, 6313); (6432, 6434); (6439, 6440);
     (6450, 6450); (6457, 6459); (6679, 6680); (6683, 6683); (6742, 6742);
     (6744, 6750); (6752, 6752); (6754, 6754); (6757, 6764); (6771, 6780);
     (6783, 6783); (6823, 6823); (6832, 6862); (6912, 6915); (6964, 6964);
     (6966, 6970); (6972, 6972); (6978, 6978); (7019, 7027); (7040, 7041);
     (7074, 7077); (7080, 7081); (7083, 7085); (7142, 7142); (7144, 7145);
     (7149, 7149); (7151, 7153); (7212, 7219); (7222, 7223); (7288, 7293);
     (7376, 7378); (7380, 7392); (7394, 7400); (7405, 7405); (7412, 7412);
     (7416, 7417); (7468, 7530); (7544, 7544); (7579, 7679); (8125, 8125);
     (8127, 8129); (8141, 8143); (8157, 8159); (8173, 8175); (8189, 8190);
     (8203, 8207); (8216, 8217); (8228, 8228); (8231, 8231); (8234, 8238);
     (8288, 8292); (8294, 8303); (8305, 8305); (8319, 8319); (8336, 8348);
     (8400, 8432); (11388, 11389); (11503, 11505); (11631, 11631); (11647, 11647);
     (11744, 11775); (11823, 11823); (12293, 12293); (12330, 12333);
     (12337, 12341); (12347, 12347); (12441, 12446); (12540, 12542);
     (40981, 40981); (42232, 42237); (42508, 42508); (42607, 42610);
     (42612, 42621); (42623, 42623); (42652, 42655); (42736, 42737);
     (42752, 42785); (42864, 42864); (42888, 42890); (42994, 42996);
     (43000, 43001); (43010, 43010); (43014, 43014); (43019, 43019);
     (43045, 43046); (43052, 43052); (43204, 43205); (43232, 43249);
     (43263, 43263); (43302, 43309); (43335, 43345); (43392, 43394);
     (43443, 43443); (43446, 43449); (43452, 43453); (43471, 43471);
     (43493, 43494); (43561, 43566); (43569, 43570); (43573, 43574);
     (43587, 43587); (43596, 43596); (43632, 43632); (43644, 43644);
     (43696, 43696); (43698, 43700); (43703, 43704); (43710, 43711);
     (43713, 43713); (43741, 43741); (43756, 43757); (43763, 43764);
     (43766, 43766); (43867, 43871); (43881, 43883); (44005, 44005);
     (44008, 44008); (44013, 44013); (64286, 64286); (64434, 64450);
     (65024, 65039); (65043, 65043); (65056, 65071); (65106, 65106);
     (65109, 65109); (65279, 65279); (65287, 65287); (65294, 65294);
     (65306, 65306); (65342, 65342); (65344, 65344); (65392, 65392);
     (65438, 65439); (65507, 65507); (65529, 65531); (66045, 66045);
     (66272, 66272); (66422, 66426); (67456, 67461); (67463, 67504);
     (67506, 67514); (68097, 68099); (68101, 68102); (68108, 68111);
     (68152, 68154); (68159, 68159); (68325, 68326); (68900, 68903);
     (69291, 69292); (69446, 69456); (69506, 69509); (69633, 69633);
     (69688, 69702); (69744, 69744); (69747, 69748); (69759, 69761);
     (69811, 69814); (69817, 69818); (69821, 69821); (69826, 69826);
     (69837, 69837); (69888, 69890); (69927, 69931); (69933, 69940);
     (70003, 70003); (70016, 70017); (70070, 70078); (70089, 70092);
     (70095, 70095); (70191, 70193); (70196, 70196); (70198, 70199);
     (70206, 70206); (70367, 70367); (70371, 70378); (70400, 70401);
     (70459, 70460); (70464, 70464); (70502, 70508); (70512, 70516);
     (70712, 70719); (70722, 70724); (70726, 70726); (70750, 70750);
     (70835, 70840); (70842, 70842); (70847, 70848); (70850, 70851);
     (71090, 71093); (71100, 71101); (71103, 71104); (71132, 71133);
     (71219, 71226); (71229, 71229); (71231, 71232); (71339, 71339);
     (71341, 71341); (71344, 71349); (71351, 71351); (71453, 71455);
     (71458, 71461); (71463, 71467); (71727, 71735); (71737, 71738);
     (71995, 71996); (71998, 71998); (72003, 72003); (72148, 72151);
     (72154, 72155); (72160, 72160); (72193, 72202); (72243, 72248);
     (72251, 72254); (72263, 72263); (72273, 72278); (72281, 72283);
     (72330, 72342); (72344, 72345); (72752, 72758); (72760, 72765);
     (72767, 72767); (72850, 72871); (72874, 72880); (72882, 72883);
     (72885, 72886); (73009, 73014); (73018, 73018); (73020, 73021);
     (73023, 73029); (73031, 73031); (73104, 73105); (73109, 73109);
     (73111, 73111); (73459, 73460); (78896, 78904); (92912, 92916);
     (92976, 92982); (92992, 92995); (94031, 94031); (94095, 94111);
     (94176, 94177); (94179, 94180); (110576, 110579); (110581, 110587);
     (110589, 110590); (113821, 113822); (113824, 113827); (118528, 118573);
     (118576, 118598); (119143, 119145); (119155, 119170); (119173, 119179);
     (119210, 119213); (119362, 119364); (121344, 121398); (121403, 121452);
     (121461, 121461); (121476, 121476); (121499, 121503); (121505, 121519);
     (122880, 122886); (122888, 122904); (122907, 122913); (122915, 122916);
     (122918, 122922); (123184, 123197); (123566, 123566); (123628, 123631);
     (125136, 125142); (125252, 125259); (127995, 127999); (917505, 917505);
     (917536, 917631); (917760, 917999) ])%N.

Definition cased_ranges : list (N * N) :=
  ([ (65, 90); (97, 122); (170, 170); (181, 181); (186, 186); (192, 214);
     (216, 246); (248, 442); (444, 447); (452, 659); (661, 696); (704, 705);
     (736, 740); (837, 837); (880, 883); (886, 887); (890, 893); (895, 895);
     (902, 902); (904, 906); (908, 908); (910, 929); (931, 1013); (1015, 1153);
     (1162, 1327); (1329, 1366); (1376, 1416); (4256, 4293); (4295, 4295);
     (4301, 4301); (4304, 4346); (4349, 4351); (5024, 5109); (5112, 5117);
     (7296, 7304); (7312, 7354); (7357, 7359); (7424, 7615); (7680, 7957);
     (7960, 7965); (7968, 8005); (8008, 8013); (8016, 8023); (8025, 8025);
     (8027, 8027); (8029, 8029); (8031, 8061); (8064, 8116); (8118, 8124);
     (8126, 8126); (8130, 8132); (8134, 8140); (8144, 8147); (8150, 8155);
     (8160, 8172); (8178, 8180); (8182, 8188); (8305, 8305); (8319, 8319);
     (8336, 8348); (8450, 8450); (8455, 8455); (8458, 8467); (8469, 8469);
     (8473, 8477); (8484, 8484); (8486, 8486); (8488, 8488); (8490, 8493);
     (8495, 8500); (8505, 8505); (8508, 8511); (8517, 8521); (8526, 8526);
     (8544, 8575); (8579, 8580); (9398, 9449); (11264, 11492); (11499, 11502);
     (11506, 11507); (11520, 11557); (11559, 11559); (11565, 11565);
     (42560, 42605); (42624, 42653); (42786, 42887); (42891, 42894);
     (42896, 42954); (42960, 42961); (42963, 42963); (42965, 42969);
     (42997, 42998); (43000, 43002); (43824, 43866); (43868, 43880);
     (43888, 43967); (64256, 64262); (64275, 64279); (65313, 65338);
     (65345, 65370); (66560, 66639); (66736, 66771); (66776, 66811);
     (66928, 66938); (66940, 66954); (66956, 66962); (66964, 66965);
     (66967, 66977); (66979, 66993); (66995, 67001); (67003, 67004);
     (67456, 67456); (67459, 67461); (67463, 67504); (67506, 67514);
     (68736, 68786); (68800, 68850); (71840, 71903); (93760, 93823);
     (119808, 119892); (119894, 119964); (119966, 119967); (119970, 119970);
     (119973, 119974); (119977, 119980); (119982, 119993); (119995, 119995);
     (119997, 120003); (120005, 120069); (120071, 120074); (120077, 120084);
     (120086, 120092); (120094, 120121); (120123, 120126); (120128, 120132);
     (120134, 120134); (120138, 120144); (120146, 120485); (120488, 120512);
     (120514, 120538); (120540, 120570); (120572, 120596); (120598, 120628);
     (120630, 120654); (120656, 120686); (120688, 120712); (120714, 120744);
     (120746, 120770); (120772, 120779); (122624, 122633); (122635, 122654);
     (125184, 125251); (127280, 127305); (127312, 127337); (127344, 127369) ])%N.

(** *** Character classes and case mappings *)

Definition in_range (lo hi c : N) : bool := N.leb lo c && N.leb c hi.

Definition in_ranges (c : N) (ranges : list (N * N)) : bool :=
  existsb (fun r => in_range (fst r) (snd r) c) ranges.

Fixpoint assoc (c : N) (table : list (N * list N)) : option (list N) :=
  match table with
  | [] => None
  | (k, v) :: table' => if c =? k then Some v else assoc c table'
  end.

Definition is_ascii (c : N) : bool := N.ltb c 128.

(** The ASCII letters and digits. *)
Definition is_lower (c : N) : bool := in_range 97 122 c.
Definition is_upper (c : N) : bool := in_range 65 90 c.
Definition is_digit (c : N) : bool := in_range 48 57 c.

(** [str.isspace] on one character, which is also [\s] of [re] and what
    [str.strip] removes. *)
Definition is_space (c : N) : bool := existsb (N.eqb c) spaces.

(** [\w] of [re] on a [str]: alphanumeric or underscore. *)
Definition is_word (c : N) : bool :=
  if is_ascii c then is_lower c || is_upper c || is_digit c || (c =? "_")
  else in_ranges c word_ranges.

(** The full upper-case mapping of one character: one to three
    characters. *)
Definition upper_char (c : N) : list N :=
  if is_ascii c then (if is_lower c then [N.sub c 32] else [c])
  else match assoc c upper_table with
       | Some l => l
       | None => [c]
       end.

(** The full lower-case mapping of one character. *)
Definition lower_char (c : N) : list N :=
  if is_ascii c then (if is_upper c then [N.add c 32] else [c])
  else match assoc c lower_table with
       | Some l => l
       | None => [c]
       end.

(** [s.upper()] *)
Definition upper (s : str) : str := flat_map upper_char s.

Definition case_ignorable (c : N) : bool := in_ranges c case_ignorable_ranges.

Definition cased (c : N) : bool := in_ranges c cased_ranges.

(** The first character of [s] that is not case-ignorable is cased. *)
Fixpoint cased_next (s : str) : bool :=
  match s with
  | [] => false
  | c :: s' => if case_ignorable c then cased_next s' else cased c
  end.

(** No character of [s] but case-ignorable ones, or the first other one is
    not cased. *)
Fixpoint uncased_next (s : str) : bool :=
  match s with
  | [] => true
  | c :: s' => if case_ignorable c then uncased_next s' else negb (cased c)
  end.

(** A capital sigma is final when a cased character precedes it and none
    follows, case-ignorable characters aside.  [before] is the text to its
    left, nearest character first. *)
Definition final_sigma (before after : str) : bool :=
  cased_next before && uncased_next after.

Definition capital_sigma : N := 931%N.
Definition small_sigma : N := 963%N.
Definition small_final_sigma : N := 962%N.

(** What [str.lower] writes for [c] between [before] and [after]. *)
Definition lower_at (before after : str) (c : N) : list N :=
  if c =? capital_sigma
  then [if final_sigma before after then small_final_sigma else small_sigma]
  else lower_char c.

Fixpoint lower_from (before s : str) : str :=
  match s with
  | [] => []
  | c :: s' => lower_at before s' c ++ lower_from (c :: before) s'
  end.

(** [s.lower()] *)
Definition lower (s : str) : str := lower_from [] s.

(** The ASCII letters in lower case, every other character as it is. *)
Definition fold_ascii (c : N) : N := if is_upper c then N.add c 32 else c.

(** Equality of two strings, as a test. *)
Definition list_eqb (x y : list N) : bool :=
  if list_eq_dec N.eq_dec x y then true else false.

(** [s.startswith(p)] *)
Fixpoint startswith (s p : str) : bool :=
  match p, s with
  | [], _ => true
  | _ :: _, [] => false
  | a :: p', b :: s' => (a =? b) && startswith s' p'
  end.

(** [p in s] for strings: [p] occurs in [s] at some position. *)
Fixpoint contains (p s : str) : bool :=
  startswith s p ||
  match s with
  | [] => false
  | _ :: s' => contains p s'
  end.

Fixpoint drop_while (f : N -> bool) (s : str) : str :=
  match s with
  | [] => []
  | c :: s' => if f c then drop_while f s' else s
  end.

Fixpoint take_while (f : N -> bool) (s : str) : str :=
  match s with
  | [] => []
  | c :: s' => if f c then c :: take_while f s' else []
  end.

(** Removal of the trailing characters that satisfy [f]. *)
Fixpoint drop_trailing (f : N -> bool) (s : str) : str :=
  match s with
  | [] => []
  | c :: s' =>
      match drop_trailing f s' with
      | [] => if f c then [] else [c]
      | r => c :: r
      end
  end.

(** [s.strip()] *)
Definition strip (s : str) : str :=
  drop_trailing is_space (drop_while is_space s).

(** [s.rstrip(';')] *)
Definition rstrip_semi (s : str) : str :=
  drop_trailing (fun c => c =? ";") s.

(** ** Exceptions *)

Inductive exn : Type :=
| ValueError (msg : str)
| OtherException (msg : str).

(** [str(e)] *)
Definition exn_str (e : exn) : str :=
  match e with
  | ValueError m => m
  | OtherException m => m
  end.

Inductive result (A : Type) : Type :=
| Ok (a : A)
| Raise (e : exn).

Arguments Ok {A} a.
Arguments Raise {A} e.

Definition bind {A B : Type} (r : result A) (k : A -> result B) : result B :=
  match r with
  | Ok a => k a
  | Raise e => Raise e
  end.

Notation "x <- r ;; k" := (bind r (fun x => k))
  (at level 61, r at next level, right associativity).

(** ** clean_sql_query (app.py, lines 33-60) *)

(** [re.sub(r'```sql|```', '', s)]: the scan goes left to right; where a fence
    starts, the longer alternative is tried first and the matched characters
    are dropped, elsewhere the character is kept.  [skip] counts the
    characters of the current match that are still to be dropped. *)
Fixpoint sub_fences_from (skip : nat) (s : str) : str :=
  match s with
  | [] => []
  | c :: s' =>
      match skip with
      | S k => sub_fences_from k s'
      | O =>
          if startswith s $"```sql" then sub_fences_from 5 s'
          else if startswith s $"```" then sub_fences_from 2 s'
          else c :: sub_fences_from 0 s'
      end
  end.

Definition sub_fences (s : str) : str := sub_fences_from 0 s.

Definition blacklist : list str :=
  [ $"DROP"; $"DELETE"; $"UPDATE"; $"INSERT"; $"ALTER"; $"--"; $";--"; $"/*" ].

(** [any(word in sql_query.upper() for word in blacklist)] *)
Definition blacklisted (sql_query : str) : bool :=
  existsb (fun word => contains word (upper sql_query)) blacklist.

Definition select_prefix : str := $"SELECT * FROM Departments WHERE ".

Definition sales_fallback : str :=
  $"SELECT * FROM Departments WHERE Name = 'Sales';".

(** Lines 37-38: the two statements that remove the formatting noise. *)
Definition strip_noise (sql_query : str) : str := strip (sub_fences sql_query).

(** Lines 46-47. *)
Definition force_select (sql_query : str) : str :=
  if negb (startswith (upper sql_query) $"SELECT")
  then select_prefix ++ sql_query
  else sql_query.

(** Lines 50-52. *)
Definition remove_joins (sql_query : str) : str :=
  if contains $"JOIN" (upper sql_query) then sales_fallback else sql_query.

(** Line 55. *)
Definition terminate (sql_query : str) : str := rstrip_semi sql_query ++ $";".

(** The body of the [try] block. *)
Definition clean_sql_query_try (sql_query : str) : result str :=
  let sql_query := sub_fences sql_query in
  let sql_query := strip sql_query in
  if blacklisted sql_query
  then Raise (ValueError $"Invalid SQL operation detected")
  else
    let sql_query := force_select sql_query in
    let sql_query := remove_joins sql_query in
    let sql_query := terminate sql_query in
    Ok sql_query.

(** The [except Exception] clause re-raises every failure as a [ValueError]. *)
Definition clean_sql_query (sql_query : str) : result str :=
  match clean_sql_query_try sql_query with
  | Ok q => Ok q
  | Raise e => Raise (ValueError ($"Failed to clean SQL query: " ++ exn_str e))
  end.

(** What the caller sees when the blacklist check fails. *)
Definition rejection : exn :=
  ValueError $"Failed to clean SQL query: Invalid SQL operation detected".

(** ** generate_sql_query (lines 62-106) *)

Definition context : str := $"
        Convert to simple SQL. Use table 'Departments' with columns: Name, Manager
        
        Examples:
        Question: Who manages Sales?
        SQL: SELECT Manager FROM Departments WHERE Name = 'Sales';
        
        Question: Show all departments
        SQL: SELECT * FROM Departments;
        
        Question: List department names
        SQL: SELECT Name FROM Departments;
        
        Question: Find manager of Marketing
        SQL: SELECT Manager FROM Departments WHERE Name = 'Marketing';
        
        Current question: ".

(** The text-generation pipeline, called on a prompt: it returns the generated
    text ([output[0]['generated_text']]) or raises. *)
Definition Model := str -> result str.

(** An attempt of the pattern [(?:of\s+)(\w+)] at the head of [s].  The two
    classes are disjoint, so the greedy [\s+] and [\w+] take the longest runs
    and backtracking into them finds nothing new.  The result is group 1. *)
Definition match_of_here (s : str) : option str :=
  if startswith s $"of" then
    let after_of := skipn 2 s in
    match take_while is_space after_of,
          take_while is_word (drop_while is_space after_of) with
    | _ :: _, (_ :: _) as word => Some word
    | _, _ => None
    end
  else None.

(** [re.search(r'(?:of\s+)(\w+)', s)]: the leftmost position where the pattern
    matches; [None] when there is none. *)
Fixpoint search_of (s : str) : option str :=
  match match_of_here s with
  | Some word => Some word
  | None =>
      match s with
      | [] => None
      | _ :: s' => search_of s'
      end
  end.

(** Line 99: the f-string of the override. *)
Definition manager_query (dept_name : str) : str :=
  $"SELECT Manager FROM Departments WHERE Name = '" ++ dept_name ++ $"';".

(** The [except] clause of this function logs and re-raises the exception
    unchanged, which is what [bind] does. *)
Definition generate_sql_query (nl_query : str) (model : Model) : result str :=
  let full_prompt := context ++ nl_query in
  output <- model full_prompt ;;
  sql_query <- clean_sql_query output ;;
  if contains $"Who" nl_query && contains $"manager" (lower nl_query) then
    match search_of nl_query with
    | Some dept_name => Ok (manager_query dept_name)
    | None => Ok sql_query
    end
  else Ok sql_query.

(** ** execute_sql_query (lines 108-140) *)

(** What the user interface is asked to show, and what is done to the
    database, in program order. *)
Inductive event : Type :=
| UiWarning (msg : str)
| UiError (msg : str)
| UiInfo (msg : str)
| UiSubheader (msg : str)
| UiCode (sql : str)
| UiDataframe (columns : list str) (rows : list (list str))
| DbConnect
| DbExecute (query : str)
| DbClose.

Inductive db_failure : Type :=
| SqliteError (msg : str)
| OtherFailure (msg : str).

Inductive db_reply : Type :=
| DbRows (columns : list str) (rows : list (list str))
| DbFail (f : db_failure).

(** The embedded database as the function sees it: [sqlite3.connect] may
    fail, and [cursor.execute] followed by the fetch answers a statement. *)
Record Database : Type := {
  connect_failure : option db_failure;
  run_statement : str -> db_reply
}.

(** The second component of the returned pair: the rows, or a message. *)
Inductive results : Type :=
| ResRows (rows : list (list str))
| ResStr (msg : str).

Definition table_not_found : str :=
  $"Database table not found. Please ensure the database is properly set up.".

Definition invalid_syntax : str :=
  $"Invalid SQL query syntax. Please try rephrasing your question.".

(** Lines 125-136: the two [except] clauses. *)
Definition report_failure (f : db_failure) : str :=
  match f with
  | SqliteError e =>
      let error_msg :=
        if contains $"no such table" (lower e) then table_not_found
        else if contains $"syntax error" (lower e) then invalid_syntax
        else e in
      $"Database error: " ++ error_msg
  | OtherFailure e => $"An error occurred: " ++ e
  end.

Definition execute_sql_query (db : Database) (query : str)
  : option (list str) * results * list event :=
  match connect_failure db with
  | Some f => (None, ResStr (report_failure f), [DbConnect])
  | None =>
      match run_statement db query with
      | DbRows columns rows =>
          (Some columns, ResRows rows, [DbConnect; DbExecute query; DbClose])
      | DbFail f =>
          (None, ResStr (report_failure f), [DbConnect; DbExecute query; DbClose])
      end
  end.

(** ** main (lines 142-208) *)

(** [st.session_state]: the key [error_count] is absent in a new session. *)
Record session_state : Type := { error_count : option nat }.

Definition new_session : session_state := {| error_count := None |}.

(** One run of the script: the outcome of [load_model], the text of the input
    box and whether the button was pressed. *)
Record interaction : Type := {
  loaded : result Model;
  nl_query : str;
  button : bool
}.

Definition rephrase_hint : str :=
  $"Having trouble? Try rephrasing your question or check our example queries above.".

Definition request_failed : str :=
  $"An error occurred while processing your request. Please try again.".

Definition counting (n : nat) : session_state := {| error_count := Some n |}.

(** The counter once lines 161-162 have run. *)
Definition count_of (st : session_state) : nat :=
  match error_count st with
  | Some n => n
  | None => 0
  end.

(** The page furniture (title, sidebar, introduction) is left out of the
    trace; every other call of the script to the interface or the database
    is in it. *)
Definition main (db : Database) (i : interaction) (st : session_state)
  : session_state * list event :=
  let count := count_of st in
  match loaded i with
  | Raise _ =>
      (counting count,
       [UiError $"Failed to load the model. Please refresh the page or contact support."])
  | Ok model =>
      if negb (button i) then (counting count, [])
      else
        match strip (nl_query i) with
        | [] => (counting count, [UiWarning $"Please enter a question first."])
        | _ :: _ =>
            match generate_sql_query (nl_query i) model with
            | Raise _ => (counting (count + 1), [UiError request_failed])
            | Ok sql_query =>
                let '(columns, res, log) := execute_sql_query db sql_query in
                let shown :=
                  [UiSubheader $"Generated SQL Query:"; UiCode sql_query] ++ log in
                match res with
                | ResStr msg =>
                    let count := count + 1 in
                    (counting count,
                     shown ++ UiError msg ::
                       (if Nat.leb 3 count then [UiWarning rephrase_hint] else []))
                | ResRows ((_ :: _) as rows) =>
                    (counting 0,
                     shown ++ [UiSubheader $"Query Results:";
                               UiDataframe (match columns with Some c => c | None => [] end) rows])
                | ResRows [] =>
                    (counting count, shown ++ [UiInfo $"No matching results found."])
                end
            end
        end
  end.

(** A session: the script runs once per interaction, on the state the run
    before left. *)
Fixpoint session (db : Database) (runs : list interaction) (st : session_state)
  : session_state * list (list event) :=
  match runs with
  | [] => (st, [])
  | i :: runs' =>
      let '(st1, evs) := main db i st in
      let '(st2, rest) := session db runs' st1 in
      (st2, evs :: rest)
  end.

(** A model that answers every prompt with [text]. *)
Definition echo (text : str) : Model := fun _ => Ok text.

(** ** Notions of the specification *)

(** Two strings that differ in the case of ASCII letters only. *)
Definition same_nocase (x y : str) : Prop :=
  map fold_ascii x = map fold_ascii y.

(** [tok] occurs in [s] at some position, its ASCII letters in either
    case. *)
Definition occurs_nocase (tok s : str) : Prop :=
  exists a m b, s = a ++ m ++ b /\ same_nocase m tok.

(** [s] begins with [tok], its ASCII letters in either case. *)
Definition begins_nocase (tok s : str) : Prop :=
  exists m r, s = m ++ r /\ same_nocase m tok.

(** [tok] occurs in [s] at some position, letter for letter. *)
Definition occurs (tok s : str) : Prop := exists a b, s = a ++ tok ++ b.

(** [tok] occurs in the text once [str.upper] has been applied to it, which
    is how the code looks for a word in any letter case. *)
Definition occurs_upper (tok s : str) : Prop := occurs tok (upper s).

(** The upper-cased text begins with [tok]. *)
Definition begins_upper (tok s : str) : Prop := exists r, upper s = tok ++ r.

(** No forbidden token occurs in the upper-cased text. *)
Definition blacklist_free (s : str) : Prop :=
  forall tok, In tok blacklist -> ~ occurs_upper tok s.

(** [s] is "of", white space and then the word token [word]: a longest run of
    word characters. *)
Definition of_word_at (s word : str) : Prop :=
  exists ws rest,
    s = $"of" ++ ws ++ word ++ rest /\
    ws <> [] /\ Forall (fun c => is_space c = true) ws /\
    word <> [] /\ Forall (fun c => is_word c = true) word /\
    match rest with [] => True | c :: _ => is_word c = false end.

(** [word] is the first word token that follows an "of" in [s]: no position
    to the left of it starts such an occurrence. *)
Definition first_of_word (s word : str) : Prop :=
  exists pre post,
    s = pre ++ post /\ of_word_at post word /\
    forall pre1 pre2 w,
      pre = pre1 ++ pre2 -> pre2 <> [] -> ~ of_word_at (pre2 ++ post) w.

(** The number of times [c] is in [s]. *)
Definition count_char (c : N) (s : str) : nat := count_occ N.eq_dec s c.

(** What a run of the script comes to. *)
Inductive outcome : Type :=
| NoRequest        (* no model, no click, or a blank question *)
| Rejected         (* [generate_sql_query] raised: the guard or the model *)
| ExecutionFailed  (* the database reported a failure *)
| RowsFound        (* a successful, non-empty result *)
| NoRows.          (* a successful, empty result *)

Definition outcome_of (db : Database) (i : interaction) : outcome :=
  match loaded i with
  | Raise _ => NoRequest
  | Ok model =>
      if negb (button i) then NoRequest
      else
        match strip (nl_query i) with
        | [] => NoRequest
        | _ :: _ =>
            match generate_sql_query (nl_query i) model with
            | Raise _ => Rejected
            | Ok sql_query =>
                match snd (fst (execute_sql_query db sql_query)) with
                | ResStr _ => ExecutionFailed
                | ResRows (_ :: _) => RowsFound
                | ResRows [] => NoRows
                end
            end
        end
  end.

(** A request that the guard, the model or the database made fail. *)
Definition failed (db : Database) (i : interaction) : Prop :=
  outcome_of db i = Rejected \/ outcome_of db i = ExecutionFailed.

Definition is_execute (ev : event) : bool :=
  match ev with
  | DbExecute _ => true
  | _ => false
  end.

(** The number of statements that a trace sends to the database. *)
Definition executions (evs : list event) : nat :=
  List.length (filter is_execute evs).

(** A database file without the table: every statement fails. *)
Definition no_table : Database :=
  {| connect_failure := None;
     run_statement := fun _ => DbFail (SqliteError $"no such table: Departments") |}.

(** The user asks for all departments and the model answers with the query
    of its prompt. *)
Definition ask_all : interaction :=
  {| loaded := Ok (echo $"SELECT * FROM Departments;");
     nl_query := $"Show all departments";
     button := true |}.

(** The seeded database of setup_db.py, as far as the end-to-end check of
    the specification needs it: the one statement that lists the table. *)
Definition seeded : Database :=
  {| connect_failure := None;
     run_statement := fun query =>
       if list_eq_dec N.eq_dec query $"SELECT * FROM Departments;"
       then DbRows [$"Name"; $"Manager"]
                   [ [$"Sales"; $"John Smith"];
                     [$"Marketing"; $"Jane Doe"];
                     [$"Engineering"; $"Bob Wilson"];
                     [$"HR"; $"Sarah Johnson"];
                     [$"Finance"; $"Mike Brown"] ]
       else DbRows [] [] |}.

(** The model answers with a statement that the guard rejects. *)
Definition ask_drop : interaction :=
  {| loaded := Ok (echo $"DROP TABLE Departments");
     nl_query := $"Remove the departments";
     button := true |}.

(** A text that no fence match can reach into and that trimming leaves
    whole: it has no backtick and no white space, and its first character is
    none of the letters of "sql". *)
Definition solid (m : str) : Prop :=
  ~ In "`" m /\
  Forall (fun c => is_space c = false) m /\
  match m with
  | [] => False
  | c :: _ => c <> "s" /\ c <> "q" /\ c <> "l"
  end.

(** A statement of the shape the application means to run: its upper-cased
    text begins with SELECT and has no comment marker, and it ends with one
    semicolon. *)
Definition select_statement (q : str) : Prop :=
  begins_upper $"SELECT" q /\
  (exists body, q = body ++ [";"] /\ forall b, body <> b ++ [";"]) /\
  ~ occurs_upper $"--" q /\ ~ occurs_upper $"/*" q.

Definition is_connect (ev : event) : bool :=
  match ev with
  | DbConnect => true
  | _ => false
  end.

Definition is_close (ev : event) : bool :=
  match ev with
  | DbClose => true
  | _ => false
  end.

Definition connects (evs : list event) : nat :=
  List.length (filter is_connect evs).

Definition closes (evs : list event) : nat :=
  List.length (filter is_close evs).

(** The counter as the outcomes of the runs determine it. *)
Definition tally (db : Database) (n : nat) (i : interaction) : nat :=
  match outcome_of db i with
  | Rejected | ExecutionFailed => n + 1
  | RowsFound => 0
  | NoRows | NoRequest => n
  end.

(** White space only. *)
Definition blank (ws : str) : Prop := Forall (fun c => is_space c = true) ws.

(** A plain character: ASCII, no capital letter, and neither i nor k, which
    are the two ASCII letters that some other character has for its lower
    case. *)
Definition plain (c : N) : bool :=
  is_ascii c && negb (is_upper c) && negb (c =? "i") && negb (c =? "k").

(** A word of plain characters. *)
Definition plain_word (tok : str) : bool :=
  forallb plain tok && match tok with [] => false | _ :: _ => true end.

(** ** Properties *)

(** *** Characters *)

Arguments upper_char : simpl never.
Arguments lower_char : simpl never.
Arguments is_space : simpl never.
Arguments is_word : simpl never.
Arguments fold_ascii : simpl never.

Lemma in_range_spec (lo hi c : N) :
  in_range lo hi c = true <-> (lo <= c <= hi)%N.
Proof.
  unfold in_range. now rewrite andb_true_iff, !N.leb_le.
Qed.

Lemma is_ascii_spec (c : N) : is_ascii c = true <-> (c < 128)%N.
Proof. apply N.ltb_lt. Qed.

Lemma is_space_spec (c : N) : is_space c = true <-> In c spaces.
Proof.
  unfold is_space. rewrite existsb_exists. split.
  - intros [x [Hin Hx]]. apply N.eqb_eq in Hx. now subst.
  - intros H. exists c. split; [exact H | apply N.eqb_refl].
Qed.

Lemma assoc_in (c : N) (table : list (N * list N)) (l : list N) :
  assoc c table = Some l -> In (c, l) table.
Proof.
  induction table as [|[k v] table IH]; [discriminate|]. simpl.
  destruct (N.eqb_spec c k) as [->|_].
  - intros H. injection H as ->. now left.
  - intros H. right. now apply IH.
Qed.

(** What holds of every line of a table holds of what [assoc] finds. *)
Lemma assoc_forall (P : N -> list N -> bool) (table : list (N * list N)) :
  forallb (fun e => P (fst e) (snd e)) table = true ->
  forall c l, assoc c table = Some l -> P c l = true.
Proof.
  intros H c l Hl. rewrite forallb_forall in H.
  exact (H (c, l) (assoc_in c table l Hl)).
Qed.

Lemma spaces_forall (P : N -> bool) :
  forallb P spaces = true -> forall c, is_space c = true -> P c = true.
Proof.
  intros H c Hc. rewrite forallb_forall in H. apply H. now apply is_space_spec.
Qed.

Lemma list_eqb_eq (x y : list N) : list_eqb x y = true -> x = y.
Proof. unfold list_eqb. now destruct (list_eq_dec N.eq_dec x y). Qed.

Lemma space_not_word (c : N) : is_space c = true -> is_word c = false.
Proof.
  intros H. apply negb_true_iff. revert c H. apply spaces_forall.
  vm_compute. reflexivity.
Qed.

Lemma space_upper (c : N) : is_space c = true -> upper_char c = [c].
Proof.
  intros H. apply list_eqb_eq. revert c H.
  apply (spaces_forall (fun c => list_eqb (upper_char c) [c])).
  vm_compute. reflexivity.
Qed.

Lemma space_fold (c : N) : is_space c = true -> fold_ascii c = c.
Proof.
  intros H. apply N.eqb_eq. revert c H.
  apply (spaces_forall (fun c => N.eqb (fold_ascii c) c)).
  vm_compute. reflexivity.
Qed.

Lemma upper_char_nonempty (c : N) : upper_char c <> [].
Proof.
  unfold upper_char. destruct (is_ascii c).
  - destruct (is_lower c); discriminate.
  - destruct (assoc c upper_table) as [l|] eqn:E; [|discriminate].
    pose proof (assoc_forall (fun _ l => negb (list_eqb l [])) upper_table) as H.
    specialize (H eq_refl c l E). intros ->. discriminate H.
Qed.

(** Upper-casing makes no ASCII character but capital letters: any other
    ASCII character of the result was there before. *)
Lemma upper_char_ascii (c d : N) :
  In d (upper_char c) -> is_ascii d = true -> is_upper d = false -> d = c.
Proof.
  unfold upper_char. destruct (is_ascii c) eqn:Hc.
  - destruct (is_lower c) eqn:Hl.
    + intros [<- | []] _ Hu. exfalso.
      apply in_range_spec in Hl.
      assert (is_upper (c - 32) = true) by (apply in_range_spec; lia).
      congruence.
    + now intros [<- | []].
  - destruct (assoc c upper_table) as [l|] eqn:E.
    + intros Hin Hd Hu. exfalso.
      pose proof (assoc_forall
        (fun _ l => forallb (fun x => negb (is_ascii x) || is_upper x) l)
        upper_table) as H.
      specialize (H eq_refl c l E). rewrite forallb_forall in H.
      specialize (H d Hin). rewrite Hd, Hu in H. discriminate H.
    + now intros [<- | []].
Qed.

Lemma upper_ascii (s : str) (d : N) :
  In d (upper s) -> is_ascii d = true -> is_upper d = false -> In d s.
Proof.
  unfold upper. rewrite in_flat_map. intros [c [Hc Hd]] Ha Hu.
  now rewrite (upper_char_ascii c d Hd Ha Hu).
Qed.

(** The ASCII letters in either case have one capital. *)
Lemma fold_upper_char (a b : N) :
  fold_ascii a = fold_ascii b -> upper_char a = upper_char b.
Proof.
  unfold fold_ascii, upper_char, is_ascii, is_upper, is_lower.
  destruct (in_range 65 90 a) eqn:Ha; destruct (in_range 65 90 b) eqn:Hb;
    intros H.
  - now replace a with b by lia.
  - apply in_range_spec in Ha. subst b.
    replace (a + 32 <? 128)%N with true by (symmetry; apply N.ltb_lt; lia).
    replace (a <? 128)%N with true by (symmetry; apply N.ltb_lt; lia).
    replace (in_range 97 122 (a + 32)) with true
      by (symmetry; apply in_range_spec; lia).
    replace (in_range 97 122 a) with false
      by (symmetry; apply not_true_is_false; rewrite in_range_spec; lia).
    f_equal. lia.
  - apply in_range_spec in Hb. subst a.
    replace (b + 32 <? 128)%N with true by (symmetry; apply N.ltb_lt; lia).
    replace (b <? 128)%N with true by (symmetry; apply N.ltb_lt; lia).
    replace (in_range 97 122 (b + 32)) with true
      by (symmetry; apply in_range_spec; lia).
    replace (in_range 97 122 b) with false
      by (symmetry; apply not_true_is_false; rewrite in_range_spec; lia).
    f_equal. lia.
  - now subst.
Qed.

(** *** Prefixes and occurrences *)

Lemma startswith_nil (s : str) : startswith s [] = true.
Proof. destruct s; reflexivity. Qed.

Lemma startswith_cons (a b : N) (s p : str) :
  startswith (b :: s) (a :: p) = (a =? b) && startswith s p.
Proof. reflexivity. Qed.

Lemma startswith_iff (s p : str) :
  startswith s p = true <-> exists r, s = p ++ r.
Proof.
  revert s; induction p as [|a p IH]; intros s.
  - rewrite startswith_nil. split; [exists s; reflexivity | reflexivity].
  - destruct s as [|b s].
    + split; [discriminate | intros [r H]; discriminate].
    + rewrite startswith_cons, andb_true_iff, N.eqb_eq, IH. split.
      * intros [-> [r ->]]. exists r; reflexivity.
      * intros [r H]. injection H as -> ->. split; eauto.
Qed.

Lemma startswith_app (p r : str) : startswith (p ++ r) p = true.
Proof. apply startswith_iff. eauto. Qed.

Lemma startswith_longer (s p q : str) :
  startswith s p = false -> startswith s (p ++ q) = false.
Proof.
  intros H. destruct (startswith s (p ++ q)) eqn:E; [|reflexivity].
  apply startswith_iff in E as [r ->].
  rewrite <- app_assoc, startswith_app in H. discriminate.
Qed.

Lemma contains_cons (p : str) (c : N) (s : str) :
  contains p (c :: s) = startswith (c :: s) p || contains p s.
Proof. reflexivity. Qed.

Lemma contains_nil (p : str) : contains p [] = startswith [] p.
Proof. simpl. apply orb_false_r. Qed.

Lemma contains_iff (p s : str) :
  contains p s = true <-> exists a b, s = a ++ p ++ b.
Proof.
  induction s as [|c s IH].
  - rewrite contains_nil, startswith_iff. split.
    + intros [r H]. exists [], r. exact H.
    + intros [a [b H]]. destruct a; [eauto | discriminate].
  - rewrite contains_cons, orb_true_iff, startswith_iff, IH. split.
    + intros [[r H] | [a [b H]]].
      * exists [], r. exact H.
      * exists (c :: a), b. rewrite H. reflexivity.
    + intros [[|x a] [b H]].
      * left. eauto.
      * right. injection H as _ H. eauto.
Qed.

Lemma contains_inside (p a s b : str) :
  contains p s = true -> contains p (a ++ s ++ b) = true.
Proof.
  rewrite !contains_iff. intros [x [y ->]].
  exists (a ++ x), (y ++ b). now rewrite <- !app_assoc.
Qed.

Lemma absent_inside (p a s b : str) :
  contains p (a ++ s ++ b) = false -> contains p s = false.
Proof.
  intros H. destruct (contains p s) eqn:E; [|reflexivity].
  now rewrite (contains_inside p a s b E) in H.
Qed.

Lemma absent_prefix (p s t : str) :
  contains p (s ++ t) = false -> contains p s = false.
Proof. intros H. apply (absent_inside p [] s t). exact H. Qed.

Lemma absent_suffix (p s t : str) :
  contains p (s ++ t) = false -> contains p t = false.
Proof.
  intros H. apply (absent_inside p s t []). now rewrite app_nil_r.
Qed.

(** A character that the pattern does not have cuts the text in two. *)
Lemma startswith_cut (c : N) (p a b : str) :
  ~ In c p -> startswith (a ++ c :: b) p = startswith a p.
Proof.
  intros Hc. revert p Hc. induction a as [|h a IH]; intros [|x p] Hc; try reflexivity.
  - simpl app. rewrite startswith_cons.
    destruct (N.eqb_spec x c) as [->|_]; [|reflexivity].
    exfalso. apply Hc. now left.
  - simpl app. rewrite !startswith_cons, IH; [reflexivity|].
    intros H. apply Hc. now right.
Qed.

Lemma contains_cut (c : N) (p a b : str) :
  ~ In c p -> contains p (a ++ c :: b) = contains p a || contains p b.
Proof.
  intros Hc. induction a as [|h a IH].
  - simpl app. rewrite contains_cons, contains_nil.
    pose proof (startswith_cut c p [] b Hc) as E. simpl app in E.
    now rewrite E.
  - simpl app. rewrite !contains_cons, IH.
    change (h :: a ++ c :: b) with ((h :: a) ++ c :: b).
    rewrite (startswith_cut c p (h :: a) b Hc). now rewrite orb_assoc.
Qed.

(** An occurrence that a last, appended character creates ends with it. *)
Lemma startswith_snoc (c : N) (s p : str) :
  startswith (s ++ [c]) p = true ->
  startswith s p = true \/ exists p', p = p' ++ [c].
Proof.
  revert p. induction s as [|h s IH]; intros [|x p] H; try (now left).
  - simpl app in H. rewrite startswith_cons, andb_true_iff, N.eqb_eq in H.
    destruct H as [-> H]. destruct p; [|discriminate].
    right. now exists [].
  - simpl app in H. rewrite startswith_cons, andb_true_iff in H.
    destruct H as [Hx H]. destruct (IH _ H) as [H1 | [p' ->]].
    + left. now rewrite startswith_cons, Hx.
    + right. now exists (x :: p').
Qed.

Lemma contains_snoc (c : N) (s p : str) :
  contains p (s ++ [c]) = true ->
  contains p s = true \/ exists p', p = p' ++ [c].
Proof.
  induction s as [|h s IH]; intros H.
  - simpl app in H. rewrite contains_cons, contains_nil, orb_true_iff in H.
    rewrite contains_nil.
    destruct H as [H | H].
    + apply (startswith_snoc c [] p H).
    + left. exact H.
  - simpl app in H. rewrite contains_cons, orb_true_iff in H.
    destruct H as [H | H].
    + change (h :: s ++ [c]) with ((h :: s) ++ [c]) in H.
      destruct (startswith_snoc _ _ _ H) as [H1 | H1]; [|now right].
      left. now rewrite contains_cons, H1.
    + destruct (IH H) as [H1 | H1]; [|now right].
      left. rewrite contains_cons, H1. apply orb_true_r.
Qed.

Lemma absent_snoc (c d : N) (s p : str) :
  last p d <> c -> p <> [] ->
  contains p s = false -> contains p (s ++ [c]) = false.
Proof.
  intros Hl Hp H. destruct (contains p (s ++ [c])) eqn:E; [|reflexivity].
  destruct (contains_snoc _ _ _ E) as [H1 | [p' ->]]; [congruence|].
  rewrite last_last in Hl. congruence.
Qed.

Lemma contains_chars (p s : str) (c : N) :
  contains p s = true -> In c p -> In c s.
Proof.
  rewrite contains_iff. intros [a [b ->]] H.
  apply in_or_app. right. apply in_or_app. now left.
Qed.

(** *** Stripping *)

Section Trimming.

Variable f : N -> bool.

Lemma drop_trailing_cons (c : N) (s : str) :
  drop_trailing f (c :: s) =
  match drop_trailing f s with
  | [] => if f c then [] else [c]
  | r => c :: r
  end.
Proof. reflexivity. Qed.

Lemma drop_trailing_keep (p s : str) :
  Forall (fun c => f c = false) p ->
  drop_trailing f (p ++ s) = p ++ drop_trailing f s.
Proof.
  induction 1 as [|c p Hc _ IH]; [reflexivity|].
  simpl app. rewrite drop_trailing_cons, IH.
  destruct (p ++ drop_trailing f s); [now rewrite Hc | reflexivity].
Qed.

Lemma drop_trailing_split (s : str) :
  exists t, s = drop_trailing f s ++ t /\ Forall (fun c => f c = true) t.
Proof.
  induction s as [|c s [t [Hs Ht]]].
  - exists []. split; [reflexivity | constructor].
  - rewrite drop_trailing_cons. destruct (drop_trailing f s) as [|y r] eqn:E.
    + destruct (f c) eqn:Hc.
      * exists (c :: s). split; [reflexivity|].
        constructor; [exact Hc|]. simpl in Hs. now rewrite Hs.
      * exists t. split; [|exact Ht]. simpl. now rewrite Hs at 1.
    + exists t. split; [|exact Ht]. simpl. now rewrite Hs at 1.
Qed.

Lemma drop_trailing_snoc_drop (c : N) (s : str) :
  f c = true -> drop_trailing f (s ++ [c]) = drop_trailing f s.
Proof.
  intros Hc. induction s as [|x s IH].
  - simpl. now rewrite Hc.
  - simpl app. now rewrite !drop_trailing_cons, IH.
Qed.

Lemma drop_trailing_snoc_keep (c : N) (s : str) :
  f c = false -> drop_trailing f (s ++ [c]) = s ++ [c].
Proof.
  intros Hc. induction s as [|x s IH].
  - simpl. now rewrite Hc.
  - simpl app. rewrite drop_trailing_cons, IH.
    destruct (s ++ [c]) eqn:E; [|reflexivity].
    now destruct s.
Qed.

Lemma drop_trailing_idem (s : str) :
  drop_trailing f (drop_trailing f s) = drop_trailing f s.
Proof.
  induction s as [|x s IH]; [reflexivity|].
  rewrite drop_trailing_cons. destruct (drop_trailing f s) as [|y r] eqn:E.
  - destruct (f x) eqn:Hx; [reflexivity|]. simpl. now rewrite Hx.
  - rewrite drop_trailing_cons, IH. reflexivity.
Qed.

Lemma drop_while_split (s : str) : exists h, s = h ++ drop_while f s.
Proof.
  induction s as [|c s [h Hs]].
  - now exists [].
  - simpl. destruct (f c).
    + exists (c :: h). simpl. now rewrite <- Hs.
    + now exists [].
Qed.

Lemma drop_while_head (c : N) (s : str) :
  f c = false -> drop_while f (c :: s) = c :: s.
Proof. intros Hc. simpl. now rewrite Hc. Qed.

Lemma take_while_all (s : str) : Forall (fun c => f c = true) (take_while f s).
Proof.
  induction s as [|c s IH]; simpl; [constructor|].
  destruct (f c) eqn:Hc; constructor; assumption.
Qed.

Lemma take_drop_while (s : str) : s = take_while f s ++ drop_while f s.
Proof.
  induction s as [|c s IH]; simpl; [reflexivity|].
  destruct (f c); simpl; [now rewrite <- IH | reflexivity].
Qed.

End Trimming.

Lemma strip_inside (s : str) : exists a b, s = a ++ strip s ++ b.
Proof.
  unfold strip.
  destruct (drop_while_split is_space s) as [a Ha].
  destruct (drop_trailing_split is_space (drop_while is_space s)) as [b [Hb _]].
  exists a, b. now rewrite <- Hb.
Qed.

Lemma terminate_idempotent (s : str) : terminate (terminate s) = terminate s.
Proof.
  unfold terminate, rstrip_semi.
  change ($";") with [";"].
  rewrite drop_trailing_snoc_drop by reflexivity.
  now rewrite drop_trailing_idem.
Qed.

(** *** Letter case *)

Lemma upper_app (s t : str) : upper (s ++ t) = upper s ++ upper t.
Proof. apply flat_map_app. Qed.

Lemma upper_cons (c : N) (s : str) : upper (c :: s) = upper_char c ++ upper s.
Proof. reflexivity. Qed.

Lemma same_nocase_upper (x y : str) : same_nocase x y -> upper x = upper y.
Proof.
  unfold same_nocase. revert y.
  induction x as [|a x IH]; intros [|b y] H; try discriminate; [reflexivity|].
  injection H as Hab H.
  now rewrite !upper_cons, (fold_upper_char a b Hab), (IH y H).
Qed.

Lemma occurs_contains (tok s : str) : occurs tok s <-> contains tok s = true.
Proof. unfold occurs. now rewrite contains_iff. Qed.

Lemma occurs_upper_iff (tok s : str) :
  occurs_upper tok s <-> contains tok (upper s) = true.
Proof. apply occurs_contains. Qed.

Lemma begins_upper_iff (tok s : str) :
  begins_upper tok s <-> startswith (upper s) tok = true.
Proof. unfold begins_upper. now rewrite startswith_iff. Qed.

(** A word that occurs in some ASCII letter case occurs in the upper-cased
    text. *)
Lemma occurs_nocase_upper (tok s : str) :
  occurs_nocase tok s -> contains (upper tok) (upper s) = true.
Proof.
  rewrite contains_iff. intros [a [m [b [-> H]]]].
  apply same_nocase_upper in H.
  exists (upper a), (upper b). now rewrite !upper_app, H.
Qed.

Lemma begins_nocase_upper (tok s : str) :
  begins_nocase tok s -> startswith (upper s) (upper tok) = true.
Proof.
  rewrite startswith_iff. intros [m [r [-> H]]].
  apply same_nocase_upper in H.
  exists (upper r). now rewrite upper_app, H.
Qed.

(** **** Lower case *)

Lemma plain_fold (c : N) : plain c = true -> fold_ascii c = c.
Proof.
  unfold plain, fold_ascii. destruct (is_upper c); [|reflexivity].
  rewrite andb_false_r. discriminate.
Qed.

Lemma plain_map_fold (tok : str) :
  forallb plain tok = true -> map fold_ascii tok = tok.
Proof.
  induction tok as [|t tok IH]; [reflexivity|]. simpl.
  rewrite andb_true_iff. intros [Ht H]. now rewrite (plain_fold t Ht), IH.
Qed.

Lemma fold_is_ascii (c : N) : is_ascii (fold_ascii c) = is_ascii c.
Proof.
  unfold fold_ascii, is_upper. destruct (in_range 65 90 c) eqn:E; [|reflexivity].
  apply in_range_spec in E. unfold is_ascii.
  replace (c + 32 <? 128)%N with true by (symmetry; apply N.ltb_lt; lia).
  symmetry. apply N.ltb_lt. lia.
Qed.

Lemma lower_char_ascii (c : N) :
  is_ascii c = true -> lower_char c = [fold_ascii c].
Proof.
  unfold lower_char, fold_ascii. intros ->. now destruct (is_upper c).
Qed.

Lemma lower_at_ascii (before after : str) (c : N) :
  is_ascii c = true -> lower_at before after c = [fold_ascii c].
Proof.
  intros H. unfold lower_at.
  destruct (N.eqb_spec c capital_sigma) as [->|_]; [discriminate H|].
  now apply lower_char_ascii.
Qed.

Lemma lower_char_nonempty (c : N) : lower_char c <> [].
Proof.
  unfold lower_char. destruct (is_ascii c).
  - destruct (is_upper c); discriminate.
  - destruct (assoc c lower_table) as [l|] eqn:E; [|discriminate].
    pose proof (assoc_forall (fun _ l => negb (list_eqb l [])) lower_table) as H.
    specialize (H eq_refl c l E). intros ->. discriminate H.
Qed.

Lemma lower_at_nonempty (before after : str) (c : N) :
  lower_at before after c <> [].
Proof.
  unfold lower_at. destruct (c =? capital_sigma); [discriminate|].
  apply lower_char_nonempty.
Qed.

(** A plain character in lower-cased text stands where an ASCII character
    stood, alone. *)
Lemma lower_at_plain (before after : str) (c t : N) :
  In t (lower_at before after c) -> plain t = true ->
  lower_at before after c = [t] /\ fold_ascii c = t.
Proof.
  intros Hin Ht.
  destruct (is_ascii c) eqn:Hc.
  - rewrite (lower_at_ascii before after c Hc) in Hin |- *.
    destruct Hin as [<- | []]. now split.
  - exfalso. unfold lower_at in Hin.
    destruct (c =? capital_sigma).
    + destruct (final_sigma before after); destruct Hin as [<- | []];
        discriminate Ht.
    + unfold lower_char in Hin. rewrite Hc in Hin.
      destruct (assoc c lower_table) as [l|] eqn:E.
      * pose proof (assoc_forall
          (fun _ l => forallb (fun x => negb (plain x)) l) lower_table) as H.
        specialize (H eq_refl c l E). rewrite forallb_forall in H.
        specialize (H t Hin). rewrite Ht in H. discriminate H.
      * destruct Hin as [<- | []]. unfold plain in Ht. rewrite Hc in Ht.
        discriminate Ht.
Qed.

Lemma lower_from_app (before a r : str) :
  exists out, lower_from before (a ++ r) =
              out ++ lower_from (rev a ++ before) r.
Proof.
  revert before. induction a as [|c a IH]; intros before.
  - now exists [].
  - destruct (IH (c :: before)) as [out E]. simpl.
    exists (lower_at before (a ++ r) c ++ out).
    now rewrite E, <- !app_assoc.
Qed.

Lemma lower_from_ascii (before m r : str) :
  forallb is_ascii m = true ->
  lower_from before (m ++ r) =
  map fold_ascii m ++ lower_from (rev m ++ before) r.
Proof.
  revert before. induction m as [|c m IH]; intros before H; [reflexivity|].
  simpl in H. apply andb_true_iff in H as [Hc H]. simpl.
  now rewrite (lower_at_ascii _ _ c Hc), (IH _ H), <- app_assoc.
Qed.

Lemma same_nocase_ascii (m tok : str) :
  forallb is_ascii tok = true -> same_nocase m tok -> forallb is_ascii m = true.
Proof.
  unfold same_nocase. revert tok.
  induction m as [|c m IH]; intros [|t tok] Ht H; try discriminate; [reflexivity|].
  simpl in Ht. apply andb_true_iff in Ht as [Ht1 Ht2].
  injection H as Hc H. simpl.
  rewrite (IH tok Ht2 H), andb_true_r.
  now rewrite <- fold_is_ascii, Hc, fold_is_ascii.
Qed.

Lemma plain_is_ascii (tok : str) :
  forallb plain tok = true -> forallb is_ascii tok = true.
Proof.
  induction tok as [|t tok IH]; [reflexivity|]. simpl.
  rewrite !andb_true_iff. intros [Ht H]. split; [|now apply IH].
  unfold plain in Ht. now destruct (is_ascii t).
Qed.

Lemma lower_from_prefix (tok before s y : str) :
  forallb plain tok = true ->
  lower_from before s = tok ++ y ->
  exists m r, s = m ++ r /\ map fold_ascii m = tok.
Proof.
  revert before s. induction tok as [|t tok IH]; intros before s Hp H.
  - now exists [], s.
  - simpl in Hp. apply andb_true_iff in Hp as [Ht Hp].
    destruct s as [|c s]; [discriminate H|]. simpl in H.
    destruct (lower_at before s c) as [|o out] eqn:E.
    { now destruct (lower_at_nonempty before s c). }
    simpl in H. injection H as -> H.
    destruct (lower_at_plain before s c t) as [E1 E2];
      [rewrite E; now left | exact Ht |].
    rewrite E in E1. injection E1 as ->. simpl in H.
    destruct (IH _ _ Hp H) as [m [r [-> Hm]]].
    exists (c :: m), r. split; [reflexivity|]. simpl. now rewrite E2, Hm.
Qed.

Lemma lower_from_inside (tok before s x y : str) :
  forallb plain tok = true -> tok <> [] ->
  lower_from before s = x ++ tok ++ y ->
  exists a m b, s = a ++ m ++ b /\ map fold_ascii m = tok.
Proof.
  intros Hp Hne. revert before x.
  induction s as [|c s IH]; intros before x H.
  - destruct x; destruct tok; try discriminate H. contradiction.
  - destruct x as [|x0 x].
    + destruct (lower_from_prefix tok before (c :: s) y Hp H) as [m [r [E Hm]]].
      now exists [], m, r.
    + simpl in H.
      change (x0 :: x ++ tok ++ y) with ((x0 :: x) ++ tok ++ y) in H.
      apply app_eq_app in H as [l [[E1 E2] | [E1 E2]]].
      * destruct l as [|l0 l].
        -- simpl in E2. symmetry in E2.
           destruct (IH (c :: before) [] E2) as [a [m [b [-> Hm]]]].
           now exists (c :: a), m, b.
        -- exfalso. destruct tok as [|t tok]; [contradiction|].
           simpl in E2. injection E2 as <- _.
           simpl in Hp. apply andb_true_iff in Hp as [Ht _].
           destruct (lower_at_plain before s c t) as [E _];
             [rewrite E1; apply in_or_app; right; now left | exact Ht |].
           rewrite E in E1. destruct x; discriminate E1.
      * destruct (IH (c :: before) l E2) as [a [m [b [-> Hm]]]].
        now exists (c :: a), m, b.
Qed.

(** For a plain word the test [tok in s.lower()] is the occurrence of the
    word in some ASCII letter case. *)
Lemma occurs_nocase_lower (tok s : str) :
  plain_word tok = true ->
  occurs_nocase tok s <-> contains tok (lower s) = true.
Proof.
  unfold plain_word. rewrite andb_true_iff. intros [Hp Hne].
  rewrite contains_iff. unfold lower. split.
  - intros [a [m [b [-> H]]]].
    pose proof (same_nocase_ascii m tok (plain_is_ascii tok Hp) H) as Hm.
    unfold same_nocase in H. rewrite (plain_map_fold tok Hp) in H.
    destruct (lower_from_app [] a (m ++ b)) as [out ->].
    rewrite (lower_from_ascii _ m b Hm), H. eauto.
  - intros [x [y H]].
    destruct (lower_from_inside tok [] s x y Hp) as [a [m [b [-> Hm]]]];
      [intros ->; discriminate Hne | exact H |].
    exists a, m, b. split; [reflexivity|].
    unfold same_nocase. now rewrite (plain_map_fold tok Hp).
Qed.

Lemma nocase_in_lower (tok s : str) :
  occurs_nocase tok s -> plain_word tok = true ->
  contains tok (lower s) = true.
Proof. intros H Hp. now apply (occurs_nocase_lower tok s Hp). Qed.

Lemma lower_has_nocase (tok s : str) :
  contains tok (lower s) = true -> plain_word tok = true ->
  occurs_nocase tok s.
Proof. intros H Hp. now apply (occurs_nocase_lower tok s Hp). Qed.

(** *** The guard *)

Lemma blacklist_upper (tok : str) : In tok blacklist -> upper tok = tok.
Proof.
  unfold blacklist. simpl.
  intros H; repeat (destruct H as [<- | H]; [reflexivity|]); contradiction.
Qed.

Lemma blacklist_free_iff (s : str) : blacklist_free s <-> blacklisted s = false.
Proof.
  unfold blacklist_free, blacklisted. split.
  - intros H. apply not_true_is_false. intros E.
    apply existsb_exists in E as [tok [Hin Hc]].
    apply (H tok Hin). now apply occurs_upper_iff.
  - intros E tok Hin Hocc.
    apply occurs_upper_iff in Hocc.
    assert (existsb (fun word => contains word (upper s)) blacklist = true) as E'
      by (apply existsb_exists; eauto).
    congruence.
Qed.

Lemma blacklisted_of_occurrence (tok s : str) :
  In tok blacklist -> occurs_nocase tok s -> blacklisted s = true.
Proof.
  intros Hin Hocc. apply occurs_nocase_upper in Hocc.
  rewrite (blacklist_upper tok Hin) in Hocc.
  apply existsb_exists. eauto.
Qed.

Lemma clean_sql_query_eq (raw : str) :
  clean_sql_query raw =
  if blacklisted (strip_noise raw) then Raise rejection
  else Ok (terminate (remove_joins (force_select (strip_noise raw)))).
Proof.
  unfold clean_sql_query, clean_sql_query_try, strip_noise.
  now destruct (blacklisted (strip (sub_fences raw))).
Qed.

(** C1. A candidate whose stripped and trimmed text has a forbidden token, in
    any letter case and at any position, is rejected: [clean_sql_query]
    raises a [ValueError] and returns no query. *)
Theorem guard_rejects_blacklisted (raw tok : str) :
  In tok blacklist ->
  occurs_nocase tok (strip_noise raw) ->
  clean_sql_query raw = Raise rejection /\
  forall q, clean_sql_query raw <> Ok q.
Proof.
  intros Hin Hocc.
  assert (blacklisted (strip_noise raw) = true) as E
    by exact (blacklisted_of_occurrence tok _ Hin Hocc).
  rewrite clean_sql_query_eq, E. split; [reflexivity | discriminate].
Qed.

Lemma guard_rejects_blacklisted_witness :
  clean_sql_query $"```sql
select 1; dRoP table Departments
```" = Raise rejection /\
  forall q, clean_sql_query $"```sql
select 1; dRoP table Departments
```" <> Ok q.
Proof.
  apply (guard_rejects_blacklisted _ $"DROP").
  - simpl. tauto.
  - exists $"select 1; ", $"dRoP", $" table Departments".
    split; reflexivity.
Defined.



Lemma select_prefix_no_semi : Forall (fun c => (c =? ";") = false) select_prefix.
Proof. repeat constructor. Qed.

Lemma force_select_wraps (s : str) :
  ~ begins_upper $"SELECT" s -> force_select s = select_prefix ++ s.
Proof.
  intros H. unfold force_select.
  destruct (startswith (upper s) $"SELECT") eqn:E; [|reflexivity].
  exfalso. apply H. now apply begins_upper_iff.
Qed.

(** C4 as stated does not hold: a candidate may be free of forbidden tokens
    as it stands and have one once the fences are out, and then the guard
    rejects it and there is no output. *)
Lemma fence_removal_joins_token :
  blacklist_free $"DR```OP TABLE Departments" /\
  ~ begins_upper $"SELECT" (strip_noise $"DR```OP TABLE Departments") /\
  forall q, clean_sql_query $"DR```OP TABLE Departments" <> Ok q.
Proof.
  split; [|split].
  - apply blacklist_free_iff. reflexivity.
  - intros H. apply begins_upper_iff in H. discriminate H.
  - intros q H. discriminate H.
Qed.

(** C4, amended. A candidate whose text after fence stripping and trimming
    is free of forbidden tokens and does not begin with SELECT, both in the
    upper-cased text as the guard tests them, comes out as a query that
    starts with [SELECT * FROM Departments WHERE]. *)
Theorem guard_wraps_predicate (raw : str) :
  blacklist_free (strip_noise raw) ->
  ~ begins_upper $"SELECT" (strip_noise raw) ->
  exists q, clean_sql_query raw = Ok q /\
            startswith q $"SELECT * FROM Departments WHERE" = true.
Proof.
  intros Hfree Hsel.
  apply blacklist_free_iff in Hfree.
  rewrite clean_sql_query_eq, Hfree, (force_select_wraps _ Hsel).
  eexists. split; [reflexivity|].
  unfold remove_joins.
  destruct (contains $"JOIN" (upper (select_prefix ++ strip_noise raw)));
    [reflexivity|].
  unfold terminate, rstrip_semi.
  rewrite (drop_trailing_keep _ _ _ select_prefix_no_semi).
  apply startswith_iff.
  exists (" " :: drop_trailing (fun c => c =? ";") (strip_noise raw) ++ $";").
  reflexivity.
Qed.

Lemma guard_wraps_predicate_witness :
  exists q, clean_sql_query $"  Manager = 'Jane Doe';; " = Ok q /\
            startswith q $"SELECT * FROM Departments WHERE" = true.
Proof.
  apply guard_wraps_predicate.
  - apply blacklist_free_iff. reflexivity.
  - intros H. apply begins_upper_iff in H. discriminate H.
Defined.

(** *** Fences *)

Lemma sub_fences_from_skip (k : nat) (s : str) :
  sub_fences_from k s = sub_fences (skipn k s).
Proof.
  revert k. induction s as [|c s IH]; intros k.
  - now rewrite skipn_nil; destruct k.
  - destruct k as [|k]; [reflexivity|]. simpl. apply IH.
Qed.

Lemma sub_fences_cons (c : N) (s : str) :
  sub_fences (c :: s) =
  if startswith (c :: s) $"```sql" then sub_fences (skipn 5 s)
  else if startswith (c :: s) $"```" then sub_fences (skipn 2 s)
  else c :: sub_fences s.
Proof.
  unfold sub_fences at 1. simpl sub_fences_from.
  now rewrite !sub_fences_from_skip.
Qed.

Lemma sub_fences_keeps (c : N) (s : str) :
  startswith (c :: s) $"```" = false -> sub_fences (c :: s) = c :: sub_fences s.
Proof.
  intros H. rewrite sub_fences_cons, H.
  change ($"```sql") with ($"```" ++ $"sql").
  now rewrite (startswith_longer (c :: s) $"```" $"sql" H).
Qed.

Lemma sub_fences_head (s : str) :
  startswith s ["`"] = false -> startswith (sub_fences s) ["`"] = false.
Proof.
  destruct s as [|c s]; intros H; [reflexivity|].
  rewrite sub_fences_keeps by apply (startswith_longer _ ["`"] ["`"; "`"] H).
  rewrite startswith_cons, startswith_nil in H |- *. exact H.
Qed.

(** One pass leaves no fence behind. *)
Lemma sub_fences_no_fence (s : str) : contains $"```" (sub_fences s) = false.
Proof.
  remember (List.length s) as n eqn:Hn. revert s Hn.
  induction n as [n IH] using lt_wf_ind. intros [|c s] Hn; [reflexivity|].
  simpl in Hn.
  assert (forall k, contains $"```" (sub_fences (skipn k s)) = false) as Hskip.
  { intros k. apply (IH (List.length (skipn k s))); [|reflexivity].
    rewrite length_skipn. lia. }
  rewrite sub_fences_cons.
  destruct (startswith (c :: s) $"```sql"); [apply Hskip|].
  destruct (startswith (c :: s) $"```") eqn:E3; [apply Hskip|].
  pose proof (Hskip 0) as H0. simpl skipn in H0.
  rewrite contains_cons, H0, orb_false_r.
  change ($"```") with ("`" :: ["`"; "`"]) in *.
  rewrite startswith_cons in *.
  destruct ("`" =? c) eqn:Ec; [simpl andb in *|reflexivity].
  destruct s as [|d s]; [reflexivity|].
  change (["`"; "`"]) with ("`" :: ["`"]) in E3.
  rewrite startswith_cons in E3.
  destruct ("`" =? d) eqn:Ed; simpl andb in E3.
  - apply N.eqb_eq in Ed. subst d.
    rewrite sub_fences_keeps
      by apply (startswith_longer ("`" :: s) ["`"; "`"] ["`"]), E3.
    change (["`"; "`"]) with ("`" :: ["`"]).
    rewrite startswith_cons. simpl andb.
    apply sub_fences_head.
    change (startswith ("`" :: s) ["`"; "`"]) with (true && startswith s ["`"]) in E3.
    exact E3.
  - apply (startswith_longer _ ["`"] ["`"]).
    apply sub_fences_head. rewrite startswith_cons, Ed. reflexivity.
Qed.

Lemma sub_fences_id (s : str) :
  contains $"```" s = false -> sub_fences s = s.
Proof.
  induction s as [|c s IH]; intros H; [reflexivity|].
  rewrite contains_cons in H. apply orb_false_iff in H as [H1 H2].
  now rewrite sub_fences_keeps, IH.
Qed.

(** *** The guard on its own output *)

Lemma rstrip_semi_split (w : str) :
  exists t, w = rstrip_semi w ++ t /\ Forall (fun c => (c =? ";") = true) t.
Proof. apply drop_trailing_split. Qed.

Section Patterns.

(** A pattern without a space that does not end with a semicolon: neither
    the wrapping nor the terminator can complete an occurrence of it. *)
Variable p : str.
Hypothesis p_no_space : ~ In " " p.
Hypothesis p_last : last p " " <> ";".
Hypothesis p_nonempty : p <> [].

Lemma absent_terminate (w : str) :
  contains p w = false -> contains p (terminate w) = false.
Proof.
  intros H. destruct (rstrip_semi_split w) as [t [Hw _]].
  unfold terminate. change ($";") with [";"].
  apply (absent_snoc ";" " "); auto.
  apply (absent_prefix p _ t). now rewrite <- Hw.
Qed.

Lemma absent_terminate_upper (w : str) :
  contains p (upper w) = false -> contains p (upper (terminate w)) = false.
Proof.
  intros H. destruct (rstrip_semi_split w) as [t [Hw _]].
  unfold terminate. rewrite upper_app. change (upper $";") with [";"].
  apply (absent_snoc ";" " "); auto.
  apply (absent_prefix p _ (upper t)). now rewrite <- upper_app, <- Hw.
Qed.

Lemma absent_force_select (s : str) :
  contains p $"SELECT * FROM Departments WHERE" = false ->
  contains p s = false -> contains p (force_select s) = false.
Proof.
  intros Hp Hs. unfold force_select.
  destruct (negb (startswith (upper s) $"SELECT")); [|exact Hs].
  change select_prefix with ($"SELECT * FROM Departments WHERE" ++ [" "]).
  rewrite <- app_assoc. change ([" "] ++ s) with (" " :: s).
  now rewrite (contains_cut " " p _ _ p_no_space), Hp, Hs.
Qed.

Lemma absent_force_select_upper (s : str) :
  contains p $"SELECT * FROM DEPARTMENTS WHERE" = false ->
  contains p (upper s) = false -> contains p (upper (force_select s)) = false.
Proof.
  intros Hp Hs. unfold force_select.
  destruct (negb (startswith (upper s) $"SELECT")); [|exact Hs].
  rewrite upper_app.
  change (upper select_prefix) with ($"SELECT * FROM DEPARTMENTS WHERE" ++ [" "]).
  rewrite <- app_assoc. change ([" "] ++ upper s) with (" " :: upper s).
  now rewrite (contains_cut " " p _ _ p_no_space), Hp, Hs.
Qed.

End Patterns.

Lemma blacklist_pattern (tok : str) :
  In tok blacklist ->
  ~ In " " tok /\ last tok " " <> ";" /\ tok <> [] /\
  contains tok $"SELECT * FROM DEPARTMENTS WHERE" = false.
Proof.
  unfold blacklist. simpl In.
  intros H; repeat (destruct H as [<- | H];
    [repeat split; try discriminate; simpl; intuition discriminate|]).
  contradiction.
Qed.

Lemma blacklisted_false (s : str) :
  (forall tok, In tok blacklist -> contains tok (upper s) = false) ->
  blacklisted s = false.
Proof.
  intros H. unfold blacklisted. apply not_true_is_false. intros E.
  apply existsb_exists in E as [tok [Hin Hc]]. rewrite (H tok Hin) in Hc.
  discriminate.
Qed.

Lemma blacklisted_absent (s tok : str) :
  blacklisted s = false -> In tok blacklist -> contains tok (upper s) = false.
Proof.
  intros H Hin. apply not_true_is_false. intros E.
  assert (blacklisted s = true) by (apply existsb_exists; eauto).
  congruence.
Qed.

Lemma force_select_begins (s : str) :
  startswith (upper (force_select s)) $"SELECT" = true.
Proof.
  unfold force_select.
  destruct (startswith (upper s) $"SELECT") eqn:E; [exact E|].
  simpl negb. cbv iota. rewrite upper_app.
  change (upper select_prefix) with ($"SELECT" ++ $" * FROM DEPARTMENTS WHERE ").
  rewrite <- app_assoc. apply startswith_app.
Qed.

Lemma select_head (w : str) :
  startswith (upper w) $"SELECT" = true ->
  exists c w', w = c :: w' /\ is_space c = false /\ (c =? ";") = false.
Proof.
  intros H. apply startswith_iff in H as [r H].
  destruct w as [|c w']; [discriminate|].
  rewrite upper_cons in H. exists c, w'. split; [reflexivity|].
  destruct (upper_char c) as [|u us] eqn:E;
    [now destruct (upper_char_nonempty c)|].
  change ($"SELECT" ++ r) with ("S" :: $"ELECT" ++ r) in H.
  injection H as -> _. split.
  - destruct (is_space c) eqn:Hs; [|reflexivity].
    rewrite (space_upper c Hs) in E. injection E as -> _. discriminate Hs.
  - destruct (N.eqb_spec c ";") as [->|_]; [|reflexivity]. discriminate E.
Qed.

Lemma terminate_begins (w : str) :
  startswith (upper w) $"SELECT" = true ->
  startswith (upper (terminate w)) $"SELECT" = true.
Proof.
  assert (~ In ";" $"SELECT") as Hsemi by (simpl; intuition discriminate).
  intros H. destruct (rstrip_semi_split w) as [t [Hw Ht]].
  unfold terminate. rewrite upper_app. change (upper $";") with [";"].
  rewrite (startswith_cut ";" _ _ [] Hsemi).
  destruct Ht as [|c t Hc Ht].
  - rewrite app_nil_r in Hw. now rewrite <- Hw.
  - apply N.eqb_eq in Hc. subst c.
    rewrite Hw, upper_app in H.
    change (upper (";" :: t)) with (";" :: upper t) in H.
    now rewrite (startswith_cut ";" _ _ _ Hsemi) in H.
Qed.

Lemma strip_terminate (w : str) :
  startswith (upper w) $"SELECT" = true -> strip (terminate w) = terminate w.
Proof.
  intros H. destruct (select_head w H) as [c [w' [-> [Hsp Hsemi]]]].
  unfold terminate, rstrip_semi.
  change (c :: w') with ([c] ++ w').
  rewrite drop_trailing_keep by (constructor; [exact Hsemi | constructor]).
  set (r := drop_trailing (fun c0 => c0 =? ";") w').
  change (([c] ++ r) ++ $";") with (c :: r ++ [";"]).
  unfold strip. rewrite drop_while_head by exact Hsp.
  now apply (drop_trailing_snoc_keep is_space ";" (c :: r)).
Qed.

(** A text that begins with SELECT, has no forbidden token, no JOIN and no
    fence, and that [terminate] has closed, goes through the guard unchanged. *)
Lemma guard_fixes_terminated (w : str) :
  startswith (upper w) $"SELECT" = true ->
  blacklisted w = false ->
  contains $"JOIN" (upper w) = false ->
  contains $"```" w = false ->
  clean_sql_query (terminate w) = Ok (terminate w).
Proof.
  intros Hsel Hblack Hjoin Hfence.
  assert (strip_noise (terminate w) = terminate w) as Hnoise.
  { unfold strip_noise. rewrite sub_fences_id.
    - now apply strip_terminate.
    - apply absent_terminate; try discriminate. exact Hfence. }
  rewrite clean_sql_query_eq, Hnoise.
  assert (blacklisted (terminate w) = false) as ->.
  { apply blacklisted_false. intros tok Hin.
    destruct (blacklist_pattern tok Hin) as [_ [Hl [Hn _]]].
    apply absent_terminate_upper; auto.
    now apply blacklisted_absent. }
  unfold force_select. rewrite (terminate_begins w Hsel). simpl negb. cbv iota.
  unfold remove_joins.
  rewrite absent_terminate_upper by (try discriminate; exact Hjoin).
  now rewrite terminate_idempotent.
Qed.

Lemma strip_noise_no_fence (raw : str) :
  contains $"```" (strip_noise raw) = false.
Proof.
  unfold strip_noise. destruct (strip_inside (sub_fences raw)) as [a [b H]].
  apply (absent_inside _ a _ b). rewrite <- H. apply sub_fences_no_fence.
Qed.

(** C7. The guard is idempotent: on its own output it succeeds and returns
    that output unchanged; and the semicolon normalisation is idempotent. *)
Theorem guard_idempotent (raw q : str) :
  clean_sql_query raw = Ok q ->
  clean_sql_query q = Ok q /\
  forall s, terminate (terminate s) = terminate s.
Proof.
  intros H. split; [|apply terminate_idempotent].
  rewrite clean_sql_query_eq in H.
  destruct (blacklisted (strip_noise raw)) eqn:Hblack; [discriminate|].
  injection H as <-.
  pose proof (strip_noise_no_fence raw) as Hfence.
  unfold remove_joins.
  destruct (contains $"JOIN" (upper (force_select (strip_noise raw)))) eqn:Hjoin;
    [reflexivity|].
  apply guard_fixes_terminated.
  - apply force_select_begins.
  - apply blacklisted_false. intros tok Hin.
    destruct (blacklist_pattern tok Hin) as [Hsp [_ [_ Hbase]]].
    apply absent_force_select_upper; auto.
    now apply blacklisted_absent.
  - exact Hjoin.
  - apply absent_force_select; auto.
    simpl; intuition discriminate.
Qed.

Lemma guard_idempotent_witness :
  clean_sql_query $"SELECT Name FROM Departments;" = Ok $"SELECT Name FROM Departments;" /\
  forall s, terminate (terminate s) = terminate s.
Proof.
  apply (guard_idempotent $"```sql
 SELECT Name FROM Departments;;;
```").
  reflexivity.
Defined.

(** *** The search for the department *)

Lemma take_while_app (f : N -> bool) (a b : str) :
  Forall (fun c => f c = true) a ->
  match b with [] => True | c :: _ => f c = false end ->
  take_while f (a ++ b) = a /\ drop_while f (a ++ b) = b.
Proof.
  intros Ha Hb. induction Ha as [|c a Hc _ [IH1 IH2]].
  - destruct b as [|c b]; [now split|]. simpl. now rewrite Hb.
  - simpl. rewrite Hc, IH1, IH2. now split.
Qed.

Lemma drop_while_stops (f : N -> bool) (s : str) :
  match drop_while f s with [] => True | c :: _ => f c = false end.
Proof.
  induction s as [|c s IH]; simpl; [exact I|].
  destruct (f c) eqn:Hc; [exact IH | exact Hc].
Qed.

Lemma match_of_here_iff (s word : str) :
  match_of_here s = Some word <-> of_word_at s word.
Proof.
  unfold match_of_here, of_word_at. split.
  - destruct (startswith s $"of") eqn:E; [|discriminate].
    apply startswith_iff in E as [r ->].
    change (skipn 2 ($"of" ++ r)) with r.
    destruct (take_while is_space r) as [|x ws] eqn:Ews; [discriminate|].
    destruct (take_while is_word (drop_while is_space r)) as [|y w] eqn:Ew;
      [discriminate|].
    intros H. injection H as <-.
    exists (x :: ws), (drop_while is_word (drop_while is_space r)).
    rewrite <- Ews, <- Ew. repeat split.
    + now rewrite <- !take_drop_while.
    + rewrite Ews. discriminate.
    + apply take_while_all.
    + rewrite Ew. discriminate.
    + apply take_while_all.
    + apply drop_while_stops.
  - intros [ws [rest [-> [Hws [Hsp [Hw [Hword Hrest]]]]]]].
    rewrite startswith_app. change (skipn 2 ($"of" ++ ws ++ word ++ rest))
      with (ws ++ word ++ rest).
    destruct (take_while_app is_space ws (word ++ rest) Hsp) as [-> ->].
    { destruct word as [|c word]; [contradiction|]. simpl.
      inversion Hword as [|? ? Hc _]; subst.
      destruct (is_space c) eqn:E; [|reflexivity].
      apply space_not_word in E. congruence. }
    destruct (take_while_app is_word word rest Hword Hrest) as [-> _].
    destruct ws; [contradiction|]. destruct word; [contradiction|]. reflexivity.
Qed.

Lemma search_of_eq (s : str) :
  search_of s =
  match match_of_here s with
  | Some word => Some word
  | None => match s with [] => None | _ :: s' => search_of s' end
  end.
Proof. destruct s; reflexivity. Qed.

Lemma search_of_iff (s word : str) :
  search_of s = Some word <-> first_of_word s word.
Proof.
  unfold first_of_word. split.
  - induction s as [|c s IH]; rewrite search_of_eq.
    + destruct (match_of_here []) eqn:E; [|discriminate].
      intros H. injection H as ->. exists [], []. repeat split.
      * now apply match_of_here_iff.
      * intros [|x p1] p2 w H; destruct p2; try discriminate; congruence.
    + destruct (match_of_here (c :: s)) as [w0|] eqn:E.
      * intros H. injection H as ->. exists [], (c :: s). repeat split.
        -- now apply match_of_here_iff.
        -- intros [|x p1] p2 w H; destruct p2; try discriminate; congruence.
      * intros H. destruct (IH H) as [pre [post [-> [Hat Hfirst]]]].
        exists (c :: pre), post. repeat split; [exact Hat|].
        intros [|x p1] p2 w Hp Hne Hw.
        -- simpl in Hp. subst p2. apply match_of_here_iff in Hw.
           simpl app in Hw. congruence.
        -- injection Hp as _ Hp. exact (Hfirst p1 p2 w Hp Hne Hw).
  - intros [pre [post [-> [Hat Hfirst]]]].
    induction pre as [|c pre IH].
    + rewrite search_of_eq. apply match_of_here_iff in Hat.
      simpl app. now rewrite Hat.
    + rewrite search_of_eq.
      destruct (match_of_here ((c :: pre) ++ post)) as [w0|] eqn:E.
      * exfalso. apply match_of_here_iff in E.
        apply (Hfirst [] (c :: pre) w0); [reflexivity | discriminate | exact E].
      * simpl app. apply IH. intros p1 p2 w Hp.
        apply (Hfirst (c :: p1) p2 w). now rewrite Hp.
Qed.

Lemma first_of_word_chars (s word : str) :
  first_of_word s word -> word <> [] /\ Forall (fun c => is_word c = true) word.
Proof.
  intros [pre [post [_ [[ws [rest [_ [_ [_ [Hne [Hw _]]]]]]] _]]]]. now split.
Qed.

(** The override, once the guard has let the model's text through. *)
Lemma generate_sql_query_override (nl : str) (model : Model) (out q word : str) :
  model (context ++ nl) = Ok out ->
  clean_sql_query out = Ok q ->
  contains $"Who" nl = true ->
  contains $"manager" (lower nl) = true ->
  search_of nl = Some word ->
  generate_sql_query nl model = Ok (manager_query word).
Proof.
  intros Hm Hc Hwho Hman Hs. unfold generate_sql_query, bind.
  cbv zeta. now rewrite Hm, Hc, Hwho, Hman, Hs.
Qed.

Lemma generate_sql_query_rejected (nl : str) (model : Model) (out : str) (e : exn) :
  model (context ++ nl) = Ok out ->
  clean_sql_query out = Raise e ->
  generate_sql_query nl model = Raise e.
Proof.
  intros Hm Hc. unfold generate_sql_query, bind.
  cbv zeta. now rewrite Hm, Hc.
Qed.

Lemma generate_sql_query_inv (nl : str) (model : Model) (q : str) :
  generate_sql_query nl model = Ok q ->
  exists out q0,
    model (context ++ nl) = Ok out /\ clean_sql_query out = Ok q0 /\
    q = if contains $"Who" nl && contains $"manager" (lower nl)
        then match search_of nl with
             | Some dept_name => manager_query dept_name
             | None => q0
             end
        else q0.
Proof.
  unfold generate_sql_query, bind. cbv zeta.
  destruct (model (context ++ nl)) as [out|]; [|discriminate].
  destruct (clean_sql_query out) as [q0|] eqn:Hc; [|discriminate].
  intros H. exists out, q0. split; [reflexivity|]. split; [exact Hc|].
  destruct (contains $"Who" nl && contains $"manager" (lower nl));
    [destruct (search_of nl)|]; now injection H.
Qed.

(** C5 as the specification has it does not hold: a model output that the
    guard rejects ends the request before the override is reached. *)
Lemma rejected_output_stops_override :
  ~ (forall out : str,
       generate_sql_query $"Who is the manager of Marketing?" (echo out) =
       Ok $"SELECT Manager FROM Departments WHERE Name = 'Marketing';").
Proof.
  intros H. specialize (H $"DROP TABLE Departments").
  vm_compute in H. discriminate H.
Qed.

(** C5, amended. For the question about the manager of Marketing the
    generated query is the fixed one for every model output that the guard
    accepts; on an output with a forbidden token the guard's error ends
    [generate_sql_query]. *)
Theorem marketing_override (model : Model) (out : str) :
  model (context ++ $"Who is the manager of Marketing?") = Ok out ->
  (blacklist_free (strip_noise out) ->
   generate_sql_query $"Who is the manager of Marketing?" model =
   Ok $"SELECT Manager FROM Departments WHERE Name = 'Marketing';") /\
  (~ blacklist_free (strip_noise out) ->
   generate_sql_query $"Who is the manager of Marketing?" model =
   Raise rejection).
Proof.
  intros Hm. split; intros H.
  - apply blacklist_free_iff in H.
    apply (generate_sql_query_override _ _ out
             (terminate (remove_joins (force_select (strip_noise out))))
             $"Marketing" Hm); try reflexivity.
    now rewrite clean_sql_query_eq, H.
  - apply (generate_sql_query_rejected _ _ out _ Hm).
    rewrite clean_sql_query_eq.
    destruct (blacklisted (strip_noise out)) eqn:E; [reflexivity|].
    now apply blacklist_free_iff in E.
Qed.

Lemma marketing_override_witness :
  generate_sql_query $"Who is the manager of Marketing?"
    (echo $"SELECT * FROM Departments JOIN Staff") =
  Ok $"SELECT Manager FROM Departments WHERE Name = 'Marketing';".
Proof.
  apply (marketing_override (echo $"SELECT * FROM Departments JOIN Staff")
           $"SELECT * FROM Departments JOIN Staff" eq_refl).
  apply blacklist_free_iff. reflexivity.
Defined.

(** C6 as the specification has it does not hold: "who" in lower case does
    not set the override off, and the guarded query is returned. *)
Lemma lowercase_who_not_overridden :
  ~ (forall (nl : str) (model : Model) (out q word : str),
       model (context ++ nl) = Ok out ->
       clean_sql_query out = Ok q ->
       occurs_nocase $"who" nl ->
       occurs_nocase $"manager" nl ->
       first_of_word nl word ->
       generate_sql_query nl model = Ok (manager_query word)).
Proof.
  intros H.
  specialize (H $"who is the manager of Sales?"
                (echo $"SELECT * FROM Departments")
                $"SELECT * FROM Departments" $"SELECT * FROM Departments;"
                $"Sales" eq_refl eq_refl).
  assert (generate_sql_query $"who is the manager of Sales?"
            (echo $"SELECT * FROM Departments") =
          Ok $"SELECT * FROM Departments;") as E by reflexivity.
  rewrite E in H. clear E.
  assert (Ok $"SELECT * FROM Departments;" = Ok (manager_query $"Sales")) as E.
  { apply H.
    - apply lower_has_nocase; reflexivity.
    - apply lower_has_nocase; reflexivity.
    - apply search_of_iff. reflexivity. }
  discriminate E.
Qed.

(** C6, amended. Where the question has "Who" with this capitalisation,
    "manager" in any letter case and an "of" followed by a word, the guarded
    query is dropped for the manager query on the first such word. *)
Theorem manager_override (nl : str) (model : Model) (out q word : str) :
  model (context ++ nl) = Ok out ->
  clean_sql_query out = Ok q ->
  occurs $"Who" nl ->
  occurs_nocase $"manager" nl ->
  first_of_word nl word ->
  generate_sql_query nl model =
  Ok ($"SELECT Manager FROM Departments WHERE Name = '" ++ word ++ $"';").
Proof.
  intros Hm Hc Hwho Hman Hword.
  apply (generate_sql_query_override nl model out q word Hm Hc).
  - now apply occurs_contains.
  - now apply nocase_in_lower in Hman.
  - now apply search_of_iff.
Qed.

Lemma manager_override_witness :
  generate_sql_query $"Who is the MANAGER of  HR today?" (echo $"Name = 'HR'") =
  Ok $"SELECT Manager FROM Departments WHERE Name = 'HR';".
Proof.
  apply (manager_override $"Who is the MANAGER of  HR today?" (echo $"Name = 'HR'")
           $"Name = 'HR'" $"SELECT * FROM Departments WHERE Name = 'HR';" $"HR"
           eq_refl eq_refl).
  - exists [], $" is the MANAGER of  HR today?". reflexivity.
  - exists $"Who is the ", $"MANAGER", $" of  HR today?". split; reflexivity.
  - apply search_of_iff. reflexivity.
Defined.

(** *** The query that the override builds *)

Lemma manager_query_shape (word : str) :
  manager_query word =
  $"SELECT Manager FROM Departments WHERE Name = " ++ "'" :: word ++ "'" :: [";"].
Proof.
  unfold manager_query.
  change ($"SELECT Manager FROM Departments WHERE Name = '")
    with ($"SELECT Manager FROM Departments WHERE Name = " ++ ["'"]).
  now rewrite <- app_assoc.
Qed.

Lemma word_lacks (word : str) (c : N) :
  Forall (fun x => is_word x = true) word -> is_word c = false -> ~ In c word.
Proof.
  intros Hw Hc Hin. rewrite Forall_forall in Hw. specialize (Hw c Hin). congruence.
Qed.

Lemma word_upper_lacks (word : str) (c : N) :
  Forall (fun x => is_word x = true) word -> is_word c = false ->
  is_ascii c = true -> is_upper c = false ->
  ~ In c (upper word).
Proof.
  intros Hw Hc Ha Hu Hin. apply (word_lacks word c Hw Hc).
  now apply upper_ascii.
Qed.

Lemma keyword_inside_literal (tok word : str) :
  ~ In "'" tok ->
  contains tok $"SELECT MANAGER FROM DEPARTMENTS WHERE NAME = " = false ->
  contains tok [";"] = false ->
  contains tok (upper (manager_query word)) = true ->
  contains tok (upper word) = true.
Proof.
  intros Hq Hpre Hsuf H.
  rewrite manager_query_shape, upper_app, upper_cons, upper_app, upper_cons in H.
  change (upper_char "'") with ["'"] in H.
  change (upper $"SELECT Manager FROM Departments WHERE Name = ")
    with $"SELECT MANAGER FROM DEPARTMENTS WHERE NAME = " in H.
  change (upper [";"]) with [";"] in H.
  change (["'"] ++ upper word ++ ["'"] ++ [";"])
    with ("'" :: upper word ++ "'" :: [";"]) in H.
  rewrite (contains_cut "'" tok _ _ Hq), Hpre in H.
  rewrite (contains_cut "'" tok _ _ Hq), Hsuf, orb_false_r in H.
  exact H.
Qed.

Lemma blacklist_outside_literal (tok : str) :
  In tok blacklist ->
  ~ In "'" tok /\
  contains tok $"SELECT MANAGER FROM DEPARTMENTS WHERE NAME = " = false /\
  contains tok [";"] = false.
Proof.
  unfold blacklist. simpl In.
  intros H; repeat (destruct H as [<- | H];
    [repeat split; try reflexivity; simpl; intuition discriminate|]).
  contradiction.
Qed.

Lemma count_char_app (c : N) (s t : str) :
  count_char c (s ++ t) = count_char c s + count_char c t.
Proof. apply count_occ_app. Qed.

Lemma count_char_word (c : N) (word : str) :
  Forall (fun x => is_word x = true) word -> is_word c = false ->
  count_char c word = 0.
Proof.
  intros Hw Hc. apply count_occ_not_In. now apply word_lacks.
Qed.

(** C10 as stated does not hold: the word after "of" may itself be, or
    contain, a forbidden keyword, and then the query built has it. *)
Lemma override_may_hold_keyword :
  ~ (forall (nl : str) (model : Model) (q word : str),
       generate_sql_query nl model = Ok q ->
       occurs $"Who" nl ->
       occurs_nocase $"manager" nl ->
       first_of_word nl word ->
       blacklist_free q /\ count_char "'" q = 2 /\ count_char ";" q = 1).
Proof.
  intros H.
  destruct (H $"Who is the manager of Updates?" (echo $"SELECT * FROM Departments")
              $"SELECT Manager FROM Departments WHERE Name = 'Updates';" $"Updates"
              eq_refl) as [Hfree _].
  - apply occurs_contains. reflexivity.
  - apply lower_has_nocase; reflexivity.
  - apply search_of_iff. reflexivity.
  - apply blacklist_free_iff in Hfree. discriminate Hfree.
Qed.

(** C10, amended. The query that the override builds has the word between
    the only two quotes and ends with the only semicolon; neither the query
    nor its upper-cased text, which is what the guard tests, has a comment
    marker; and a forbidden keyword occurs in the upper-cased query only
    where the upper-cased word itself has one, inside the quoted literal. *)
Theorem override_query_safe (nl : str) (model : Model) (q word : str) :
  generate_sql_query nl model = Ok q ->
  occurs $"Who" nl ->
  occurs_nocase $"manager" nl ->
  first_of_word nl word ->
  q = $"SELECT Manager FROM Departments WHERE Name = '" ++ word ++ $"';" /\
  Forall (fun c => is_word c = true) word /\
  count_char "'" q = 2 /\
  count_char ";" q = 1 /\
  (exists body, q = body ++ [";"]) /\
  ~ occurs_upper $"--" q /\ ~ occurs_upper $";--" q /\ ~ occurs_upper $"/*" q /\
  ~ occurs $"--" q /\ ~ occurs $"/*" q /\
  (forall tok, In tok blacklist -> occurs_upper tok q -> occurs_upper tok word).
Proof.
  intros Hgen Hwho Hman Hword.
  destruct (first_of_word_chars nl word Hword) as [_ Hchars].
  assert (q = manager_query word) as ->.
  { destruct (generate_sql_query_inv nl model q Hgen) as [out [q0 [_ [_ ->]]]].
    apply occurs_contains in Hwho. apply nocase_in_lower in Hman; [|reflexivity].
    apply search_of_iff in Hword.
    now rewrite Hwho, Hman, Hword. }
  assert (forall tok, In tok blacklist -> occurs_upper tok (manager_query word) ->
                      occurs_upper tok word) as Hinside.
  { intros tok Hin Hocc.
    destruct (blacklist_outside_literal tok Hin) as [Hq [Hpre Hsuf]].
    apply occurs_upper_iff. apply occurs_upper_iff in Hocc.
    now apply keyword_inside_literal. }
  assert (forall tok c, In tok blacklist -> In c tok -> is_word c = false ->
                        is_ascii c = true -> is_upper c = false ->
                        ~ occurs_upper tok (manager_query word)) as Hmarker.
  { intros tok c Hin Hc Hnw Ha Hu Hocc.
    apply (Hinside tok Hin) in Hocc. apply occurs_upper_iff in Hocc.
    apply (word_upper_lacks word c Hchars Hnw Ha Hu).
    exact (contains_chars tok (upper word) c Hocc Hc). }
  assert (forall tok, upper tok = tok -> occurs tok (manager_query word) ->
                      occurs_upper tok (manager_query word)) as Hup.
  { intros tok Htok [a [b ->]]. exists (upper a), (upper b).
    now rewrite !upper_app, Htok. }
  assert (~ occurs_upper $"--" (manager_query word)) as H1
    by (apply (Hmarker $"--" "-"); try reflexivity; simpl; tauto).
  assert (~ occurs_upper $";--" (manager_query word)) as H2
    by (apply (Hmarker $";--" "-"); try reflexivity; simpl; tauto).
  assert (~ occurs_upper $"/*" (manager_query word)) as H3
    by (apply (Hmarker $"/*" "/"); try reflexivity; simpl; tauto).
  split; [reflexivity|]. split; [exact Hchars|].
  split; [|split; [|split]].
  - rewrite manager_query_shape, count_char_app.
    change ("'" :: word ++ "'" :: [";"]) with (["'"] ++ word ++ "'" :: [";"]).
    rewrite !count_char_app, (count_char_word "'" word Hchars) by reflexivity.
    reflexivity.
  - rewrite manager_query_shape, count_char_app.
    change ("'" :: word ++ "'" :: [";"]) with (["'"] ++ word ++ "'" :: [";"]).
    rewrite !count_char_app, (count_char_word ";" word Hchars) by reflexivity.
    reflexivity.
  - exists ($"SELECT Manager FROM Departments WHERE Name = '" ++ word ++ ["'"]).
    unfold manager_query. now rewrite <- !app_assoc.
  - split; [exact H1|]. split; [exact H2|]. split; [exact H3|].
    split; [|split].
    + intros H. apply H1. now apply Hup.
    + intros H. apply H3. now apply Hup.
    + exact Hinside.
Qed.

Lemma override_query_safe_witness :
  count_char "'" $"SELECT Manager FROM Departments WHERE Name = 'Finance';" = 2 /\
  ~ occurs_upper $"--" $"SELECT Manager FROM Departments WHERE Name = 'Finance';".
Proof.
  destruct (override_query_safe $"Who is the manager of Finance?"
              (echo $"SELECT * FROM Departments")
              $"SELECT Manager FROM Departments WHERE Name = 'Finance';"
              $"Finance" eq_refl) as [_ [_ [H1 [_ [_ [H2 _]]]]]].
  - exists [], $" is the manager of Finance?". reflexivity.
  - exists $"Who is the ", $"manager", $" of Finance?". split; reflexivity.
  - apply search_of_iff. reflexivity.
  - split; [exact H1 | exact H2].
Defined.

(** *** The executor and the session *)

Lemma main_rejected (db : Database) (i : interaction) (st : session_state)
      (model : Model) (e : exn) :
  loaded i = Ok model -> button i = true -> strip (nl_query i) <> [] ->
  generate_sql_query (nl_query i) model = Raise e ->
  main db i st = (counting (count_of st + 1), [UiError request_failed]).
Proof.
  intros Hl Hb Hq Hg. unfold main. rewrite Hl, Hb. simpl negb. cbv iota.
  destruct (strip (nl_query i)); [contradiction|]. now rewrite Hg.
Qed.

(** C2. When the guard rejects the model's text, the request ends there:
    the run shows the rejection only and counts one more failure, and its
    trace has no access to the database: the executor is never called. *)
Theorem rejected_never_executed (db : Database) (i : interaction)
        (st : session_state) (model : Model) (out : str) (e : exn) :
  loaded i = Ok model -> button i = true -> strip (nl_query i) <> [] ->
  model (context ++ nl_query i) = Ok out ->
  clean_sql_query out = Raise e ->
  main db i st = (counting (count_of st + 1), [UiError request_failed]) /\
  executions (snd (main db i st)) = 0 /\
  (forall q, ~ In (DbExecute q) (snd (main db i st))) /\
  ~ In DbConnect (snd (main db i st)).
Proof.
  intros Hl Hb Hq Hm Hc.
  assert (main db i st = (counting (count_of st + 1), [UiError request_failed])) as E.
  { apply (main_rejected db i st model e Hl Hb Hq).
    now apply (generate_sql_query_rejected _ _ out). }
  rewrite E. simpl. repeat split; try reflexivity.
  - intros q [H | []]. discriminate H.
  - intros [H | []]. discriminate H.
Qed.

Lemma rejected_never_executed_witness :
  executions (snd (main no_table ask_drop new_session)) = 0.
Proof.
  apply (rejected_never_executed no_table ask_drop new_session
           (echo $"DROP TABLE Departments") $"DROP TABLE Departments" rejection);
    try reflexivity.
  discriminate.
Defined.

Lemma main_counter (db : Database) (i : interaction) (st : session_state) :
  count_of (fst (main db i st)) =
  match outcome_of db i with
  | Rejected | ExecutionFailed => count_of st + 1
  | RowsFound => 0
  | NoRows | NoRequest => count_of st
  end.
Proof.
  unfold main, outcome_of.
  destruct (loaded i) as [model|]; [|reflexivity].
  destruct (button i); [|reflexivity]. simpl negb. cbv iota.
  destruct (strip (nl_query i)); [reflexivity|].
  destruct (generate_sql_query (nl_query i) model) as [q|]; [|reflexivity].
  destruct (execute_sql_query db q) as [[columns res] log].
  destruct res as [[|row rows]|msg]; reflexivity.
Qed.

Lemma main_hint (db : Database) (i : interaction) (st : session_state) :
  outcome_of db i = ExecutionFailed ->
  (In (UiWarning rephrase_hint) (snd (main db i st)) <-> 3 <= count_of st + 1).
Proof.
  unfold main, outcome_of, execute_sql_query.
  destruct (loaded i) as [model|]; [|discriminate].
  destruct (button i); [|discriminate]. simpl negb. cbv iota.
  destruct (strip (nl_query i)); [discriminate|].
  destruct (generate_sql_query (nl_query i) model) as [q|]; [|discriminate].
  destruct (connect_failure db) as [f|];
    [|destruct (run_statement db q) as [columns [|row rows]|f]];
    cbn [fst snd]; try discriminate; intros _;
    (destruct (Nat.leb_spec 3 (count_of st + 1)) as [Hle | Hlt];
     cbn [app In];
     (split;
      [ intros H; try exact Hle;
        repeat (destruct H as [H | H]; try discriminate H); contradiction
      | intros H; try lia; tauto ])).
Qed.

Lemma main_executions (db : Database) (i : interaction) (st : session_state) :
  executions (snd (main db i st)) <= 1.
Proof.
  unfold main, execute_sql_query.
  destruct (loaded i) as [model|]; [|cbn; lia].
  destruct (button i); [|cbn; lia]. simpl negb. cbv iota.
  destruct (strip (nl_query i)); [cbn; lia|].
  destruct (generate_sql_query (nl_query i) model) as [q|]; [|cbn; lia].
  destruct (connect_failure db) as [f|];
    [|destruct (run_statement db q) as [columns [|row rows]|f]];
    try destruct (Nat.leb 3 (count_of st + 1)); cbn; lia.
Qed.

Lemma session_cons (db : Database) (i : interaction) (runs : list interaction)
      (st : session_state) :
  session db (i :: runs) st =
  (fst (session db runs (fst (main db i st))),
   snd (main db i st) :: snd (session db runs (fst (main db i st)))).
Proof.
  cbn [session]. destruct (main db i st) as [st1 evs]. cbn [fst snd].
  now destruct (session db runs st1).
Qed.

Lemma consecutive_failures (db : Database) (runs : list interaction) :
  Forall (failed db) runs ->
  forall st,
    count_of (fst (session db runs st)) = count_of st + List.length runs /\
    forall k i evs,
      nth_error runs k = Some i ->
      nth_error (snd (session db runs st)) k = Some evs ->
      outcome_of db i = ExecutionFailed ->
      (In (UiWarning rephrase_hint) evs <-> 3 <= count_of st + k + 1).
Proof.
  induction 1 as [|i runs Hi _ IH]; intros st.
  - split; [simpl; lia|]. intros [|k] i evs H; discriminate H.
  - rewrite session_cons. cbn [fst snd].
    destruct (IH (fst (main db i st))) as [IHc IHh].
    assert (count_of (fst (main db i st)) = count_of st + 1) as Hc.
    { rewrite main_counter. now destruct Hi as [-> | ->]. }
    rewrite Hc in *. split; [simpl; lia|].
    intros [|k] j evs Hj Hevs Hout; simpl in Hj, Hevs.
    + injection Hj as <-. injection Hevs as <-.
      rewrite (main_hint db i st Hout). lia.
    + rewrite (IHh k j evs Hj Hevs Hout). lia.
Qed.

(** C8 as stated does not hold: the hint is not shown once only.  With four
    execution failures in a row it comes with the third and again with the
    fourth. *)
Lemma hint_shown_again_on_fourth_failure :
  outcome_of no_table ask_all = ExecutionFailed /\
  In (UiWarning rephrase_hint)
     (nth 2 (snd (session no_table [ask_all; ask_all; ask_all; ask_all] new_session)) []) /\
  In (UiWarning rephrase_hint)
     (nth 3 (snd (session no_table [ask_all; ask_all; ask_all; ask_all] new_session)) []).
Proof.
  split; [reflexivity|].
  split; cbv; repeat (first [left; reflexivity | right]).
Qed.

(** C8, amended. Each failed request, rejected before execution or failed in
    the database, adds one to the counter; a successful non-empty result sets
    the counter to zero; and an execution failure shows the hint exactly when
    it brings the counter to three or more, so in a row of failures every
    execution failure from the third on shows it. *)
Theorem failure_counter (db : Database) :
  (forall i st, failed db i ->
     count_of (fst (main db i st)) = count_of st + 1) /\
  (forall i st, outcome_of db i = RowsFound ->
     count_of (fst (main db i st)) = 0) /\
  (forall i st, outcome_of db i = ExecutionFailed ->
     (In (UiWarning rephrase_hint) (snd (main db i st)) <-> 3 <= count_of st + 1)) /\
  (forall runs st, Forall (failed db) runs ->
     count_of (fst (session db runs st)) = count_of st + List.length runs /\
     forall k i evs,
       nth_error runs k = Some i ->
       nth_error (snd (session db runs st)) k = Some evs ->
       outcome_of db i = ExecutionFailed ->
       (In (UiWarning rephrase_hint) evs <-> 3 <= count_of st + k + 1)).
Proof.
  split; [|split; [|split]].
  - intros i st H. rewrite main_counter. now destruct H as [-> | ->].
  - intros i st H. now rewrite main_counter, H.
  - intros i st H. now apply main_hint.
  - intros runs st H. now apply consecutive_failures.
Qed.

Lemma failure_counter_witness :
  count_of (fst (session no_table [ask_all; ask_all; ask_all] new_session)) = 3 /\
  (In (UiWarning rephrase_hint) (snd (main no_table ask_all (counting 1))) <-> 3 <= 2).
Proof.
  destruct (failure_counter no_table) as [_ [_ [Hhint Hrow]]].
  split.
  - apply (Hrow [ask_all; ask_all; ask_all] new_session).
    repeat constructor; right; reflexivity.
  - apply (Hhint ask_all (counting 1)). reflexivity.
Defined.

(** *** Error reports *)

Lemma report_table (e : str) :
  occurs_nocase $"no such table" e ->
  report_failure (SqliteError e) = $"Database error: " ++ table_not_found.
Proof.
  intros H. apply nocase_in_lower in H; [|reflexivity].
  change (lower $"no such table") with $"no such table" in H.
  unfold report_failure. now rewrite H.
Qed.

Lemma report_syntax (e : str) :
  ~ occurs_nocase $"no such table" e ->
  occurs_nocase $"syntax error" e ->
  report_failure (SqliteError e) = $"Database error: " ++ invalid_syntax.
Proof.
  intros Hn H. apply nocase_in_lower in H; [|reflexivity].
  change (lower $"syntax error") with $"syntax error" in H.
  unfold report_failure. rewrite H.
  destruct (contains $"no such table" (lower e)) eqn:E; [|reflexivity].
  exfalso. apply Hn. now apply lower_has_nocase.
Qed.

Lemma report_other (e : str) :
  ~ occurs_nocase $"no such table" e ->
  ~ occurs_nocase $"syntax error" e ->
  report_failure (SqliteError e) = $"Database error: " ++ e.
Proof.
  intros Hn Hs. unfold report_failure.
  destruct (contains $"no such table" (lower e)) eqn:E1.
  { exfalso. apply Hn. now apply lower_has_nocase. }
  destruct (contains $"syntax error" (lower e)) eqn:E2; [|reflexivity].
  exfalso. apply Hs. now apply lower_has_nocase.
Qed.

(** C9 as stated does not hold.  A message with both phrases is reported as
    a missing table, not as a syntax error; and the two classified reports
    begin with the same prefix as the reports that pass a message through. *)
Lemma classified_report_overlap_and_prefix :
  occurs_nocase $"syntax error" $"no such table: syntax error" /\
  ~ occurs invalid_syntax
      (report_failure (SqliteError $"no such table: syntax error")) /\
  startswith (report_failure (SqliteError $"no such table: syntax error"))
    $"Database error: " = true /\
  startswith (report_failure (SqliteError $"near FROM: syntax error"))
    $"Database error: " = true.
Proof.
  split; [|split; [|split]]; try reflexivity.
  - apply lower_has_nocase; reflexivity.
  - intros H. apply occurs_contains in H. discriminate H.
Qed.

(** C9, amended. A database error whose message has "no such table", in any
    letter case, is reported with the table-not-found text; one that has not
    but has "syntax error" is reported with the syntax-error text; any other
    is reported with its own message; all three reports begin with
    [Database error: ]. The statement is sent to the database once, and a
    run of the script sends at most one statement. *)
Theorem database_errors_reported (db : Database) (query e : str) :
  connect_failure db = None ->
  run_statement db query = DbFail (SqliteError e) ->
  (exists text,
     execute_sql_query db query =
     (None, ResStr ($"Database error: " ++ text),
      [DbConnect; DbExecute query; DbClose]) /\
     (occurs_nocase $"no such table" e -> text = table_not_found) /\
     (~ occurs_nocase $"no such table" e -> occurs_nocase $"syntax error" e ->
      text = invalid_syntax) /\
     (~ occurs_nocase $"no such table" e -> ~ occurs_nocase $"syntax error" e ->
      text = e)) /\
  executions (snd (execute_sql_query db query)) = 1 /\
  forall i st, executions (snd (main db i st)) <= 1.
Proof.
  intros Hc Hr. split; [|split].
  - unfold execute_sql_query. rewrite Hc, Hr.
    exists (if contains $"no such table" (lower e) then table_not_found
            else if contains $"syntax error" (lower e) then invalid_syntax
            else e).
    split; [reflexivity|]. split; [|split].
    + intros H. apply nocase_in_lower in H; [|reflexivity].
      change (lower $"no such table") with $"no such table" in H.
      now rewrite H.
    + intros Hn H. apply (report_syntax e Hn) in H.
      apply app_inv_head in H. exact H.
    + intros Hn Hs. pose proof (report_other e Hn Hs) as H.
      apply app_inv_head in H. exact H.
  - unfold execute_sql_query. now rewrite Hc, Hr.
  - intros i st. apply main_executions.
Qed.

Lemma database_errors_reported_witness :
  executions (snd (execute_sql_query no_table $"SELECT * FROM Departments;")) = 1.
Proof.
  apply (database_errors_reported no_table $"SELECT * FROM Departments;"
           $"no such table: Departments" eq_refl eq_refl).
Defined.

(** ** Further properties of the code *)

(** *** What the guard accepts and what it returns *)

Lemma drop_trailing_last (f : N -> bool) (s r : str) (c : N) :
  drop_trailing f s = r ++ [c] -> f c = false.
Proof.
  intros H. destruct (f c) eqn:Hc; [|reflexivity]. exfalso.
  pose proof (drop_trailing_idem f s) as Hi. rewrite H in Hi.
  rewrite (drop_trailing_snoc_drop f c r Hc) in Hi.
  destruct (drop_trailing_split f r) as [t [Hr _]].
  apply (f_equal (@List.length N)) in Hr.
  rewrite Hi, !length_app in Hr. simpl in Hr. lia.
Qed.

Lemma strip_idempotent (s : str) : strip (strip s) = strip s.
Proof.
  unfold strip.
  pose proof (drop_while_stops is_space s) as Hhead.
  destruct (drop_while is_space s) as [|c y]; [reflexivity|].
  assert (exists r, drop_trailing is_space (c :: y) = c :: r) as [r E].
  { rewrite drop_trailing_cons.
    destruct (drop_trailing is_space y); rewrite ?Hhead; eauto. }
  rewrite E, drop_while_head by exact Hhead.
  now rewrite <- E, drop_trailing_idem.
Qed.

Lemma guard_output_cases (raw q : str) :
  clean_sql_query raw = Ok q ->
  q = sales_fallback \/
  exists w, q = terminate w /\
            startswith (upper w) $"SELECT" = true /\
            blacklisted w = false /\
            contains $"JOIN" (upper w) = false /\
            contains $"```" w = false.
Proof.
  intros H. rewrite clean_sql_query_eq in H.
  destruct (blacklisted (strip_noise raw)) eqn:Hblack; [discriminate|].
  injection H as <-.
  pose proof (strip_noise_no_fence raw) as Hfence.
  unfold remove_joins.
  destruct (contains $"JOIN" (upper (force_select (strip_noise raw)))) eqn:Hjoin;
    [now left|].
  right. exists (force_select (strip_noise raw)). split; [reflexivity|].
  split; [apply force_select_begins|]. split; [|split; [exact Hjoin|]].
  - apply blacklisted_false. intros tok Hin.
    destruct (blacklist_pattern tok Hin) as [Hsp [_ [_ Hbase]]].
    apply absent_force_select_upper; auto.
    now apply blacklisted_absent.
  - apply absent_force_select; auto.
    simpl; intuition discriminate.
Qed.

Lemma terminate_blacklisted (w : str) :
  blacklisted w = false -> blacklisted (terminate w) = false.
Proof.
  intros H. apply blacklisted_false. intros tok Hin.
  destruct (blacklist_pattern tok Hin) as [_ [Hl [Hn _]]].
  apply absent_terminate_upper; auto.
  now apply blacklisted_absent.
Qed.

(** X1. The guard accepts a candidate exactly when the upper-cased text of
    the candidate after fence stripping and trimming has no forbidden token;
    and it fails in one way only, with the one [ValueError], because a
    forbidden token occurs in that upper-cased text. *)
Theorem guard_accepts_exactly (raw : str) :
  ((exists q, clean_sql_query raw = Ok q) <-> blacklist_free (strip_noise raw)) /\
  (forall e, clean_sql_query raw = Raise e ->
     e = rejection /\
     exists tok, In tok blacklist /\ occurs_upper tok (strip_noise raw)).
Proof.
  rewrite clean_sql_query_eq, blacklist_free_iff.
  destruct (blacklisted (strip_noise raw)) eqn:E; split.
  - split; [intros [q H]; discriminate H | discriminate].
  - intros e H. injection H as <-. split; [reflexivity|].
    apply existsb_exists in E as [tok [Hin Hc]].
    exists tok. split; [exact Hin|]. now apply occurs_upper_iff.
  - split; [reflexivity | eauto].
  - intros e H. discriminate H.
Qed.

(** X2. The upper-cased text of every query that the guard returns begins
    with SELECT, and the query has no white space before or after it. *)
Theorem guard_output_begins_select (raw q : str) :
  clean_sql_query raw = Ok q ->
  begins_upper $"SELECT" q /\ strip q = q.
Proof.
  intros H. destruct (guard_output_cases raw q H) as [-> | [w [-> [Hsel _]]]].
  - split; [|reflexivity]. apply begins_upper_iff. reflexivity.
  - split; [|now apply strip_terminate].
    apply begins_upper_iff. now apply terminate_begins.
Qed.

Lemma guard_output_begins_select_witness :
  begins_upper $"SELECT" $"select Name from Departments;" /\
  strip $"select Name from Departments;" = $"select Name from Departments;".
Proof.
  apply (guard_output_begins_select $"  select Name from Departments  ").
  reflexivity.
Defined.

(** X3. Every query that the guard returns ends with one semicolon: the
    character before the last is not a semicolon. *)
Theorem guard_output_one_semicolon (raw q : str) :
  clean_sql_query raw = Ok q ->
  exists body, q = body ++ [";"] /\ forall b, body <> b ++ [";"].
Proof.
  intros H. destruct (guard_output_cases raw q H) as [-> | [w [-> _]]].
  - exists $"SELECT * FROM Departments WHERE Name = 'Sales'".
    split; [reflexivity|]. intros b Hb.
    apply (f_equal (fun l => last l " ")) in Hb.
    rewrite last_last in Hb. discriminate Hb.
  - exists (rstrip_semi w). split; [reflexivity|]. intros b Hb.
    apply drop_trailing_last in Hb. discriminate Hb.
Qed.

Lemma guard_output_one_semicolon_witness :
  exists body, $"SELECT 1;" = body ++ [";"] /\ forall b, body <> b ++ [";"].
Proof.
  apply (guard_output_one_semicolon $"SELECT 1;;;"). reflexivity.
Defined.

(** X4. No query that the guard returns has a forbidden token, a JOIN in any
    letter case, or a fence. *)
Theorem guard_output_clean (raw q : str) :
  clean_sql_query raw = Ok q ->
  blacklist_free q /\ ~ occurs_nocase $"JOIN" q /\ ~ occurs $"```" q.
Proof.
  intros H. destruct (guard_output_cases raw q H)
    as [-> | [w [-> [_ [Hblack [Hjoin Hfence]]]]]].
  - split; [|split].
    + apply blacklist_free_iff. reflexivity.
    + intros Hj. apply occurs_nocase_upper in Hj. discriminate Hj.
    + intros Hf. apply occurs_contains in Hf. discriminate Hf.
  - split; [|split].
    + apply blacklist_free_iff. now apply terminate_blacklisted.
    + intros Hj. apply occurs_nocase_upper in Hj.
      change (upper $"JOIN") with $"JOIN" in Hj.
      rewrite absent_terminate_upper in Hj; try discriminate. exact Hjoin.
    + intros Hf. apply occurs_contains in Hf.
      rewrite absent_terminate in Hf; try discriminate. exact Hfence.
Qed.

Lemma guard_output_clean_witness :
  blacklist_free $"SELECT * FROM Departments WHERE Name = 'Sales';" /\
  ~ occurs_nocase $"JOIN" $"SELECT * FROM Departments WHERE Name = 'Sales';" /\
  ~ occurs $"```" $"SELECT * FROM Departments WHERE Name = 'Sales';".
Proof.
  apply (guard_output_clean $"```sql
SELECT d.Name FROM Departments d join Staff s ON s.Dept = d.Name
```").
  reflexivity.
Defined.

(** X5. One pass of the fence removal leaves no fence, so a second pass
    changes nothing; the same holds with the trimming added. *)
Theorem fences_removed_in_one_pass (s : str) :
  ~ occurs $"```" (sub_fences s) /\
  sub_fences (sub_fences s) = sub_fences s /\
  strip_noise (strip_noise s) = strip_noise s.
Proof.
  split; [|split].
  - intros H. apply occurs_contains in H.
    now rewrite sub_fences_no_fence in H.
  - apply sub_fences_id, sub_fences_no_fence.
  - unfold strip_noise at 1.
    rewrite (sub_fences_id _ (strip_noise_no_fence s)).
    apply strip_idempotent.
Qed.

(** *** Occurrences that the stripping cannot break *)

Lemma sub_fences_plain (m b : str) :
  ~ In "`" m -> sub_fences (m ++ b) = m ++ sub_fences b.
Proof.
  induction m as [|c m IH]; intros H; [reflexivity|].
  simpl app. rewrite sub_fences_keeps.
  - rewrite IH; [reflexivity|]. intros Hin. apply H. now right.
  - change ($"```") with ("`" :: ["`"; "`"]). rewrite startswith_cons.
    destruct (N.eqb_spec "`" c) as [<-|_]; [|reflexivity].
    exfalso. apply H. now left.
Qed.

(** A prefix that the first character of [m] is not in lies before [m]. *)
Lemma prefix_before (p a m b r : str) (x : N) :
  a ++ (x :: m) ++ b = p ++ r -> ~ In x p -> exists a2, a = p ++ a2.
Proof.
  revert a. induction p as [|y p IH]; intros a H Hx; [now exists a|].
  destruct a as [|z a].
  - simpl in H. injection H as -> _. exfalso. apply Hx. now left.
  - simpl in H. injection H as -> H.
    destruct (IH a H) as [a2 ->]; [intros Hin; apply Hx; now right|].
    now exists a2.
Qed.

Lemma sub_fences_survives (a m b : str) :
  solid m -> exists a', sub_fences (a ++ m ++ b) = a' ++ m ++ sub_fences b.
Proof.
  intros [Htick [_ Hhead]].
  destruct m as [|x m]; [contradiction|]. destruct Hhead as [Hs [Hq Hl]].
  assert (x <> "`") as Hx by (intros ->; apply Htick; now left).
  remember (List.length a) as n eqn:Hn. revert a Hn.
  induction n as [n IH] using lt_wf_ind. intros [|c a] Hn.
  - exists []. exact (sub_fences_plain (x :: m) b Htick).
  - simpl in Hn.
    change ((c :: a) ++ (x :: m) ++ b) with (c :: (a ++ (x :: m) ++ b)).
    rewrite sub_fences_cons.
    destruct (startswith (c :: a ++ (x :: m) ++ b) $"```sql") eqn:E6.
    { apply startswith_iff in E6 as [r E6].
      destruct (prefix_before $"```sql" (c :: a) m b r x E6) as [a2 Ha].
      { simpl. intuition congruence. }
      injection Ha as -> ->.
      destruct (IH (List.length a2)) with (a := a2) as [a' Ha'];
        [subst n; simpl; lia | reflexivity |].
      exists a'. exact Ha'. }
    destruct (startswith (c :: a ++ (x :: m) ++ b) $"```") eqn:E3.
    { apply startswith_iff in E3 as [r E3].
      destruct (prefix_before $"```" (c :: a) m b r x E3) as [a2 Ha].
      { simpl. intuition congruence. }
      injection Ha as -> ->.
      destruct (IH (List.length a2)) with (a := a2) as [a' Ha'];
        [subst n; simpl; lia | reflexivity |].
      exists a'. exact Ha'. }
    destruct (IH (List.length a)) with (a := a) as [a' Ha']; [lia | reflexivity |].
    exists (c :: a'). now rewrite Ha'.
Qed.

Lemma drop_while_survives (f : N -> bool) (a m b : str) (x : N) :
  f x = false ->
  exists a', drop_while f (a ++ (x :: m) ++ b) = a' ++ (x :: m) ++ b.
Proof.
  intros Hx. induction a as [|c a [a' IH]].
  - exists []. simpl. now rewrite Hx.
  - simpl. destruct (f c); [now exists a' | now exists (c :: a)].
Qed.

Lemma drop_trailing_keep_last (f : N -> bool) (p t : str) (c : N) :
  f c = false -> drop_trailing f (p ++ c :: t) = p ++ c :: drop_trailing f t.
Proof.
  intros Hc. induction p as [|z p IH].
  - simpl app. rewrite drop_trailing_cons.
    destruct (drop_trailing f t); [now rewrite Hc | reflexivity].
  - simpl app. rewrite drop_trailing_cons, IH.
    destruct (p ++ c :: drop_trailing f t) eqn:E; [|reflexivity].
    now destruct p.
Qed.

Lemma strip_survives (a m b : str) :
  solid m -> exists a' b', strip (a ++ m ++ b) = a' ++ m ++ b'.
Proof.
  intros [_ [Hsp Hne]]. destruct m as [|x m]; [contradiction|]. clear Hne.
  unfold strip.
  destruct (drop_while_survives is_space a m b x) as [a' ->];
    [now inversion Hsp|].
  destruct (exists_last (l := x :: m)) as [m0 [d Hm]]; [discriminate|].
  assert (is_space d = false) as Hd.
  { rewrite Forall_forall in Hsp. apply Hsp. rewrite Hm.
    apply in_or_app. right. now left. }
  rewrite Hm.
  replace (a' ++ (m0 ++ [d]) ++ b) with ((a' ++ m0) ++ d :: b)
    by now rewrite <- !app_assoc.
  rewrite (drop_trailing_keep_last is_space _ _ d Hd).
  exists a', (drop_trailing is_space b). now rewrite <- !app_assoc.
Qed.

Lemma strip_noise_survives (a m b : str) :
  solid m -> exists a' b', strip_noise (a ++ m ++ b) = a' ++ m ++ b'.
Proof.
  intros H. unfold strip_noise.
  destruct (sub_fences_survives a m b H) as [a1 ->].
  now apply strip_survives.
Qed.

Lemma space_not_letter (c : N) :
  is_space c = true -> is_upper c = false /\ is_lower c = false.
Proof.
  intros H.
  assert (negb (is_upper c) && negb (is_lower c) = true) as E.
  { revert c H. apply spaces_forall. vm_compute. reflexivity. }
  apply andb_true_iff in E as [E1 E2].
  now rewrite negb_true_iff in E1, E2.
Qed.

Lemma fold_ascii_space (c : N) : is_space (fold_ascii c) = is_space c.
Proof.
  unfold fold_ascii. destruct (is_upper c) eqn:Hu; [|reflexivity].
  destruct (is_space c) eqn:Hc.
  { apply space_not_letter in Hc as [Hc _]. congruence. }
  apply not_true_is_false. intros H.
  apply space_not_letter in H as [_ H].
  apply in_range_spec in Hu.
  assert (is_lower (c + 32) = true) by (apply in_range_spec; lia).
  congruence.
Qed.

Lemma fold_ascii_tick (c : N) : (fold_ascii c =? "`") = (c =? "`").
Proof.
  unfold fold_ascii. destruct (is_upper c) eqn:Hu; [|reflexivity].
  apply in_range_spec in Hu.
  destruct (N.eqb_spec (c + 32) "`") as [E|_];
    destruct (N.eqb_spec c "`") as [E'|_]; try reflexivity;
    change ("`"%cp) with 96%N in *; lia.
Qed.

(** The tokens that the guard looks for are solid in every letter case. *)
Lemma nocase_solid (tok m : str) :
  forallb (fun c => negb (is_space c) && negb (c =? "`")) (map fold_ascii tok)
    = true ->
  match map fold_ascii tok with
  | [] => False
  | h :: _ => h <> "s" /\ h <> "q" /\ h <> "l"
  end ->
  same_nocase m tok -> solid m.
Proof.
  unfold same_nocase. intros Hall Hhead Hm. rewrite <- Hm in Hall, Hhead.
  clear Hm tok.
  rewrite forallb_forall in Hall.
  assert (forall c, In c m -> is_space c = false /\ c <> "`") as Hchars.
  { intros c Hin.
    specialize (Hall (fold_ascii c) (in_map fold_ascii m c Hin)).
    apply andb_true_iff in Hall as [H1 H2].
    rewrite fold_ascii_space in H1. rewrite fold_ascii_tick in H2.
    split; [now apply negb_true_iff in H1|].
    apply negb_true_iff in H2. now apply N.eqb_neq in H2. }
  split; [|split].
  - intros Hin. now destruct (Hchars _ Hin).
  - apply Forall_forall. intros c Hin. now destruct (Hchars c Hin).
  - destruct m as [|x m]; [exact Hhead|]. simpl in Hhead.
    destruct Hhead as [Hs [Hq Hl]].
    repeat split; intros ->; [apply Hs | apply Hq | apply Hl]; reflexivity.
Qed.

Lemma blacklist_solid (tok m : str) :
  In tok blacklist -> same_nocase m tok -> solid m.
Proof.
  intros Hin. apply nocase_solid; revert Hin; unfold blacklist; simpl In;
    intros H; repeat (destruct H as [<- | H];
      [first [reflexivity | simpl; repeat split; discriminate]|]);
    contradiction.
Qed.

(** X6. No fence and no white space around it hides a forbidden token: a
    candidate that has one as it stands, in any letter case and at any
    position, is rejected. *)
Theorem guard_rejects_raw_token (raw tok : str) :
  In tok blacklist -> occurs_nocase tok raw ->
  clean_sql_query raw = Raise rejection.
Proof.
  intros Hin [a [m [b [-> Hm]]]].
  destruct (strip_noise_survives a m b (blacklist_solid tok m Hin Hm))
    as [a' [b' E]].
  rewrite clean_sql_query_eq.
  rewrite (blacklisted_of_occurrence tok _ Hin); [reflexivity|].
  rewrite E. now exists a', m, b'.
Qed.

Lemma guard_rejects_raw_token_witness :
  clean_sql_query $"```sql
 SELECT 1 ```; delete from Departments" = Raise rejection.
Proof.
  apply (guard_rejects_raw_token _ $"DELETE").
  - simpl. tauto.
  - exists $"```sql
 SELECT 1 ```; ", $"delete", $" from Departments". split; reflexivity.
Defined.

(** X7. A candidate that has JOIN as it stands, in any letter case, never
    comes out as itself: the guard either rejects it or returns the fixed
    query on the Sales department. *)
Theorem guard_replaces_raw_join (raw : str) :
  occurs_nocase $"JOIN" raw ->
  clean_sql_query raw = Raise rejection \/
  clean_sql_query raw = Ok $"SELECT * FROM Departments WHERE Name = 'Sales';".
Proof.
  intros [a [m [b [-> Hm]]]].
  assert (solid m) as Hsolid.
  { apply (nocase_solid $"JOIN" m); [reflexivity | | exact Hm].
    simpl. repeat split; discriminate. }
  destruct (strip_noise_survives a m b Hsolid) as [a' [b' E]].
  rewrite clean_sql_query_eq.
  destruct (blacklisted (strip_noise (a ++ m ++ b))); [now left | right].
  assert (contains $"JOIN" (upper (force_select (strip_noise (a ++ m ++ b)))) = true)
    as Hjoin.
  { change $"JOIN" with (upper $"JOIN"). apply occurs_nocase_upper.
    rewrite E. unfold force_select.
    destruct (negb (startswith (upper (a' ++ m ++ b')) $"SELECT")).
    - exists (select_prefix ++ a'), m, b'. split; [|exact Hm].
      now rewrite <- app_assoc.
    - now exists a', m, b'. }
  unfold remove_joins. rewrite Hjoin. reflexivity.
Qed.

Lemma guard_replaces_raw_join_witness :
  clean_sql_query $" ```select * from a JoIn b```" = Raise rejection \/
  clean_sql_query $" ```select * from a JoIn b```" =
  Ok $"SELECT * FROM Departments WHERE Name = 'Sales';".
Proof.
  apply guard_replaces_raw_join.
  exists $" ```select * from a ", $"JoIn", $" b```". split; reflexivity.
Defined.

(** *** Fences and white space around the answer *)

Lemma startswith_app_last (d : N) (r t p : str) :
  p <> [] -> ~ In (last p d) t ->
  startswith (r ++ t) p = startswith r p.
Proof.
  revert p. induction r as [|c r IH]; intros p Hp Hlast.
  - simpl app. destruct p as [|y p]; [contradiction|].
    destruct (startswith t (y :: p)) eqn:E; [|reflexivity].
    apply startswith_iff in E as [x ->]. exfalso. apply Hlast.
    apply in_or_app. left.
    destruct (exists_last Hp) as [p0 [z ->]]. rewrite last_last.
    apply in_or_app. right. now left.
  - destruct p as [|y p]; [contradiction|].
    simpl app. rewrite !startswith_cons.
    destruct p as [|y2 p]; [now rewrite !startswith_nil|].
    rewrite (IH (y2 :: p)); [reflexivity | discriminate | exact Hlast].
Qed.

Lemma blank_no_tick (ws : str) : blank ws -> ~ In "`" ws.
Proof.
  intros H Hin. unfold blank in H. rewrite Forall_forall in H.
  specialize (H _ Hin). discriminate H.
Qed.

Lemma blank_lacks (ws : str) (c : N) :
  blank ws -> is_space c = false -> ~ In c ws.
Proof.
  intros H Hc Hin. unfold blank in H. rewrite Forall_forall in H.
  specialize (H _ Hin). congruence.
Qed.

Lemma sub_fences_leading_fence (r : str) :
  sub_fences ($"```sql" ++ r) = sub_fences r.
Proof.
  change ($"```sql" ++ r) with ("`" :: ($"``sql" ++ r)).
  rewrite sub_fences_cons.
  change ("`" :: $"``sql" ++ r) with ($"```sql" ++ r).
  now rewrite startswith_app.
Qed.

Lemma sub_fences_trailing_blank (r ws : str) :
  blank ws -> sub_fences (r ++ ws) = sub_fences r ++ ws.
Proof.
  intros Hws.
  remember (List.length r) as n eqn:Hn. revert r Hn.
  induction n as [n IH] using lt_wf_ind. intros [|c r] Hn.
  - simpl app. rewrite <- (app_nil_r ws) at 1.
    rewrite sub_fences_plain by now apply blank_no_tick.
    now rewrite app_nil_r.
  - simpl in Hn.
    change ((c :: r) ++ ws) with (c :: (r ++ ws)).
    rewrite !sub_fences_cons.
    change (c :: r ++ ws) with ((c :: r) ++ ws).
    rewrite (startswith_app_last " " (c :: r) ws $"```sql")
      by (try discriminate; now apply blank_lacks).
    rewrite (startswith_app_last " " (c :: r) ws $"```")
      by (try discriminate; now apply blank_lacks).
    destruct (startswith (c :: r) $"```sql") eqn:E6.
    { apply startswith_iff in E6 as [r2 E6]. injection E6 as -> ->.
      change (skipn 5 ($"``sql" ++ r2)) with r2.
      change (skipn 5 (("`" :: "`" :: "s" :: "q" :: "l" :: r2) ++ ws))
        with (r2 ++ ws).
      apply (IH (List.length r2)); [subst n; simpl; lia | reflexivity]. }
    destruct (startswith (c :: r) $"```") eqn:E3.
    { apply startswith_iff in E3 as [r2 E3]. injection E3 as -> ->.
      change (skipn 2 ($"``" ++ r2)) with r2.
      change (skipn 2 (("`" :: "`" :: r2) ++ ws)) with (r2 ++ ws).
      apply (IH (List.length r2)); [subst n; simpl; lia | reflexivity]. }
    simpl app. f_equal.
    apply (IH (List.length r)); [lia | reflexivity].
Qed.

Lemma short_fence (r : str) :
  startswith (r ++ $"```") $"```" = true -> startswith r $"```" = false ->
  r = [] \/ r = ["`"] \/ r = ["`"; "`"].
Proof.
  intros H Hr. apply startswith_iff in H as [x H].
  destruct r as [|a [|b [|c r]]]; [now left | | |].
  - injection H as -> _. right. now left.
  - injection H as -> -> _. right. now right.
  - injection H as -> -> -> _.
    change ("`" :: "`" :: "`" :: r) with ($"```" ++ r) in Hr.
    now rewrite startswith_app in Hr.
Qed.

Lemma sub_fences_trailing_fence (r : str) :
  sub_fences (r ++ $"```") = sub_fences r.
Proof.
  remember (List.length r) as n eqn:Hn. revert r Hn.
  induction n as [n IH] using lt_wf_ind. intros [|c r] Hn; [reflexivity|].
  simpl in Hn.
  change ((c :: r) ++ $"```") with (c :: (r ++ $"```")).
  rewrite !sub_fences_cons.
  change (c :: r ++ $"```") with ((c :: r) ++ $"```").
  rewrite (startswith_app_last " " (c :: r) $"```" $"```sql")
    by (try discriminate; simpl; intuition discriminate).
  destruct (startswith (c :: r) $"```sql") eqn:E6.
  { apply startswith_iff in E6 as [r2 E6]. injection E6 as -> ->.
    change (skipn 5 ($"``sql" ++ r2)) with r2.
    change (skipn 5 (("`" :: "`" :: "s" :: "q" :: "l" :: r2) ++ $"```"))
      with (r2 ++ $"```").
    apply (IH (List.length r2)); [subst n; simpl; lia | reflexivity]. }
  destruct (startswith (c :: r) $"```") eqn:E3.
  { rewrite (proj2 (startswith_iff ((c :: r) ++ $"```") $"```")).
    2:{ apply startswith_iff in E3 as [r2 E3]. rewrite E3.
        exists (r2 ++ $"```"). now rewrite <- app_assoc. }
    apply startswith_iff in E3 as [r2 E3]. injection E3 as -> ->.
    change (skipn 2 ($"``" ++ r2)) with r2.
    change (skipn 2 (("`" :: "`" :: r2) ++ $"```")) with (r2 ++ $"```").
    apply (IH (List.length r2)); [subst n; simpl; lia | reflexivity]. }
  destruct (startswith ((c :: r) ++ $"```") $"```") eqn:E3'.
  { destruct (short_fence (c :: r) E3' E3) as [H | [H | H]];
      [discriminate H | |]; injection H as -> ->; reflexivity. }
  simpl app. f_equal.
  apply (IH (List.length r)); [lia | reflexivity].
Qed.

Lemma drop_while_blank (ws s : str) :
  blank ws -> drop_while is_space (ws ++ s) = drop_while is_space s.
Proof.
  induction 1 as [|c ws Hc _ IH]; [reflexivity|].
  simpl. now rewrite Hc.
Qed.

Lemma drop_trailing_blank (s ws : str) :
  blank ws -> drop_trailing is_space (s ++ ws) = drop_trailing is_space s.
Proof.
  intros Hws. induction s as [|x s IH].
  - simpl app. induction Hws as [|c ws Hc _ IHws]; [reflexivity|].
    rewrite drop_trailing_cons, IHws. simpl. now rewrite Hc.
  - simpl app. now rewrite !drop_trailing_cons, IH.
Qed.

Lemma strip_blank_after (s ws : str) : blank ws -> strip (s ++ ws) = strip s.
Proof.
  intros Hws. unfold strip. induction s as [|c s IH].
  - simpl app. rewrite <- (app_nil_r ws).
    now rewrite (drop_while_blank ws [] Hws).
  - simpl. destruct (is_space c); [exact IH|].
    now apply (drop_trailing_blank (c :: s)).
Qed.

Lemma strip_blank_around (a s b : str) :
  blank a -> blank b -> strip (a ++ s ++ b) = strip s.
Proof.
  intros Ha Hb. rewrite <- (strip_blank_after s b Hb).
  unfold strip. now rewrite (drop_while_blank a _ Ha).
Qed.

Lemma strip_noise_blank_around (a s b : str) :
  blank a -> blank b -> strip_noise (a ++ s ++ b) = strip_noise s.
Proof.
  intros Ha Hb. unfold strip_noise.
  rewrite (sub_fences_plain a _ (blank_no_tick a Ha)).
  rewrite (sub_fences_trailing_blank s b Hb).
  now apply strip_blank_around.
Qed.

Lemma clean_sql_query_by_noise (x y : str) :
  strip_noise x = strip_noise y -> clean_sql_query x = clean_sql_query y.
Proof. intros H. now rewrite !clean_sql_query_eq, H. Qed.

(** X18. White space before and after the candidate does not count: the
    guard treats the candidate with it as the candidate without it. *)
Theorem guard_ignores_blank_margins (before body after : str) :
  blank before -> blank after ->
  clean_sql_query (before ++ body ++ after) = clean_sql_query body.
Proof.
  intros Ha Hb. apply clean_sql_query_by_noise.
  now apply strip_noise_blank_around.
Qed.

Lemma guard_ignores_blank_margins_witness :
  clean_sql_query ($"
  " ++ $"select Name from Departments" ++ $"
") = clean_sql_query $"select Name from Departments".
Proof.
  apply guard_ignores_blank_margins; repeat constructor.
Defined.

(** X19. A fenced answer is read as its content: with [```sql] before and
    [```] after, and any white space around either, the guard does what it
    does on the text between the fences. *)
Theorem guard_reads_fenced_answer (ws0 ws1 body ws2 ws3 : str) :
  blank ws0 -> blank ws1 -> blank ws2 -> blank ws3 ->
  clean_sql_query (ws0 ++ $"```sql" ++ ws1 ++ body ++ ws2 ++ $"```" ++ ws3) =
  clean_sql_query body.
Proof.
  intros H0 H1 H2 H3. apply clean_sql_query_by_noise.
  rewrite <- (strip_noise_blank_around ws1 body ws2 H1 H2).
  unfold strip_noise.
  rewrite (sub_fences_plain ws0 _ (blank_no_tick ws0 H0)).
  rewrite sub_fences_leading_fence.
  replace (ws1 ++ body ++ ws2 ++ $"```" ++ ws3)
    with (((ws1 ++ body ++ ws2) ++ $"```") ++ ws3)
    by now rewrite <- !app_assoc.
  rewrite (sub_fences_trailing_blank _ ws3 H3), sub_fences_trailing_fence.
  now apply strip_blank_around.
Qed.

Lemma guard_reads_fenced_answer_witness :
  clean_sql_query ($" " ++ $"```sql" ++ $"
" ++ $"SELECT Name FROM Departments" ++ $"
" ++ $"```" ++ $"
") = clean_sql_query $"SELECT Name FROM Departments".
Proof.
  apply guard_reads_fenced_answer; repeat constructor.
Defined.

(** X20. A candidate that is already in shape (its upper-cased text begins
    with SELECT and has neither a forbidden token nor JOIN, and the candidate
    has no white space around it and no fence) passes with its text
    untouched but for the semicolons at its end, which become one. *)
Theorem guard_passes_plain_select (s : str) :
  begins_upper $"SELECT" s -> strip s = s -> ~ occurs $"```" s ->
  blacklist_free s -> ~ occurs_upper $"JOIN" s ->
  clean_sql_query s = Ok (rstrip_semi s ++ $";").
Proof.
  intros Hsel Hstrip Hfence Hfree Hjoin.
  assert (strip_noise s = s) as Hnoise.
  { unfold strip_noise. rewrite sub_fences_id; [exact Hstrip|].
    apply not_true_is_false. intros H. apply Hfence. now apply occurs_contains. }
  rewrite clean_sql_query_eq, Hnoise.
  apply blacklist_free_iff in Hfree. rewrite Hfree.
  apply begins_upper_iff in Hsel. unfold force_select.
  rewrite Hsel. simpl negb. cbv iota.
  unfold remove_joins.
  destruct (contains $"JOIN" (upper s)) eqn:E; [|reflexivity].
  exfalso. apply Hjoin. now apply occurs_upper_iff.
Qed.

Lemma guard_passes_plain_select_witness :
  clean_sql_query $"select Manager from Departments where Name = 'HR';;" =
  Ok (rstrip_semi $"select Manager from Departments where Name = 'HR';;" ++ $";").
Proof.
  apply guard_passes_plain_select.
  - apply begins_upper_iff. reflexivity.
  - reflexivity.
  - intros H. apply occurs_contains in H. discriminate H.
  - apply blacklist_free_iff. reflexivity.
  - intros H. apply occurs_upper_iff in H. discriminate H.
Defined.

(** *** What generate_sql_query returns *)

(** X8. The search finds the first word that follows an "of" and white
    space, and finds nothing exactly when the question has no such word. *)
Theorem search_of_first_word (s : str) :
  (forall word, search_of s = Some word <-> first_of_word s word) /\
  (search_of s = None <-> forall word, ~ first_of_word s word).
Proof.
  split; [intros word; apply search_of_iff|]. split.
  - intros H word Hw. apply search_of_iff in Hw. congruence.
  - intros H. destruct (search_of s) as [word|] eqn:E; [|reflexivity].
    apply search_of_iff in E. now destruct (H word).
Qed.

(** X9. [generate_sql_query] fails exactly when the model fails or the guard
    rejects the model's text, and then with that same exception: the
    override neither causes a failure nor recovers from one. *)
Theorem generate_fails_exactly (nl : str) (model : Model) (e : exn) :
  generate_sql_query nl model = Raise e <->
  model (context ++ nl) = Raise e \/
  exists out, model (context ++ nl) = Ok out /\ clean_sql_query out = Raise e.
Proof.
  unfold generate_sql_query, bind. cbv zeta.
  destruct (model (context ++ nl)) as [out|e0].
  - destruct (clean_sql_query out) as [q0|e1] eqn:Hc.
    + split.
      * destruct (contains $"Who" nl && contains $"manager" (lower nl));
          [destruct (search_of nl)|]; discriminate.
      * intros [H | [out' [H1 H2]]]; [discriminate|].
        injection H1 as <-. congruence.
    + split.
      * intros H. right. exists out. split; [reflexivity | congruence].
      * intros [H | [out' [H1 H2]]]; [discriminate|].
        injection H1 as <-. congruence.
  - split.
    + intros H. now left.
    + intros [H | [out' [H1 H2]]]; [exact H | discriminate].
Qed.

(** X10. Without "Who" in this very capitalisation, without "manager" in any
    letter case, or without a word after an "of", the override stays out:
    the result is what the guard makes of the model's text. *)
Theorem override_needs_all_three (nl : str) (model : Model) (out : str) :
  model (context ++ nl) = Ok out ->
  ~ occurs $"Who" nl \/ ~ occurs_nocase $"manager" nl \/
    (forall word, ~ first_of_word nl word) ->
  generate_sql_query nl model = clean_sql_query out.
Proof.
  intros Hm H. unfold generate_sql_query, bind. cbv zeta. rewrite Hm.
  destruct (clean_sql_query out) as [q0|]; [|reflexivity].
  destruct (contains $"Who" nl) eqn:Hwho.
  - destruct (contains $"manager" (lower nl)) eqn:Hman.
    + destruct (search_of nl) as [word|] eqn:Hs; [|reflexivity].
      exfalso. destruct H as [H | [H | H]].
      * apply H. now apply occurs_contains.
      * apply H. now apply lower_has_nocase.
      * apply (H word). now apply search_of_iff.
    + reflexivity.
  - reflexivity.
Qed.

Lemma override_needs_all_three_witness :
  generate_sql_query $"Who manages Sales?" (echo $"Name = 'Sales'") =
  clean_sql_query $"Name = 'Sales'".
Proof.
  apply (override_needs_all_three $"Who manages Sales?" (echo $"Name = 'Sales'")
           $"Name = 'Sales'" eq_refl).
  right. left. intros H. apply nocase_in_lower in H; [|reflexivity]. discriminate H.
Defined.

Lemma guard_output_statement (raw q : str) :
  clean_sql_query raw = Ok q -> select_statement q.
Proof.
  intros H.
  assert (blacklisted q = false) as Hfree.
  { destruct (guard_output_cases raw q H) as [-> | [w [-> [_ [Hb _]]]]];
      [reflexivity | now apply terminate_blacklisted]. }
  assert (forall tok, In tok blacklist -> ~ occurs_upper tok q) as Hno
    by now apply blacklist_free_iff.
  split; [|split; [|split]].
  - destruct (guard_output_cases raw q H) as [-> | [w [-> [Hsel _]]]];
      apply begins_upper_iff; [reflexivity | now apply terminate_begins].
  - destruct (guard_output_cases raw q H) as [-> | [w [-> _]]].
    + exists $"SELECT * FROM Departments WHERE Name = 'Sales'".
      split; [reflexivity|]. intros b Hb.
      apply (f_equal (fun l => last l " ")) in Hb.
      rewrite last_last in Hb. discriminate Hb.
    + exists (rstrip_semi w). split; [reflexivity|]. intros b Hb.
      apply drop_trailing_last in Hb. discriminate Hb.
  - apply Hno. simpl. tauto.
  - apply Hno. simpl. tauto.
Qed.

Lemma manager_query_statement (word : str) :
  Forall (fun c => is_word c = true) word -> select_statement (manager_query word).
Proof.
  intros Hchars.
  assert (forall tok c, In tok blacklist -> In c tok -> is_word c = false ->
                        is_ascii c = true -> is_upper c = false ->
                        ~ occurs_upper tok (manager_query word)) as Hmarker.
  { intros tok c Hin Hc Hnw Ha Hu Hocc.
    destruct (blacklist_outside_literal tok Hin) as [Hq [Hpre Hsuf]].
    apply occurs_upper_iff in Hocc.
    apply (keyword_inside_literal tok word Hq Hpre Hsuf) in Hocc.
    apply (word_upper_lacks word c Hchars Hnw Ha Hu).
    exact (contains_chars tok (upper word) c Hocc Hc). }
  split; [|split; [|split]].
  - exists (upper ($" Manager FROM Departments WHERE Name = '" ++ word ++ $"';")).
    unfold manager_query.
    change ($"SELECT Manager FROM Departments WHERE Name = '")
      with ($"SELECT" ++ $" Manager FROM Departments WHERE Name = '").
    now rewrite <- app_assoc, upper_app.
  - exists ($"SELECT Manager FROM Departments WHERE Name = '" ++ word ++ ["'"]).
    split.
    + unfold manager_query. now rewrite <- !app_assoc.
    + intros b Hb. rewrite app_assoc in Hb.
      apply app_inj_tail in Hb as [_ Hb]. discriminate Hb.
  - apply (Hmarker $"--" "-"); try reflexivity; simpl; tauto.
  - apply (Hmarker $"/*" "/"); try reflexivity; simpl; tauto.
Qed.

(** X11. Whichever way it was made, by the guard or by the override, a query
    that [generate_sql_query] returns ends with one semicolon, and its
    upper-cased text begins with SELECT and has no comment marker. *)
Theorem generated_query_is_select (nl : str) (model : Model) (q : str) :
  generate_sql_query nl model = Ok q ->
  begins_upper $"SELECT" q /\
  (exists body, q = body ++ [";"] /\ forall b, body <> b ++ [";"]) /\
  ~ occurs_upper $"--" q /\ ~ occurs_upper $"/*" q.
Proof.
  intros H.
  destruct (generate_sql_query_inv nl model q H) as [out [q0 [_ [Hc ->]]]].
  destruct (contains $"Who" nl && contains $"manager" (lower nl));
    [|now apply (guard_output_statement out)].
  destruct (search_of nl) as [word|] eqn:Hs;
    [|now apply (guard_output_statement out)].
  apply manager_query_statement.
  apply search_of_iff in Hs. now destruct (first_of_word_chars nl word Hs).
Qed.

Lemma generated_query_is_select_witness :
  begins_upper $"SELECT" $"SELECT Manager FROM Departments WHERE Name = 'HR';" /\
  (exists body, $"SELECT Manager FROM Departments WHERE Name = 'HR';" = body ++ [";"] /\
                forall b, body <> b ++ [";"]) /\
  ~ occurs_upper $"--" $"SELECT Manager FROM Departments WHERE Name = 'HR';" /\
  ~ occurs_upper $"/*" $"SELECT Manager FROM Departments WHERE Name = 'HR';".
Proof.
  apply (generated_query_is_select $"Who is the manager of HR?" (echo $"Name = 'HR';;")).
  reflexivity.
Defined.

(** *** The executor, one run and the session *)

(** X12. [execute_sql_query] returns no columns exactly when it returns a
    message instead of rows, and every message begins with
    [Database error: ] or [An error occurred: ]. *)
Theorem execute_result_consistent (db : Database) (query : str) :
  (fst (fst (execute_sql_query db query)) = None <->
   exists msg, snd (fst (execute_sql_query db query)) = ResStr msg) /\
  (forall msg, snd (fst (execute_sql_query db query)) = ResStr msg ->
     startswith msg $"Database error: " = true \/
     startswith msg $"An error occurred: " = true).
Proof.
  assert (forall f msg, ResStr (report_failure f) = ResStr msg ->
            startswith msg $"Database error: " = true \/
            startswith msg $"An error occurred: " = true) as Hreport.
  { intros [e|e] msg H; injection H as <-; [left | right];
      apply startswith_iff; eexists; reflexivity. }
  unfold execute_sql_query.
  destruct (connect_failure db) as [f|].
  - cbn [fst snd]. split; [split; eauto | apply Hreport].
  - destruct (run_statement db query) as [columns rows|f]; cbn [fst snd].
    + split; [split; [discriminate | intros [msg H]; discriminate H]
             | intros msg H; discriminate H].
    + split; [split; eauto | apply Hreport].
Qed.

Lemma main_executed (db : Database) (i : interaction) (st : session_state)
      (q : str) :
  In (DbExecute q) (snd (main db i st)) ->
  exists model rest,
    loaded i = Ok model /\
    generate_sql_query (nl_query i) model = Ok q /\
    snd (main db i st) =
    [UiSubheader $"Generated SQL Query:"; UiCode q;
     DbConnect; DbExecute q; DbClose] ++ rest.
Proof.
  unfold main, execute_sql_query.
  destruct (loaded i) as [model|];
    [|intros [H | []]; discriminate H].
  destruct (button i); simpl negb; cbv iota; [|intros []].
  destruct (strip (nl_query i)); [intros [H | []]; discriminate H|].
  destruct (generate_sql_query (nl_query i) model) as [q0|] eqn:Hg;
    [|intros [H | []]; discriminate H].
  destruct (connect_failure db) as [f|];
    [|destruct (run_statement db q0) as [columns [|row rows]|f]];
    try destruct (Nat.leb 3 (count_of st + 1));
    cbn [fst snd app In]; intros H;
    repeat (destruct H as [H | H]; try discriminate H); try contradiction;
    injection H as ->; exists model; eexists;
    (split; [reflexivity | split; [exact Hg | reflexivity]]).
Qed.

(** X13. A statement reaches the database only after it has been shown to
    the user, and it is a SELECT statement that ends with one semicolon and
    has no comment marker, whatever the model and the question were. *)
Theorem executed_statement_shown_select (db : Database) (i : interaction)
        (st : session_state) (q : str) :
  In (DbExecute q) (snd (main db i st)) ->
  select_statement q /\
  exists before between after,
    snd (main db i st) = before ++ UiCode q :: between ++ DbExecute q :: after.
Proof.
  intros H. destruct (main_executed db i st q H) as [model [rest [_ [Hg E]]]].
  split.
  - destruct (generate_sql_query_inv _ model q Hg) as [out [q0 [_ [Hc ->]]]].
    destruct (contains $"Who" (nl_query i) &&
              contains $"manager" (lower (nl_query i)));
      [|now apply (guard_output_statement out)].
    destruct (search_of (nl_query i)) as [word|] eqn:Hs;
      [|now apply (guard_output_statement out)].
    apply manager_query_statement. apply search_of_iff in Hs.
    now destruct (first_of_word_chars (nl_query i) word Hs).
  - exists [UiSubheader $"Generated SQL Query:"], [DbConnect], (DbClose :: rest).
    exact E.
Qed.

Lemma executed_statement_shown_select_witness :
  select_statement $"SELECT * FROM Departments;".
Proof.
  apply (executed_statement_shown_select seeded ask_all new_session).
  cbv. tauto.
Defined.

(** X14. In one run the script opens at most one connection, runs a
    statement only on a connection it has opened, and closes the connection
    whenever it has run a statement; with a reachable database every
    connection opened is closed. *)
Theorem connection_closed (db : Database) (i : interaction) (st : session_state) :
  connects (snd (main db i st)) <= 1 /\
  executions (snd (main db i st)) <= connects (snd (main db i st)) /\
  closes (snd (main db i st)) = executions (snd (main db i st)) /\
  (connect_failure db = None ->
   closes (snd (main db i st)) = connects (snd (main db i st))).
Proof.
  unfold main, execute_sql_query.
  destruct (loaded i) as [model|]; [|cbn; repeat split; lia].
  destruct (button i); [|cbn; repeat split; lia]. simpl negb. cbv iota.
  destruct (strip (nl_query i)); [cbn; repeat split; lia|].
  destruct (generate_sql_query (nl_query i) model) as [q|];
    [|cbn; repeat split; lia].
  destruct (connect_failure db) as [f|];
    [|destruct (run_statement db q) as [columns [|row rows]|f]];
    try destruct (Nat.leb 3 (count_of st + 1)); cbn;
    repeat split; try lia; discriminate.
Qed.

(** X15. The hint is shown in a run exactly when the database failed in it
    and the counter has come to three or more; a request that the guard or
    the model made fail never shows it, whatever the counter. *)
Theorem hint_only_on_execution_failure (db : Database) (i : interaction)
        (st : session_state) :
  In (UiWarning rephrase_hint) (snd (main db i st)) <->
  outcome_of db i = ExecutionFailed /\ 3 <= count_of st + 1.
Proof.
  split.
  - intros H.
    assert (outcome_of db i = ExecutionFailed) as Hout.
    { revert H. unfold main, outcome_of, execute_sql_query.
      destruct (loaded i) as [model|];
        [|intros [H | []]; discriminate H].
      destruct (button i); simpl negb; cbv iota; [|intros []].
      destruct (strip (nl_query i)); [intros [H | []]; discriminate H|].
      destruct (generate_sql_query (nl_query i) model) as [q0|];
        [|intros [H | []]; discriminate H].
      destruct (connect_failure db) as [f|];
        [|destruct (run_statement db q0) as [columns [|row rows]|f]];
        cbn [fst snd app In]; intros H; try reflexivity;
        repeat (destruct H as [H | H]; try discriminate H); contradiction. }
    split; [exact Hout|]. now apply (main_hint db i st Hout).
  - intros [Hout Hle]. now apply (main_hint db i st Hout).
Qed.

(** X16. Over a session the counter is the number of failed requests since
    the last successful non-empty result: a success with rows sets it to
    zero, a failure adds one, and an empty result or a run without request
    leaves it as it is. Each run leaves one trace. *)
Theorem session_counter (db : Database) (runs : list interaction)
        (st : session_state) :
  count_of (fst (session db runs st)) = fold_left (tally db) runs (count_of st) /\
  List.length (snd (session db runs st)) = List.length runs.
Proof.
  revert st. induction runs as [|i runs IH]; intros st; [now split|].
  rewrite session_cons. cbn [fst snd fold_left List.length].
  destruct (IH (fst (main db i st))) as [IHc IHl].
  rewrite IHc, IHl, main_counter. now split.
Qed.

(** X17. A run without request (the model did not load, the button was not
    pressed, or the question is blank) leaves the counter as it is, shows no
    query and does not touch the database; a question of white space only
    is such a run. *)
Theorem no_request_no_effect (db : Database) (i : interaction) (st : session_state) :
  (strip (nl_query i) = [] -> outcome_of db i = NoRequest) /\
  (outcome_of db i = NoRequest ->
   fst (main db i st) = counting (count_of st) /\
   connects (snd (main db i st)) = 0 /\
   forall q, ~ In (UiCode q) (snd (main db i st))).
Proof.
  split.
  - intros H. unfold outcome_of. rewrite H.
    destruct (loaded i); [|reflexivity]. now destruct (button i).
  - unfold main, outcome_of, execute_sql_query.
    destruct (loaded i) as [model|].
    2:{ intros _. repeat split. intros q [H | []]. discriminate H. }
    destruct (button i); simpl negb; cbv iota.
    2:{ intros _. repeat split. intros q []. }
    destruct (strip (nl_query i)).
    { intros _. repeat split. intros q [H | []]. discriminate H. }
    destruct (generate_sql_query (nl_query i) model) as [q0|]; [|discriminate].
    destruct (connect_failure db) as [f|];
      [|destruct (run_statement db q0) as [columns [|row rows]|f]];
      cbn [fst snd]; discriminate.
Qed.

(** ** Checks on concrete inputs *)

Example clean_fenced :
  clean_sql_query $"```sql
SELECT Name FROM Departments;;
```" = Ok $"SELECT Name FROM Departments;".
Proof. reflexivity. Qed.

Example clean_bare_predicate :
  clean_sql_query $"Name = 'HR'" = Ok $"SELECT * FROM Departments WHERE Name = 'HR';".
Proof. reflexivity. Qed.

Example clean_empty :
  clean_sql_query [] = Ok $"SELECT * FROM Departments WHERE ;".
Proof. reflexivity. Qed.

Example clean_join :
  clean_sql_query $"select * from a join b" = Ok sales_fallback.
Proof. reflexivity. Qed.

Example clean_drop :
  clean_sql_query $"DROP TABLE Departments" = Raise rejection.
Proof. reflexivity. Qed.

Example clean_embedded_keyword :
  clean_sql_query $"SELECT * FROM Departments WHERE Name = 'Updates'" =
  Raise rejection.
Proof. reflexivity. Qed.

(** A dotless i becomes [I] in upper case: the guard sees INSERT. *)
Example clean_dotless_i :
  clean_sql_query (305%N :: $"nsert into t") = Raise rejection.
Proof. vm_compute. reflexivity. Qed.

(** A long s becomes [S] in upper case: the text counts as a SELECT and is
    not wrapped. *)
Example clean_long_s :
  clean_sql_query (383%N :: $"elect 1") = Ok (383%N :: $"elect 1;").
Proof. vm_compute. reflexivity. Qed.

(** A no-break space and an ideographic space are trimmed. *)
Example clean_unicode_margins :
  clean_sql_query (160%N :: $"SELECT 1" ++ [12288%N]) = Ok $"SELECT 1;".
Proof. vm_compute. reflexivity. Qed.

Example upper_sharp_s : upper ($"stra" ++ 223%N :: $"e") = $"STRASSE".
Proof. vm_compute. reflexivity. Qed.

Example lower_final_sigma :
  lower [927; 916; 927; 931]%N = [959; 948; 959; 962]%N.
Proof. vm_compute. reflexivity. Qed.

Example lower_kelvin_sign : lower [8490%N] = $"k".
Proof. vm_compute. reflexivity. Qed.

Example lower_dotted_capital_i : lower [304%N] = [105; 775]%N.
Proof. vm_compute. reflexivity. Qed.

Example sub_fences_runs :
  sub_fences $"``````sql``x````sql`" = $"``x`sql`".
Proof. reflexivity. Qed.

Example search_inside_a_word :
  search_of $"Who has proof manager  of_x y" = Some $"manager".
Proof. reflexivity. Qed.

(** The word after "of" may have letters beyond ASCII, and the white space
    may be a no-break space. *)
Example search_accented_word :
  search_of ($"Who is the manager of Caf" ++ 233%N :: $"?") =
  Some ($"Caf" ++ [233%N]).
Proof. vm_compute. reflexivity. Qed.

Example search_no_break_space :
  search_of ($"manager of" ++ 160%N :: $"Sales") = Some $"Sales".
Proof. vm_compute. reflexivity. Qed.

Example show_all_departments :
  main seeded ask_all (counting 2) =
  (counting 0,
   [ UiSubheader $"Generated SQL Query:";
     UiCode $"SELECT * FROM Departments;";
     DbConnect; DbExecute $"SELECT * FROM Departments;"; DbClose;
     UiSubheader $"Query Results:";
     UiDataframe [$"Name"; $"Manager"]
                 [ [$"Sales"; $"John Smith"];
                   [$"Marketing"; $"Jane Doe"];
                   [$"Engineering"; $"Bob Wilson"];
                   [$"HR"; $"Sarah Johnson"];
                   [$"Finance"; $"Mike Brown"] ] ]).
Proof. reflexivity. Qed.

(** Three rejections in a row: the counter is at three and no run has shown
    the hint. *)
Example three_rejections :
  session seeded [ask_drop; ask_drop; ask_drop] new_session =
  (counting 3,
   [ [UiError request_failed]; [UiError request_failed]; [UiError request_failed] ]).
Proof. reflexivity. Qed.
